(** * sqlmap_gui_swe.py: command assembly and process supervision

    A shallow embedding of the two parts of [sqlmap_gui_swe.py] that carry
    behaviour: [SqlmapGui.build_sqlmap_command], which turns the state of the
    option widgets into an argument vector, and [SqlmapRunnerThread], which
    runs that vector as a child process and reports through three signals.

    Conventions.
    - A Python [str] is the [string] of the bytes of its UTF-8 encoding:
      a character below 128 is one byte, any other character is the two
      to four bytes of its encoding.
    - A Python [int] is a [Z]; handles, which only count up from 0, are [nat].
    - A Python [dict] is an association list in insertion order, because
      the assembler emits options in the order [widgets_map] was filled.
    - Calls that leave the program (the file system, the child process,
      [shlex]) take their answers from an explicit environment. *)

From Stdlib Require Import String Ascii List ZArith Lia Bool DecimalString Sorted.
From Stdlib Require Import DecimalPos DecimalZ.
Import ListNotations.
Local Open Scope string_scope.
Local Open Scope list_scope.

Infix "+++" := String.append (right associativity, at level 60).

(** ** Python values and string methods *)

Module Py.

(** The objects that reach a comparison or an f-string in the modelled code. *)
Inductive py_obj :=
| PyNone
| PyBool (b : bool)
| PyInt (z : Z)
| PyStr (s : string).

(** [a == b].  [bool] is a subclass of [int], so [True == 1]. *)
Definition py_eq (a b : py_obj) : bool :=
  match a, b with
  | PyNone, PyNone => true
  | PyBool x, PyBool y => Bool.eqb x y
  | PyBool x, PyInt z | PyInt z, PyBool x => (Z.b2z x =? z)%Z
  | PyInt x, PyInt y => (x =? y)%Z
  | PyStr x, PyStr y => (x =? y)%string
  | _, _ => false
  end.

Definition is_None (a : py_obj) : bool :=
  match a with PyNone => true | _ => false end.

(** [a is True] *)
Definition is_True (a : py_obj) : bool :=
  match a with PyBool true => true | _ => false end.

(** [isinstance(a, bool)] *)
Definition isinstance_bool (a : py_obj) : bool :=
  match a with PyBool _ => true | _ => false end.

(** [str(z)] for an integer. *)
Definition str_of_int (z : Z) : string :=
  NilZero.string_of_int (Z.to_int z).

(** [str(a)], which is what an f-string applies to a value. *)
Definition str (a : py_obj) : string :=
  match a with
  | PyNone => "None"
  | PyBool true => "True"
  | PyBool false => "False"
  | PyInt z => str_of_int z
  | PyStr s => s
  end.

(** The characters [c.isspace()] accepts, each by the bytes of its UTF-8
    encoding: TAB, LF, VT, FF, CR, the separators FS, GS, RS, US, the
    space, U+0085, U+00A0, U+1680, U+2000 to U+200A, U+2028, U+2029,
    U+202F, U+205F and U+3000. *)
Definition utf8 (codes : list nat) : list ascii := map ascii_of_nat codes.

Definition whitespace : list (list ascii) :=
  map utf8
    [ [9]; [10]; [11]; [12]; [13]; [28]; [29]; [30]; [31]; [32];
      [194; 133]; [194; 160];
      [225; 154; 128];
      [226; 128; 128]; [226; 128; 129]; [226; 128; 130]; [226; 128; 131];
      [226; 128; 132]; [226; 128; 133]; [226; 128; 134]; [226; 128; 135];
      [226; 128; 136]; [226; 128; 137]; [226; 128; 138];
      [226; 128; 168]; [226; 128; 169]; [226; 128; 175];
      [226; 129; 159];
      [227; 128; 128] ]%nat.

(** [l] begins with the bytes [w]. *)
Fixpoint starts_with (w l : list ascii) : bool :=
  match w, l with
  | [], _ => true
  | a :: w', b :: l' => (a =? b)%char && starts_with w' l'
  | _ :: _, [] => false
  end.

(** What follows the first of [patterns] that [l] begins with, if any. *)
Fixpoint after_pattern (patterns : list (list ascii)) (l : list ascii)
    : option (list ascii) :=
  match patterns with
  | [] => None
  | w :: others =>
      if starts_with w l then Some (skipn (length w) l)
      else after_pattern others l
  end.

(** Take [patterns] off the front of [l] for as long as one is there;
    [fuel] bounds the number of rounds, and the length of [l] is enough. *)
Fixpoint strip_front (patterns : list (list ascii)) (fuel : nat)
    (l : list ascii) : list ascii :=
  match fuel with
  | O => l
  | S n =>
      match after_pattern patterns l with
      | Some rest => strip_front patterns n rest
      | None => l
      end
  end.

Definition lstrip_bytes (l : list ascii) : list ascii :=
  strip_front whitespace (length l) l.

(** The end of a text is the front of its bytes read backwards, and in
    UTF-8 the last bytes of a text are those of its last character. *)
Definition rstrip_bytes (l : list ascii) : list ascii :=
  rev (strip_front (map (@rev ascii) whitespace) (length l) (rev l)).

(** [s.strip()] *)
Definition strip (s : string) : string :=
  string_of_list_ascii
    (rstrip_bytes (lstrip_bytes (list_ascii_of_string s))).

(** [s.startswith(p)] *)
Definition startswith (s p : string) : bool := String.prefix p s.

(** [s.endswith(p)] *)
Definition endswith (s p : string) : bool :=
  let n := String.length s in
  let k := String.length p in
  (k <=? n)%nat && (substring (n - k) k s =? p)%string.

Definition lower_char (c : ascii) : ascii :=
  let n := nat_of_ascii c in
  if ((65 <=? n) && (n <=? 90))%nat then ascii_of_nat (n + 32) else c.

(** [s.lower()], on the letters A to Z. *)
Fixpoint lower (s : string) : string :=
  match s with
  | EmptyString => EmptyString
  | String c rest => String (lower_char c) (lower rest)
  end.

(** [sep.join(parts)] *)
Definition join (sep : string) (parts : list string) : string :=
  String.concat sep parts.

(** [set(a) != set(b)] for two strings: some character of one is missing
    from the other. *)
Definition set_ne (a b : string) : bool :=
  let la := list_ascii_of_string a in
  let lb := list_ascii_of_string b in
  negb (forallb (fun c => existsb (Ascii.eqb c) lb) la
        && forallb (fun c => existsb (Ascii.eqb c) la) lb).

(** What a call does: it raises or it returns. *)
Inductive result (A : Type) :=
| Raised (exc : string)
| Returned (a : A).
Arguments Raised {A} exc.
Arguments Returned {A} a.

(** A dict in insertion order.  [d[k] = v] keeps the place of a key that is
    already there and appends a new one; [del d[k]] leaves no binding of
    the key. *)
Definition dict (K V : Type) := list (K * V).

Section Dict.
Context {K V : Type} (eqb : K -> K -> bool).

Fixpoint dict_get (d : dict K V) (k : K) : option V :=
  match d with
  | [] => None
  | (k', v) :: rest => if eqb k k' then Some v else dict_get rest k
  end.

Fixpoint dict_set (d : dict K V) (k : K) (v : V) : dict K V :=
  match d with
  | [] => [(k, v)]
  | (k', v') :: rest =>
      if eqb k k' then (k', v) :: rest else (k', v') :: dict_set rest k v
  end.

Fixpoint dict_del (d : dict K V) (k : K) : dict K V :=
  match d with
  | [] => []
  | (k', v') :: rest =>
      if eqb k k' then dict_del rest k else (k', v') :: dict_del rest k
  end.

Definition dict_mem (d : dict K V) (k : K) : bool :=
  match dict_get d k with Some _ => true | None => false end.

End Dict.

End Py.
Import Py.

(** ** The option form: widgets and their catalogue *)

Module Form.

(** The widget classes [add_widget_option] instantiates, each with the part
    of its state the program reads. *)
Inductive QWidget :=
| QLineEdit (text : string)
| QTextEdit (toPlainText : string)
| QCheckBox (isChecked : bool)
| QComboBox (items : list string) (currentIndex : Z)
| QSpinBox (minimum maximum value : Z)
| QLabel (text : string).

(** [combo.currentText()]: the text of the current item, empty when no item
    is current. *)
Definition currentText (items : list string) (currentIndex : Z) : string :=
  if (0 <=? currentIndex)%Z && (currentIndex <? Z.of_nat (length items))%Z
  then nth (Z.to_nat currentIndex) items ""
  else "".

(** The [widget_type] argument of [add_widget_option]. *)
Inductive widget_type :=
| lineedit | textarea | checkbox | combo | spin | file | directory
| unimplemented (name : string).

Definition is_checkbox (t : widget_type) : bool :=
  match t with checkbox => true | _ => false end.

(** One value of [widgets_map]: the keys "widget", "flag", "type", "default",
    "default_text" and "default_index" ("container" only serves the layout). *)
Record data := {
  widget : QWidget;
  flag : string;
  type : widget_type;
  default : py_obj;
  default_text : string;
  default_index : Z
}.

Definition widgets_map := dict string data.

(** The keyword arguments of [add_widget_option] that reach [widgets_map] or
    the state of the widget ([tooltip], [is_save] and [step] do not). *)
Inductive kwarg :=
| kw_default (v : py_obj)
| kw_default_text (s : string)
| kw_default_index (i : Z)
| kw_items (l : list string)
| kw_range (lo hi : Z).

Fixpoint find_default (kw : list kwarg) : option py_obj :=
  match kw with
  | [] => None
  | kw_default v :: _ => Some v
  | _ :: rest => find_default rest
  end.

(** [kwargs.get('default', dflt)] *)
Definition get_default (kw : list kwarg) (dflt : py_obj) : py_obj :=
  match find_default kw with Some v => v | None => dflt end.

(** The truth value of an object, as [setChecked] takes it. *)
Definition truthy (a : py_obj) : bool :=
  match a with
  | PyNone => false
  | PyBool b => b
  | PyInt z => negb (z =? 0)%Z
  | PyStr s => negb (s =? "")%string
  end.

Fixpoint get_default_text (kw : list kwarg) : option string :=
  match kw with
  | [] => None
  | kw_default_text s :: _ => Some s
  | _ :: rest => get_default_text rest
  end.

Fixpoint get_default_index (kw : list kwarg) (dflt : Z) : Z :=
  match kw with
  | [] => dflt
  | kw_default_index i :: _ => i
  | _ :: rest => get_default_index rest dflt
  end.

Fixpoint get_items (kw : list kwarg) : list string :=
  match kw with
  | [] => []
  | kw_items l :: _ => l
  | _ :: rest => get_items rest
  end.

Fixpoint get_range (kw : list kwarg) : Z * Z :=
  match kw with
  | [] => (0, 99999)%Z
  | kw_range lo hi :: _ => (lo, hi)
  | _ :: rest => get_range rest
  end.

(** [spin.setValue(v)] takes a C [int]: a number outside its range raises
    OverflowError before the widget is reached, whatever the widget's range.
    [c_int v] says that the call goes through; [setValue] is what it then
    does, which is to keep the value inside the range. *)
Definition c_int (v : Z) : bool :=
  ((-2147483648 <=? v) && (v <=? 2147483647))%Z.

Definition setValue (lo hi v : Z) : Z := Z.max lo (Z.min hi v).

(** The widget [add_widget_option] builds for a type.  A combo box that
    receives its first items makes the first one current, after which the
    code moves to [default_index] when that is a valid index.  The calls
    modelled are those that return: one whose spin default is no C [int]
    raises out of [add_widget_option] and builds no form. *)
Definition new_widget (t : widget_type) (kw : list kwarg) : QWidget :=
  match t with
  | lineedit =>
      QLineEdit (match get_default_text kw with Some s => s | None => "" end)
  | textarea =>
      QTextEdit (match get_default_text kw with Some s => s | None => "" end)
  | checkbox =>
      QCheckBox (match find_default kw with Some v => truthy v | None => false end)
  | combo =>
      let items := get_items kw in
      let default_index := get_default_index kw (-1) in
      let count := Z.of_nat (length items) in
      QComboBox items
        (if (0 <=? default_index)%Z && (default_index <? count)%Z
         then default_index
         else if (0 <? count)%Z then 0%Z else (-1)%Z)
  | spin =>
      let '(lo, hi) := get_range kw in
      QSpinBox lo hi
        (setValue lo hi
           (match get_default kw (PyInt 0) with
            | PyInt z => z
            | PyBool b => Z.b2z b
            | _ => 0%Z
            end))
  | file | directory => QLineEdit ""
  | unimplemented name => QLabel ("Unimplemented: " +++ name)
  end.

(** [add_widget_option(layout, label, widget_id, flag, widget_type, **kwargs)]
    as far as [widgets_map] is concerned. *)
Definition add_widget_option (wm : widgets_map) (widget_id flag : string)
    (t : widget_type) (kw : list kwarg) : widgets_map :=
  dict_set String.eqb wm widget_id
    {| widget := new_widget t kw;
       flag := flag;
       type := t;
       default := get_default kw
                    (match t with
                     | checkbox => PyBool false
                     | spin => PyInt 0
                     | _ => PyNone
                     end);
       default_text := match get_default_text kw with
                       | Some s => s
                       | None => ""
                       end;
       default_index := get_default_index kw (-1) |}.

(** One call of [add_widget_option]: id, flag, type, keyword arguments. *)
Definition call : Type := string * string * widget_type * list kwarg.

(** The calls [create_option_tab_content] makes for a category, in order. *)
Definition create_option_tab_content (category_name : string) : list call :=
  if category_name =? "Target" then [
    ("target_url", "-u", lineedit, []);
    ("target_direct", "-d", lineedit, []);
    ("target_log", "-l", file, []);
    ("target_bulk", "-m", file, []);
    ("target_requestfile", "-r", file, []);
    ("target_google", "-g", lineedit, []);
    ("target_config", "-c", file, [])
  ]
  else if category_name =? "Request" then [
    ("req_agent", "-A", lineedit, []);
    ("req_header", "-H", lineedit, []);
    ("req_method", "--method", combo,
       [kw_items [""; "GET"; "POST"; "PUT"; "DELETE"; "PATCH"; "HEAD"; "OPTIONS"]]);
    ("req_data", "--data", lineedit, []);
    ("req_param_del", "--param-del", lineedit, []);
    ("req_cookie", "--cookie", lineedit, []);
    ("req_cookie_del", "--cookie-del", lineedit, []);
    ("req_live_cookies", "--live-cookies", file, []);
    ("req_load_cookies", "--load-cookies", file, []);
    ("req_drop_cookie", "--drop-set-cookie", checkbox, []);
    ("req_http2", "--http2", checkbox, []);
    ("req_mobile", "--mobile", checkbox, []);
    ("req_random_agent", "--random-agent", checkbox, []);
    ("req_host", "--host", lineedit, []);
    ("req_referer", "--referer", lineedit, []);
    ("req_headers", "--headers", textarea, []);
    ("req_auth_type", "--auth-type", combo,
       [kw_items [""; "Basic"; "Digest"; "Bearer"; "NTLM"]]);
    ("req_auth_cred", "--auth-cred", lineedit, []);
    ("req_auth_file", "--auth-file", file, []);
    ("req_abort_code", "--abort-code", lineedit, []);
    ("req_ignore_code", "--ignore-code", lineedit, []);
    ("req_ignore_proxy", "--ignore-proxy", checkbox, []);
    ("req_ignore_redirects", "--ignore-redirects", checkbox, []);
    ("req_ignore_timeouts", "--ignore-timeouts", checkbox, []);
    ("req_proxy", "--proxy", lineedit, []);
    ("req_proxy_cred", "--proxy-cred", lineedit, []);
    ("req_proxy_file", "--proxy-file", file, []);
    ("req_proxy_freq", "--proxy-freq", spin,
       [kw_range 1 1000; kw_default (PyInt 1)]);
    ("req_tor", "--tor", checkbox, []);
    ("req_tor_port", "--tor-port", spin,
       [kw_range 1 65535; kw_default (PyInt 9050)]);
    ("req_tor_type", "--tor-type", combo,
       [kw_items ["SOCKS5"; "SOCKS4"; "HTTP"]; kw_default_index 0]);
    ("req_check_tor", "--check-tor", checkbox, []);
    ("req_delay", "--delay", spin, [kw_range 0 300; kw_default (PyInt 0)]);
    ("req_timeout", "--timeout", spin,
       [kw_range 1 600; kw_default (PyInt 30)]);
    ("req_retries", "--retries", spin, [kw_range 0 10; kw_default (PyInt 3)]);
    ("req_retry_on", "--retry-on", lineedit, []);
    ("req_randomize", "--randomize", lineedit, []);
    ("req_safe_url", "--safe-url", lineedit, []);
    ("req_safe_post", "--safe-post", lineedit, []);
    ("req_safe_req", "--safe-req", file, []);
    ("req_safe_freq", "--safe-freq", spin,
       [kw_range 1 100; kw_default (PyInt 1)]);
    ("req_skip_urlencode", "--skip-urlencode", checkbox, []);
    ("req_csrf_token", "--csrf-token", lineedit, []);
    ("req_csrf_url", "--csrf-url", lineedit, []);
    ("req_csrf_method", "--csrf-method", combo,
       [kw_items [""; "GET"; "POST"]]);
    ("req_csrf_data", "--csrf-data", lineedit, []);
    ("req_csrf_retries", "--csrf-retries", spin,
       [kw_range 0 10; kw_default (PyInt 0)]);
    ("req_force_ssl", "--force-ssl", checkbox, []);
    ("req_chunked", "--chunked", checkbox, []);
    ("req_hpp", "--hpp", checkbox, []);
    ("req_eval", "--eval", textarea, [])
  ]
  else if category_name =? "Optimization" then [
    ("opt_o", "-o", checkbox, []);
    ("opt_predict", "--predict-output", checkbox, []);
    ("opt_keep_alive", "--keep-alive", checkbox, []);
    ("opt_null_conn", "--null-connection", checkbox, []);
    ("opt_threads", "--threads", spin, [kw_range 1 100; kw_default (PyInt 1)])
  ]
  else if category_name =? "Injection" then [
    ("inj_p", "-p", lineedit, []);
    ("inj_skip", "--skip", lineedit, []);
    ("inj_skip_static", "--skip-static", checkbox, []);
    ("inj_param_exclude", "--param-exclude", lineedit, []);
    ("inj_param_filter", "--param-filter", lineedit, []);
    ("inj_dbms", "--dbms", lineedit, []);
    ("inj_dbms_cred", "--dbms-cred", lineedit, []);
    ("inj_os", "--os", combo, [kw_items [""; "Linux"; "Windows"]]);
    ("inj_invalid_bignum", "--invalid-bignum", checkbox, []);
    ("inj_invalid_logical", "--invalid-logical", checkbox, []);
    ("inj_invalid_string", "--invalid-string", checkbox, []);
    ("inj_no_cast", "--no-cast", checkbox, []);
    ("inj_no_escape", "--no-escape", checkbox, []);
    ("inj_prefix", "--prefix", lineedit, []);
    ("inj_suffix", "--suffix", lineedit, []);
    ("inj_tamper", "--tamper", lineedit, [])
  ]
  else if category_name =? "Detection" then [
    ("det_level", "--level", spin, [kw_range 1 5; kw_default (PyInt 1)]);
    ("det_risk", "--risk", spin, [kw_range 1 3; kw_default (PyInt 1)]);
    ("det_string", "--string", lineedit, []);
    ("det_not_string", "--not-string", lineedit, []);
    ("det_regexp", "--regexp", lineedit, []);
    ("det_code", "--code", spin, [kw_range 100 599; kw_default (PyInt 200)]);
    ("det_smart", "--smart", checkbox, []);
    ("det_text_only", "--text-only", checkbox, []);
    ("det_titles", "--titles", checkbox, [])
  ]
  else if category_name =? "Techniques" then [
    ("tech_B", "B", checkbox, [kw_default (PyBool true)]);
    ("tech_E", "E", checkbox, [kw_default (PyBool true)]);
    ("tech_U", "U", checkbox, [kw_default (PyBool true)]);
    ("tech_S", "S", checkbox, [kw_default (PyBool true)]);
    ("tech_T", "T", checkbox, [kw_default (PyBool true)]);
    ("tech_Q", "Q", checkbox, [kw_default (PyBool true)]);
    ("tech_time_sec", "--time-sec", spin,
       [kw_range 1 300; kw_default (PyInt 5)]);
    ("tech_union_cols", "--union-cols", lineedit, []);
    ("tech_union_char", "--union-char", lineedit, []);
    ("tech_union_from", "--union-from", lineedit, []);
    ("tech_union_values", "--union-values", lineedit, []);
    ("tech_dns_domain", "--dns-domain", lineedit, []);
    ("tech_second_url", "--second-url", lineedit, []);
    ("tech_second_req", "--second-req", file, [])
  ]
  else if category_name =? "Fingerprint" then [
    ("fp_f", "--fingerprint", checkbox, [])
  ]
  else if category_name =? "Enumeration" then [
    ("enum_all", "--all", checkbox, []);
    ("enum_banner", "--banner", checkbox, []);
    ("enum_current_user", "--current-user", checkbox, []);
    ("enum_current_db", "--current-db", checkbox, []);
    ("enum_hostname", "--hostname", checkbox, []);
    ("enum_is_dba", "--is-dba", checkbox, []);
    ("enum_users", "--users", checkbox, []);
    ("enum_passwords", "--passwords", checkbox, []);
    ("enum_privileges", "--privileges", checkbox, []);
    ("enum_roles", "--roles", checkbox, []);
    ("enum_dbs", "--dbs", checkbox, []);
    ("enum_tables", "--tables", checkbox, []);
    ("enum_columns", "--columns", checkbox, []);
    ("enum_schema", "--schema", checkbox, []);
    ("enum_count", "--count", checkbox, []);
    ("enum_dump", "--dump", checkbox, []);
    ("enum_dump_all", "--dump-all", checkbox, []);
    ("enum_search", "--search", checkbox, []);
    ("enum_comments", "--comments", checkbox, []);
    ("enum_statements", "--statements", checkbox, []);
    ("enum_exclude_sysdbs", "--exclude-sysdbs", checkbox, []);
    ("enum_sql_shell", "--sql-shell", checkbox, []);
    ("enum_D", "-D", lineedit, []);
    ("enum_T", "-T", lineedit, []);
    ("enum_C", "-C", lineedit, []);
    ("enum_U", "-U", lineedit, []);
    ("enum_X", "-X", lineedit, []);
    ("enum_pivot_col", "--pivot-column", lineedit, []);
    ("enum_where", "--where", lineedit, []);
    ("enum_start", "--start", spin, [kw_range 0 999999; kw_default (PyInt 0)]);
    ("enum_stop", "--stop", spin, [kw_range 0 999999; kw_default (PyInt 0)]);
    ("enum_first", "--first", spin, [kw_range 0 999; kw_default (PyInt 0)]);
    ("enum_last", "--last", spin, [kw_range 0 999; kw_default (PyInt 0)]);
    ("enum_sql_query", "--sql-query", textarea, []);
    ("enum_sql_file", "--sql-file", file, [])
  ]
  else if category_name =? "Brute force" then [
    ("brute_tables", "--common-tables", checkbox, []);
    ("brute_columns", "--common-columns", checkbox, []);
    ("brute_files", "--common-files", checkbox, [])
  ]
  else if category_name =? "User-defined function injection" then [
    ("udf_inject", "--udf-inject", checkbox, []);
    ("udf_shlib", "--shared-lib", file, [])
  ]
  else if category_name =? "File system access" then [
    ("fs_read", "--file-read", lineedit, []);
    ("fs_write", "--file-write", file, []);
    ("fs_dest", "--file-dest", lineedit, [])
  ]
  else if category_name =? "Operating system access" then [
    ("os_cmd", "--os-cmd", lineedit, []);
    ("os_shell", "--os-shell", checkbox, []);
    ("os_pwn", "--os-pwn", checkbox, []);
    ("os_smbrelay", "--os-smbrelay", checkbox, []);
    ("os_bof", "--os-bof", checkbox, []);
    ("os_privesc", "--priv-esc", checkbox, []);
    ("os_msfpath", "--msf-path", directory, []);
    ("os_tmppath", "--tmp-path", lineedit, [])
  ]
  else if category_name =? "Windows registry access" then [
    ("reg_read", "--reg-read", checkbox, []);
    ("reg_add", "--reg-add", checkbox, []);
    ("reg_del", "--reg-del", checkbox, []);
    ("reg_key", "--reg-key", lineedit, []);
    ("reg_value", "--reg-value", lineedit, []);
    ("reg_data", "--reg-data", lineedit, []);
    ("reg_type", "--reg-type", combo,
       [kw_items ["REG_SZ"; "REG_DWORD"; "REG_BINARY"; "REG_MULTI_SZ"; "REG_EXPAND_SZ"]])
  ]
  else if category_name =? "General" then [
    ("gen_s", "-s", file, []);
    ("gen_t", "-t", file, []);
    ("gen_abort_empty", "--abort-on-empty", checkbox, []);
    ("gen_answers", "--answers", lineedit, []);
    ("gen_base64", "--base64", lineedit, []);
    ("gen_base64_safe", "--base64-safe", checkbox, []);
    ("gen_batch", "--batch", checkbox, []);
    ("gen_binary_fields", "--binary-fields", lineedit, []);
    ("gen_check_internet", "--check-internet", checkbox, []);
    ("gen_cleanup", "--cleanup", checkbox, []);
    ("gen_crawl", "--crawl", spin, [kw_range 0 10; kw_default (PyInt 0)]);
    ("gen_crawl_exclude", "--crawl-exclude", lineedit, []);
    ("gen_csv_del", "--csv-del", lineedit, [kw_default_text ","]);
    ("gen_charset", "--charset", lineedit, []);
    ("gen_dump_file", "--dump-file", file, []);
    ("gen_dump_format", "--dump-format", combo,
       [kw_items ["CSV"; "HTML"; "SQLITE"]; kw_default_index 0]);
    ("gen_encoding", "--encoding", lineedit, []);
    ("gen_eta", "--eta", checkbox, []);
    ("gen_flush_session", "--flush-session", checkbox, []);
    ("gen_forms", "--forms", checkbox, []);
    ("gen_fresh_queries", "--fresh-queries", checkbox, []);
    ("gen_gpage", "--gpage", spin, [kw_range 1 100; kw_default (PyInt 1)]);
    ("gen_har", "--har", file, []);
    ("gen_hex", "--hex", checkbox, []);
    ("gen_output_dir", "--output-dir", directory, []);
    ("gen_parse_errors", "--parse-errors", checkbox, []);
    ("gen_preprocess", "--preprocess", file, []);
    ("gen_postprocess", "--postprocess", file, []);
    ("gen_repair", "--repair", checkbox, []);
    ("gen_save", "--save", file, []);
    ("gen_scope", "--scope", lineedit, []);
    ("gen_skip_heuristics", "--skip-heuristics", checkbox, []);
    ("gen_skip_waf", "--skip-waf", checkbox, []);
    ("gen_table_prefix", "--table-prefix", lineedit,
       [kw_default_text "sqlmap"]);
    ("gen_test_filter", "--test-filter", lineedit, []);
    ("gen_test_skip", "--test-skip", lineedit, []);
    ("gen_time_limit", "--time-limit", spin,
       [kw_range 0 86400; kw_default (PyInt 0)]);
    ("gen_unsafe_naming", "--unsafe-naming", checkbox, []);
    ("gen_web_root", "--web-root", lineedit, [])
  ]
  else if category_name =? "Miscellaneous" then [
    ("misc_z", "-z", lineedit, []);
    ("misc_alert", "--alert", lineedit, []);
    ("misc_beep", "--beep", checkbox, []);
    ("misc_deps", "--dependencies", checkbox, []);
    ("misc_no_color", "--disable-coloring", checkbox, []);
    ("misc_no_hash", "--disable-hashing", checkbox, []);
    ("misc_list_tampers", "--list-tampers", checkbox, []);
    ("misc_no_log", "--no-logging", checkbox, []);
    ("misc_offline", "--offline", checkbox, []);
    ("misc_purge", "--purge", checkbox, []);
    ("misc_results", "--results-file", file, []);
    ("misc_shell", "--shell", checkbox, []);
    ("misc_tmpdir", "--tmp-dir", directory, []);
    ("misc_unstable", "--unstable", checkbox, []);
    ("misc_update", "--update", checkbox, []);
    ("misc_wizard", "--wizard", checkbox, [])
  ]
  else [].

(** [add_option_tabs]: [widgets_map.clear()], then the tabs in this order. *)
Definition tab_order : list string :=
  [ "Target"; "Request"; "Optimization"; "Injection"; "Detection";
    "Techniques"; "Fingerprint"; "Enumeration"; "Brute force";
    "User-defined function injection"; "File system access";
    "Operating system access"; "Windows registry access"; "General";
    "Miscellaneous" ].

Definition add_option_tabs : widgets_map :=
  fold_left
    (fun wm '(widget_id, flag, t, kw) => add_widget_option wm widget_id flag t kw)
    (flat_map create_option_tab_content tab_order)
    [].

End Form.
Import Form.

(** ** The command assembler *)

Module Assembler.

(** What [build_sqlmap_command] asks of the library and of the operating
    system: [shlex.split], [os.path.exists], [shutil.which],
    [os.path.basename] and [sys.executable]. *)
Record os_env := {
  shlex_split : string -> result (list string);
  os_path_exists : string -> bool;
  shutil_which : string -> option string;
  os_path_basename : string -> string;
  sys_executable : string
}.

Definition target_options : list string :=
  ["-u"; "-d"; "-l"; "-m"; "-r"; "-g"; "-c"].

Definition default_tech : string := "BEUSTQ".

Definition which_is_None (env : os_env) (name : string) : bool :=
  match shutil_which env name with None => true | Some _ => false end.

(** Lines 634 to 647: the invocation prefix.  [Returned None] is the early
    [return None, False] after a warning box; an empty [command_parts] makes
    [command_parts[0]] raise. *)
Definition command_base (env : os_env) (sqlmap_path : string)
  : result (option (list string)) :=
  if (sqlmap_path =? "")%string then Returned None
  else
    match shlex_split env sqlmap_path with
    | Raised exc => Raised exc
    | Returned [] => Raised "IndexError: list index out of range"
    | Returned ((executable :: _) as command_parts) =>
        if negb (os_path_exists env executable) && which_is_None env executable
        then Returned None
        else if endswith (lower sqlmap_path) ".py" then
          let is_python_call :=
            existsb
              (fun py_exe =>
                 endswith (lower executable)
                          (lower (os_path_basename env py_exe)))
              ["python"; "python3"; sys_executable env] in
          if negb is_python_call && which_is_None env executable
          then Returned (Some (sys_executable env :: command_parts))
          else Returned (Some command_parts)
        else Returned (Some command_parts)
    end.

(** The [try] block of the loop, lines 661 to 685: the pair
    [(value, is_default)] it leaves, or [None] when a widget that lacks the
    accessor of its type makes the block raise (the [except] prints and
    continues). *)
Definition read_widget (d : data) : option (py_obj * bool) :=
  match type d, widget d with
  | lineedit, QLineEdit text =>
      let value := strip text in
      Some (PyStr value, (value =? default_text d)%string)
  | textarea, QTextEdit text =>
      let value := strip text in
      Some (PyStr value, (value =? default_text d)%string)
  | checkbox, QCheckBox checked =>
      let is_default := py_eq (PyBool checked) (default d) in
      Some (PyBool (if is_default then checked else true), is_default)
  | combo, QComboBox items index =>
      let value := currentText items index in
      Some (PyStr value,
            (index =? default_index d)%Z
            || ((value =? "")%string && (default_index d =? -1)%Z))
  | spin, QSpinBox _ _ v =>
      Some (PyStr (str_of_int v), py_eq (PyInt v) (default d))
  | file, QLineEdit text | directory, QLineEdit text =>
      let value := strip text in
      Some (PyStr value, (value =? "")%string)
  | unimplemented _, _ => Some (PyNone, true)
  | _, _ => None
  end.

(** Line 654: the entries the loop leaves to the technique group. *)
Definition is_technique (widget_id : string) (d : data) : bool :=
  startswith widget_id "tech_" && is_checkbox (type d).

(** Line 690. *)
Definition to_emit (value : py_obj) (is_default : bool) : bool :=
  negb is_default && negb (is_None value)
  && (negb (py_eq value (PyStr "")) || isinstance_bool value).

(** One iteration of the loop of lines 653 to 698 on the pair
    [(command, target_specified)]. *)
Definition loop_body (widget_id : string) (d : data)
    (st : list string * bool) : list string * bool :=
  let '(command, target_specified) := st in
  if is_technique widget_id d then st
  else
    match read_widget d with
    | None => st
    | Some (value, is_default) =>
        if to_emit value is_default then
          let target_specified :=
            if existsb (String.eqb (flag d)) target_options then true
            else target_specified in
          if is_True value then (command ++ [flag d], target_specified)
          else if startswith (flag d) "--"
          then (command ++ [flag d +++ "=" +++ str value], target_specified)
          else (command ++ [flag d; str value], target_specified)
        else st
    end.

Fixpoint options_loop (entries : widgets_map) (st : list string * bool)
  : list string * bool :=
  match entries with
  | [] => st
  | (widget_id, d) :: rest => options_loop rest (loop_body widget_id d st)
  end.

(** Lines 700 and 701: the flags of the checked technique boxes, in the
    order of [widgets_map].  [None] when an entry of the group has no
    [isChecked], which raises outside any [try]. *)
Fixpoint checked_flags (entries : widgets_map) : option (list string) :=
  match entries with
  | [] => Some []
  | (cb_id, d) :: rest =>
      if is_technique cb_id d then
        match widget d with
        | QCheckBox checked =>
            option_map (fun l => if checked then flag d :: l else l)
                       (checked_flags rest)
        | _ => None
        end
      else checked_flags rest
  end.

Definition tech_string (wm : widgets_map) : option string :=
  option_map (join "") (checked_flags wm).

(** Lines 702 to 705: what the technique group appends. *)
Definition technique_tokens (tech_string : string) : list string :=
  if set_ne tech_string default_tech then
    if (tech_string =? "")%string then []
    else ["--technique=" +++ tech_string]
  else [].

(** [build_sqlmap_command]: the pair [(command, target_specified)], with
    [None] for the command after a warning box. *)
Definition build_sqlmap_command (env : os_env) (sqlmap_path : string)
    (wm : widgets_map) : result (option (list string) * bool) :=
  match command_base env sqlmap_path with
  | Raised exc => Raised exc
  | Returned None => Returned (None, false)
  | Returned (Some command_base) =>
      let '(command, target_specified) :=
        options_loop wm (command_base, false) in
      match tech_string wm with
      | None => Raised "AttributeError: object has no attribute 'isChecked'"
      | Some tech_string =>
          Returned (Some (command ++ technique_tokens tech_string),
                    target_specified)
      end
  end.

(** *** The form under the user's hands *)

Definition with_widget (d : data) (w : QWidget) : data :=
  {| widget := w; flag := flag d; type := type d; default := default d;
     default_text := default_text d; default_index := default_index d |}.

(** The form after the widget registered as [widget_id] took the state [w]. *)
Definition edit (widget_id : string) (w : QWidget) (wm : widgets_map)
  : widgets_map :=
  map (fun '(k, d) =>
         if (k =? widget_id)%string then (k, with_widget d w) else (k, d))
      wm.

(** [combo.setCurrentIndex(i)] *)
Definition setCurrentIndex (items : list string) (i : Z) : Z :=
  if (0 <=? i)%Z && (i <? Z.of_nat (length items))%Z then i else (-1)%Z.

(** The body of the loop of [reset_all_options], lines 733 to 755.  A
    default that the setter does not take makes the [try] block raise, and
    the widget stays as it is. *)
Definition reset_widget (d : data) : QWidget :=
  match type d, widget d with
  | lineedit, QLineEdit _ => QLineEdit (default_text d)
  | textarea, QTextEdit _ => QTextEdit (default_text d)
  | checkbox, QCheckBox checked =>
      match default d with
      | PyBool b => QCheckBox b
      | PyInt z => QCheckBox (negb (z =? 0)%Z)
      | _ => QCheckBox checked
      end
  | combo, QComboBox items index =>
      let default_idx := default_index d in
      let count := Z.of_nat (length items) in
      if (0 <=? default_idx)%Z && (default_idx <? count)%Z
      then QComboBox items default_idx
      else if (0 <? count)%Z then
        QComboBox items
          (setCurrentIndex items
             (if (nth 0 items "" =? "")%string || (default_idx =? -1)%Z
              then 0%Z
              else if (default_idx <? count)%Z then default_idx else 0%Z))
      else QComboBox items index
  | spin, QSpinBox lo hi v =>
      match default d with
      | PyInt z =>
          if c_int z then QSpinBox lo hi (setValue lo hi z)
          else QSpinBox lo hi v
      | PyBool b => QSpinBox lo hi (setValue lo hi (Z.b2z b))
      | _ => QSpinBox lo hi v
      end
  | file, QLineEdit _ | directory, QLineEdit _ => QLineEdit ""
  | _, w => w
  end.

(** [reset_all_options] after the user answered Yes. *)
Definition reset_all_options (wm : widgets_map) : widgets_map :=
  map (fun '(k, d) => (k, with_widget d (reset_widget d))) wm.

End Assembler.
Import Assembler.

(** ** The runner thread *)

Module Runner.

Definition LF : string := String (ascii_of_nat 10) EmptyString.

(** The three signals of [SqlmapRunnerThread], with their arguments. *)
Inductive notification :=
| outputTextAvailable (instance_id : nat) (text : string)
| processFinished (instance_id : nat) (return_code : Z)
| processError (instance_id : nat) (message : string).

(** A [subprocess.Popen] object: the exit status it has cached.  Once
    [poll] or [wait] has seen the child exit, every later call answers the
    same status without asking the system. *)
Record Popen := { returncode : option Z }.

(** The attributes of a [SqlmapRunnerThread]; [isRunning] is the state
    [QThread.isRunning()] reports. *)
Record SqlmapRunnerThread := {
  command_list : list string;
  process : option Popen;
  _is_running : bool;
  identifier : nat;
  isRunning : bool
}.

(** [SqlmapRunnerThread(command_list)], lines 56 to 62, on the class
    attribute [thread_counter]: the new thread and the new counter. *)
Definition __init__ (thread_counter : nat) (command_list : list string)
  : SqlmapRunnerThread * nat :=
  ({| command_list := command_list;
      process := None;
      _is_running := true;
      identifier := thread_counter;
      isRunning := false |},
   thread_counter + 1).

(** How [subprocess.Popen(...)] ends. *)
Inductive spawn :=
| spawned
| FileNotFoundError
| spawn_raises (e : string).

(** What one turn of the [while] of lines 86 to 93 meets: the flag
    [_is_running] cleared by [stop] from the other thread, or the answer of
    [readline()], with the answer of [poll()] for the case the line is empty,
    or an exception out of [readline()]. *)
Inductive iteration :=
| flag_cleared
| readline (line : string) (poll : option Z)
| readline_raises (e : string).

(** What the child and the other thread do during one [run]. *)
Record run_env := {
  popen : spawn;
  iterations : list iteration;
  (** [poll()] after the loop, when no status is cached *)
  poll_after_loop : option Z;
  (** [wait(timeout=2)]: the status, or [None] for [TimeoutExpired] *)
  wait_timeout : option Z;
  (** the blocking [wait()], when no status is cached *)
  wait : Z
}.

(** How the [while] is left. *)
Inductive loop_exit :=
| loop_left (cached : option Z)
| loop_raised (e : string)
| loop_running.

(** Lines 86 to 93.  [process.stdout] is a pipe object, which is true, so
    the test of the [while] is the flag.  [loop_running] says the listed
    turns ended while the loop had not. *)
Fixpoint read_loop (instance_id : nat) (turns : list iteration)
  : list notification * loop_exit :=
  match turns with
  | [] => ([], loop_running)
  | flag_cleared :: _ => ([], loop_left None)
  | readline line poll :: rest =>
      if negb (line =? "")%string then
        let '(out, how) := read_loop instance_id rest in
        (outputTextAvailable instance_id line :: out, how)
      else
        match poll with
        | Some code => ([], loop_left (Some code))
        | None => read_loop instance_id rest
        end
  | readline_raises e :: _ => ([], loop_raised e)
  end.

Definition cancelled_notice : string :=
  LF +++ "[INFO] Process avbruten av användaren." +++ LF.

(** Lines 95 to 104.  [terminate] and [kill] only send a signal; of
    [wait(timeout=2)] only [TimeoutExpired] is met. *)
Definition after_loop (instance_id : nat) (env : run_env)
    (cached : option Z) : list notification :=
  match (match cached with Some c => Some c | None => poll_after_loop env end)
  with
  | Some return_code => [processFinished instance_id return_code]
  | None =>
      let return_code :=
        match wait_timeout env with Some c => c | None => wait env end in
      [outputTextAvailable instance_id cancelled_notice;
       processFinished instance_id return_code]
  end.

(** How a call of [run] ends: it returns, an exception leaves it, or it is
    still in its loop when the listed turns end. *)
Inductive outcome :=
| returned
| propagated (exc : string)
| in_loop.

Definition command_notice (command_list : list string) : string :=
  "[KOMMANDO] Kör: " +++ join " " command_list +++ LF +++ "---" +++ LF.

Definition not_found_message (executable : string) : string :=
  "Fel: Kommandot '" +++ executable
  +++ "' hittades inte. Kontrollera sökvägen i Arkiv -> Välj sqlmap Sökväg.".

Definition unexpected_message (e : string) : string :=
  "Ett oväntat fel uppstod i körningstråden: " +++ e.

(** The two handlers of lines 106 to 111. *)
Definition except_FileNotFoundError (self : SqlmapRunnerThread)
  : list notification * outcome :=
  match command_list self with
  | [] => ([], propagated "IndexError: list index out of range")
  | executable :: _ =>
      ([processError (identifier self) (not_found_message executable);
        processFinished (identifier self) (-1)], returned)
  end.

Definition except_Exception (self : SqlmapRunnerThread) (e : string)
  : list notification * outcome :=
  ([processError (identifier self) (unexpected_message e);
    processFinished (identifier self) (-1)], returned).

(** The thread object after the [finally] of lines 112 to 114. *)
Definition finally (self : SqlmapRunnerThread) : SqlmapRunnerThread :=
  {| command_list := command_list self;
     process := None;
     _is_running := false;
     identifier := identifier self;
     isRunning := false |}.

(** [run], lines 64 to 114: the signals emitted, in order, and how the call
    ends. *)
Definition run (self : SqlmapRunnerThread) (env : run_env)
  : list notification * outcome :=
  let instance_id := identifier self in
  let started :=
    outputTextAvailable instance_id (command_notice (command_list self)) in
  match popen env with
  | FileNotFoundError =>
      let '(handled, how) := except_FileNotFoundError self in
      (started :: handled, how)
  | spawn_raises e =>
      let '(handled, how) := except_Exception self e in
      (started :: handled, how)
  | spawned =>
      match read_loop instance_id (iterations env) with
      | (out, loop_running) => (started :: out, in_loop)
      | (out, loop_raised e) =>
          let '(handled, how) := except_Exception self e in
          (started :: out ++ handled, how)
      | (out, loop_left cached) =>
          (started :: out ++ after_loop instance_id env cached, returned)
      end
  end.

(** What [stop] meets: the answer of [poll()] when no status is cached, and
    how [terminate(); wait(timeout=1)] ends. *)
Inductive wait_result :=
| wait_returns (code : Z)
| TimeoutExpired
| wait_raises (e : string).

Record stop_env := {
  poll_now : option Z;
  terminate_wait : wait_result
}.

Definition stopping_notice : string :=
  LF +++ "[INFO] Försöker stoppa processen..." +++ LF.

Definition kill_notice : string :=
  "[INFO] Process svarade inte på terminate, försöker kill..." +++ LF.

Definition stop_warning (e : string) : string :=
  "[VARNING] Fel vid försök att stoppa processen: " +++ e +++ LF.

(** [stop], lines 116 to 128: the signals it emits and what it writes to
    the thread object.  [isRunning] is not [stop]'s to change and is carried
    over as found: that the worker leaves [run] while [stop] waits for the
    child is an event of its own ([worker_left_run] below), and a caller
    that asks [isRunning()] after the call takes the answer from outside. *)
Definition stop (self : SqlmapRunnerThread) (env : stop_env)
  : list notification * SqlmapRunnerThread :=
  let instance_id := identifier self in
  let cleared p :=
    {| command_list := command_list self;
       process := p;
       _is_running := false;
       identifier := instance_id;
       isRunning := isRunning self |} in
  match process self with
  | None => ([], cleared None)
  | Some p =>
      match (match returncode p with Some c => Some c | None => poll_now env end)
      with
      | Some code => ([], cleared (Some {| returncode := Some code |}))
      | None =>
          match terminate_wait env with
          | wait_returns code =>
              ([outputTextAvailable instance_id stopping_notice],
               cleared (Some {| returncode := Some code |}))
          | TimeoutExpired =>
              ([outputTextAvailable instance_id stopping_notice;
                outputTextAvailable instance_id kill_notice],
               cleared (Some p))
          | wait_raises e =>
              ([outputTextAvailable instance_id stopping_notice;
                outputTextAvailable instance_id (stop_warning e)],
               cleared (Some p))
          end
      end
  end.

End Runner.
Import Runner.

(** ** The window: the registry of running instances and its slots *)

Module Supervisor.

(** One value of [running_processes]: the thread and the identity of the
    [QTextEdit] that shows its output. *)
Record instance := {
  thread : SqlmapRunnerThread;
  output_widget : nat
}.

(** The state the supervision reads and writes: the class attribute
    [SqlmapRunnerThread.thread_counter], [running_processes], the widgets of
    [output_tabs] by tab index, and the identity the next [QTextEdit()]
    receives.  Tab titles, tool tips, the status bar and the state of the
    stop button are presentation and are left out. *)
Record SqlmapGui := {
  thread_counter : nat;
  running_processes : dict nat instance;
  output_tabs : list nat;
  next_output_edit : nat
}.

Definition initial : SqlmapGui :=
  {| thread_counter := 0; running_processes := []; output_tabs := [];
     next_output_edit := 0 |}.

Definition with_thread (self : SqlmapRunnerThread) (running : bool)
  : SqlmapRunnerThread :=
  {| command_list := command_list self;
     process := process self;
     _is_running := _is_running self;
     identifier := identifier self;
     isRunning := running |}.

(** Lines 792 to 821 of [start_sqlmap_instance]: a new output widget, a new
    thread, its registration, its tab, [thread.start()].  The result carries
    the handle of the new instance. *)
Definition start_in_tab (gui : SqlmapGui) (command_list : list string)
  : SqlmapGui * nat :=
  let output_edit := next_output_edit gui in
  let '(thread, counter) := __init__ (thread_counter gui) command_list in
  let instance_id := identifier thread in
  ({| thread_counter := counter;
      running_processes :=
        dict_set Nat.eqb (running_processes gui) instance_id
          {| thread := with_thread thread true;
             output_widget := output_edit |};
      output_tabs := output_tabs gui ++ [output_edit];
      next_output_edit := output_edit + 1 |},
   instance_id).

(** [output_tabs.widget(index)] *)
Definition tab_widget (gui : SqlmapGui) (index : Z) : option nat :=
  if (index <? 0)%Z then None else nth_error (output_tabs gui) (Z.to_nat index).

(** The search loops of lines 890 to 893 and 908 to 912: the first
    registered instance that owns the widget. *)
Fixpoint find_by_widget (entries : dict nat instance) (w : option nat)
  : option (nat * instance) :=
  match entries with
  | [] => None
  | (id_val, data) :: rest =>
      if match w with
         | Some n => (output_widget data =? n)%nat
         | None => false
         end
      then Some (id_val, data)
      else find_by_widget rest w
  end.

Definition set_thread (gui : SqlmapGui) (instance_id : nat)
    (t : SqlmapRunnerThread) : SqlmapGui :=
  {| thread_counter := thread_counter gui;
     running_processes :=
       map (fun '(k, data) =>
              if (k =? instance_id)%nat
              then (k, {| thread := t; output_widget := output_widget data |})
              else (k, data))
           (running_processes gui);
     output_tabs := output_tabs gui;
     next_output_edit := next_output_edit gui |}.

(** [stop_current_sqlmap_instance], lines 885 to 901, for the tab index
    [output_tabs.currentIndex()] answers: the signals emitted on the way
    and the new state. *)
Definition stop_current_sqlmap_instance (gui : SqlmapGui)
    (current_index : Z) (env : stop_env) : list notification * SqlmapGui :=
  if (current_index <? 0)%Z then ([], gui)
  else
    match find_by_widget (running_processes gui) (tab_widget gui current_index)
    with
    | Some (instance_id_to_stop, data) =>
        if isRunning (thread data) then
          let '(emitted, t) := stop (thread data) env in
          (emitted, set_thread gui instance_id_to_stop t)
        else ([], gui)
    | None => ([], gui)
    end.

Definition unregister (gui : SqlmapGui) (instance_id : nat) : SqlmapGui :=
  {| thread_counter := thread_counter gui;
     running_processes := dict_del Nat.eqb (running_processes gui) instance_id;
     output_tabs := output_tabs gui;
     next_output_edit := next_output_edit gui |}.

Definition registered (gui : SqlmapGui) (instance_id : nat) : bool :=
  dict_mem Nat.eqb (running_processes gui) instance_id.

(** [on_process_finished] and [on_process_error], lines 931 to 967: both act
    only on a registered instance and end by removing it.  The boolean says
    whether the slot acted. *)
Definition on_process_finished (gui : SqlmapGui) (instance_id : nat)
    (return_code : Z) : SqlmapGui * bool :=
  if registered gui instance_id then (unregister gui instance_id, true)
  else (gui, false).

Definition on_process_error (gui : SqlmapGui) (instance_id : nat)
    (error_message : string) : SqlmapGui * bool :=
  if registered gui instance_id then (unregister gui instance_id, true)
  else (gui, false).

(** [update_output], lines 923 to 928: text goes to the widget of a
    registered instance; the state kept here does not change. *)
Definition update_output (gui : SqlmapGui) (instance_id : nat)
    (text : string) : SqlmapGui * bool :=
  (gui, registered gui instance_id).

(** A signal reaches the slot it is connected to (lines 798 to 800). *)
Definition deliver (gui : SqlmapGui) (n : notification) : SqlmapGui * bool :=
  match n with
  | outputTextAvailable instance_id text => update_output gui instance_id text
  | processFinished instance_id return_code =>
      on_process_finished gui instance_id return_code
  | processError instance_id message =>
      on_process_error gui instance_id message
  end.

Definition remove_tab (tabs : list nat) (index : Z) : list nat :=
  if (index <? 0)%Z then tabs
  else firstn (Z.to_nat index) tabs ++ skipn (S (Z.to_nat index)) tabs.

(** [close_output_tab], lines 904 to 920; [reply_yes] is the answer to the
    question asked when the thread still runs.  After [stop()] line 918
    asks [isRunning()] a second time: [stop] has waited for the child, and
    the worker may have left [run] by then, so the answer comes from
    outside as [still_running].  When it is no, the handle is deleted at
    once and the thread object goes with it. *)
Definition close_output_tab (gui : SqlmapGui) (index : Z) (reply_yes : bool)
    (env : stop_env) (still_running : bool)
    : list notification * SqlmapGui :=
  let found := find_by_widget (running_processes gui) (tab_widget gui index) in
  let closed g :=
    {| thread_counter := thread_counter g;
       running_processes := running_processes g;
       output_tabs := remove_tab (output_tabs g) index;
       next_output_edit := next_output_edit g |} in
  match found with
  | Some (instance_id_to_stop, data) =>
      if isRunning (thread data) then
        if reply_yes then
          let '(emitted, t) := stop (thread data) env in
          if still_running
          then (emitted, closed (set_thread gui instance_id_to_stop t))
          else (emitted, unregister (closed gui) instance_id_to_stop)
        else ([], gui)
      else ([], unregister (closed gui) instance_id_to_stop)
  | None => ([], closed gui)
  end.

(** What can happen to the window, one at a time: the user starts a scan in
    a tab, presses stop, closes a tab; a signal of a worker reaches its slot;
    a worker thread assigns [self.process] or leaves [run]. *)
Inductive event :=
| start_clicked (command_list : list string)
| stop_clicked (current_index : Z) (env : stop_env)
| tab_close_requested (index : Z) (reply_yes : bool) (env : stop_env)
    (still_running : bool)
| signal (n : notification)
| worker_spawned (instance_id : nat)
| worker_left_run (instance_id : nat).

Definition worker_update (gui : SqlmapGui) (instance_id : nat)
    (f : SqlmapRunnerThread -> SqlmapRunnerThread) : SqlmapGui :=
  match dict_get Nat.eqb (running_processes gui) instance_id with
  | Some data => set_thread gui instance_id (f (thread data))
  | None => gui
  end.

(** One event: the new state and the handle it allocated, if any. *)
Definition step (gui : SqlmapGui) (e : event) : SqlmapGui * option nat :=
  match e with
  | start_clicked command_list =>
      let '(g, h) := start_in_tab gui command_list in (g, Some h)
  | stop_clicked current_index env =>
      (snd (stop_current_sqlmap_instance gui current_index env), None)
  | tab_close_requested index reply_yes env still_running =>
      (snd (close_output_tab gui index reply_yes env still_running), None)
  | signal n => (fst (deliver gui n), None)
  | worker_spawned instance_id =>
      (worker_update gui instance_id
         (fun t => {| command_list := command_list t;
                      process := Some {| returncode := None |};
                      _is_running := _is_running t;
                      identifier := identifier t;
                      isRunning := isRunning t |}),
       None)
  | worker_left_run instance_id =>
      (worker_update gui instance_id finally, None)
  end.

(** The handles allocated along a sequence of events, oldest first, and the
    state at its end. *)
Fixpoint handles (gui : SqlmapGui) (events : list event) : list nat :=
  match events with
  | [] => []
  | e :: rest =>
      let '(g, h) := step gui e in
      match h with
      | Some n => n :: handles g rest
      | None => handles g rest
      end
  end.

Fixpoint after (gui : SqlmapGui) (events : list event) : SqlmapGui :=
  match events with
  | [] => gui
  | e :: rest => after (fst (step gui e)) rest
  end.

(** The slots called for a run of signals, in order: the state they leave
    and, for each signal, whether its slot acted. *)
Fixpoint deliver_all (gui : SqlmapGui) (signals : list notification)
  : SqlmapGui * list bool :=
  match signals with
  | [] => (gui, [])
  | n :: rest =>
      let '(g, acted) := deliver gui n in
      let '(g', l) := deliver_all g rest in
      (g', acted :: l)
  end.

End Supervisor.
Import Supervisor.

(** ** Vocabulary of the statements *)

(** What one option appends to the command in its turn of the loop, and
    whether that turn sets [target_specified]. *)
Definition option_tokens (widget_id : string) (d : data) : list string :=
  fst (loop_body widget_id d ([], false)).

Definition names_target (widget_id : string) (d : data) : bool :=
  snd (loop_body widget_id d ([], false)).

(** What the whole loop appends. *)
Definition emitted (wm : widgets_map) : list string :=
  flat_map (fun '(widget_id, d) => option_tokens widget_id d) wm.

(** The current value of an option equals its registered default, kind by
    kind: the stripped text against [default_text] for the two text kinds,
    the checked state against [default] for a box, the selected index
    against [default_index] or an empty current text for a combo box, the
    number against [default] for a spin box, an empty stripped path for the
    two path kinds. *)
Definition equals_default (d : data) : Prop :=
  match type d, widget d with
  | lineedit, QLineEdit text | textarea, QTextEdit text =>
      strip text = default_text d
  | checkbox, QCheckBox checked => py_eq (PyBool checked) (default d) = true
  | combo, QComboBox items index =>
      index = default_index d \/ currentText items index = ""
  | spin, QSpinBox _ _ v => py_eq (PyInt v) (default d) = true
  | file, QLineEdit text | directory, QLineEdit text => strip text = ""
  | _, _ => False
  end.

(** The option's current value differs from its registered default, kind
    by kind: the stripped text is not the registered default text; the box
    is not in its registered state; another item than the default one is
    selected; the number is not the registered one; a path is there. *)
Definition differs_from_default (d : data) : Prop :=
  match type d, widget d with
  | lineedit, QLineEdit text | textarea, QTextEdit text =>
      strip text <> default_text d
  | checkbox, QCheckBox checked => py_eq (PyBool checked) (default d) = false
  | combo, QComboBox items index => index <> default_index d
  | spin, QSpinBox _ _ v => py_eq (PyInt v) (default d) = false
  | file, QLineEdit text | directory, QLineEdit text => strip text <> ""
  | _, _ => False
  end.

(** The current value of an option that is not a box, as the text that
    goes into the vector. *)
Definition value_text (d : data) : string :=
  match widget d with
  | QLineEdit text | QTextEdit text => strip text
  | QComboBox items index => currentText items index
  | QSpinBox _ _ v => str_of_int v
  | _ => ""
  end.

(** Two strings hold the same letters, as sets. *)
Definition same_letters (a b : string) : Prop :=
  forall c, In c (list_ascii_of_string a) <-> In c (list_ascii_of_string b).

(** The boxes of the technique group that are checked, in catalogue order. *)
Definition checked_technique (entry : string * data) : bool :=
  is_technique (fst entry) (snd entry)
  && match widget (snd entry) with QCheckBox c => c | _ => false end.

(** The shipped form with every widget in the state [st] gives it. *)
Definition form (st : string -> QWidget) : widgets_map :=
  map (fun '(k, d) => (k, with_widget d (st k))) add_option_tabs.

(** The state of the shipped form after "reset all options". *)
Definition reset_state (widget_id : string) : QWidget :=
  match dict_get String.eqb (reset_all_options add_option_tabs) widget_id with
  | Some d => widget d
  | None => QLabel ""
  end.

(** A state of the form that differs from [st] at one widget. *)
Definition set_state (widget_id : string) (w : QWidget)
    (st : string -> QWidget) : string -> QWidget :=
  fun k => if (k =? widget_id)%string then w else st k.

(** The state with the six technique boxes as given, the rest as in [st]. *)
Definition with_techniques (b e u s t q : bool) (st : string -> QWidget)
  : string -> QWidget :=
  set_state "tech_B" (QCheckBox b)
    (set_state "tech_E" (QCheckBox e)
       (set_state "tech_U" (QCheckBox u)
          (set_state "tech_S" (QCheckBox s)
             (set_state "tech_T" (QCheckBox t)
                (set_state "tech_Q" (QCheckBox q) st))))).

Definition letter (checked : bool) (l : string) : string :=
  if checked then l else "".

(** A system on which [sqlmap] is found on the search path. *)
Definition example_env : os_env :=
  {| shlex_split := fun s =>
       if (s =? "sqlmap")%string then Returned ["sqlmap"]
       else Raised "ValueError";
     os_path_exists := fun _ => false;
     shutil_which := fun s =>
       if (s =? "sqlmap")%string then Some "/usr/bin/sqlmap" else None;
     os_path_basename := fun s => s;
     sys_executable := "/usr/bin/python3" |}.

(** The catalogue of the end-to-end example: the URL, the timeout and the
    random agent, registered in this order with the arguments the shipped
    catalogue gives them, then set to the values of the example. *)
Definition example_catalogue : widgets_map :=
  add_widget_option
    (add_widget_option
       (add_widget_option [] "url" "-u" lineedit [])
       "timeout" "--timeout" spin [kw_range 1 600; kw_default (PyInt 30)])
    "random_agent" "--random-agent" checkbox [].

Definition example_form : widgets_map :=
  edit "url" (QLineEdit "http://x/a.php?id=1")
    (edit "timeout" (QSpinBox 1 600 45)
       (edit "random_agent" (QCheckBox true) example_catalogue)).

(** The signals by kind. *)
Definition is_output (n : notification) : Prop :=
  match n with outputTextAvailable _ _ => True | _ => False end.

Definition is_terminal (n : notification) : Prop :=
  match n with outputTextAvailable _ _ => False | _ => True end.

Definition terminal_count (l : list notification) : nat :=
  length (filter (fun n => match n with
                           | outputTextAvailable _ _ => false
                           | _ => true
                           end) l).

Definition handle_of (n : notification) : nat :=
  match n with
  | outputTextAvailable i _ | processFinished i _ | processError i _ => i
  end.

(** The listed turns of the loop contain one that ends it. *)
Fixpoint loop_ends (turns : list iteration) : bool :=
  match turns with
  | [] => false
  | flag_cleared :: _ => true
  | readline line poll :: rest =>
      if negb (line =? "")%string then loop_ends rest
      else match poll with Some _ => true | None => loop_ends rest end
  | readline_raises _ :: _ => true
  end.

(** The loop is left because the flag was found cleared. *)
Fixpoint left_by_flag (turns : list iteration) : bool :=
  match turns with
  | [] => false
  | flag_cleared :: _ => true
  | readline line poll :: rest =>
      if negb (line =? "")%string then left_by_flag rest
      else match poll with Some _ => false | None => left_by_flag rest end
  | readline_raises _ :: _ => false
  end.

(** For [stop]: the child of the thread is gone, because [run] is over and
    has cleared [process], or because the child has exited. *)
Definition child_gone (self : SqlmapRunnerThread) (env : stop_env) : Prop :=
  match process self with
  | None => True
  | Some p => returncode p <> None \/ poll_now env <> None
  end.

(** The entries of the shipped catalogue for the target URL and for the
    registry type, with a widget in the state [w]. *)
Definition target_url (w : QWidget) : data :=
  {| widget := w; flag := "-u"; type := lineedit; default := PyNone;
     default_text := ""; default_index := -1 |}.

Definition registry_type (w : QWidget) : data :=
  {| widget := w; flag := "--reg-type"; type := combo; default := PyNone;
     default_text := ""; default_index := -1 |}.

(** The two widgets the statement on the target URL singles out. *)
Definition url_or_registry_type (entry : string * data) : bool :=
  (fst entry =? "target_url")%string || (fst entry =? "reg_type")%string.

(** [equals_default] as a test. *)
Definition equals_defaultb (d : data) : bool :=
  match type d, widget d with
  | lineedit, QLineEdit text | textarea, QTextEdit text =>
      (strip text =? default_text d)%string
  | checkbox, QCheckBox checked => py_eq (PyBool checked) (default d)
  | combo, QComboBox items index =>
      (index =? default_index d)%Z || (currentText items index =? "")%string
  | spin, QSpinBox _ _ v => py_eq (PyInt v) (default d)
  | file, QLineEdit text | directory, QLineEdit text =>
      (strip text =? "")%string
  | _, _ => false
  end.

(** A box of the technique group that is not an unchecked box. *)
Definition checked_or_foreign (entry : string * data) : bool :=
  is_technique (fst entry) (snd entry)
  && match widget (snd entry) with QCheckBox false => false | _ => true end.

(** The read loop is left by an exception. *)
Fixpoint loop_raises (turns : list iteration) : bool :=
  match turns with
  | [] => false
  | flag_cleared :: _ => false
  | readline line poll :: rest =>
      if negb (line =? "")%string then loop_raises rest
      else match poll with Some _ => false | None => loop_raises rest end
  | readline_raises _ :: _ => true
  end.

(** The run meets a failure: the spawn raises or the read loop does. *)
Definition failed (env : run_env) : bool :=
  match popen env with
  | spawned => loop_raises (iterations env)
  | _ => true
  end.

Definition is_error (n : notification) : bool :=
  match n with processError _ _ => true | _ => false end.

Definition is_finished (n : notification) : bool :=
  match n with processFinished _ _ => true | _ => false end.

(** How many of the terminal signals of a run find their slot acting, when
    the signals reach the slots in order. *)
Fixpoint terminal_acts (gui : SqlmapGui) (signals : list notification) : nat :=
  match signals with
  | [] => 0
  | n :: rest =>
      let '(g, acted) := deliver gui n in
      (if (is_error n || is_finished n) && acted then 1 else 0)
      + terminal_acts g rest
  end.

(** ** More of the program: settings, help, starting a scan, the stop button *)

Module Settings.

(** How [QSettings.value] hands a stored value back: as the object that was
    stored (a value still cached from [setValue]), or as its text (a value
    read from the file, where a boolean is [true] or [false]). *)
Inductive backend := keeps_objects | keeps_text.

Definition text_of (v : py_obj) : py_obj :=
  match v with
  | PyBool b => PyStr (if b then "true" else "false")
  | PyInt z => PyStr (str_of_int z)
  | other => other
  end.

Definition read_back (b : backend) (v : py_obj) : py_obj :=
  match b with keeps_objects => v | keeps_text => text_of v end.

Definition is_digit (c : ascii) : bool :=
  let n := nat_of_ascii c in ((48 <=? n) && (n <=? 57))%nat.

(** The digits of a numeral without its digit separators: an underscore is
    allowed between two digits and nowhere else.  [after_digit] says that
    the character before [s] is a digit. *)
Fixpoint ungroup (after_digit : bool) (s : string) : option string :=
  match s with
  | EmptyString => Some EmptyString
  | String c rest =>
      if (c =? "_")%char then
        if after_digit then
          match rest with
          | String next _ => if is_digit next then ungroup false rest else None
          | EmptyString => None
          end
        else None
      else option_map (String c) (ungroup (is_digit c) rest)
  end.

(** [int(s)] for a string: white space, an optional sign, decimal digits
    0 to 9 with single underscores between them, white space; [None] is
    [ValueError]. *)
Definition int_of_str (s : string) : option Z :=
  match strip s with
  | EmptyString => None
  | String c rest as t =>
      let negative := (c =? "-")%char in
      let body := if negative || (c =? "+")%char then rest else t in
      match ungroup false body with
      | Some digits =>
          option_map
            (fun d => Z.of_int (if negative then Decimal.Neg d
                                else Decimal.Pos d))
            (NilZero.uint_of_string digits)
      | None => None
      end
  end.

(** [int(v)]; [None] when it raises. *)
Definition int (v : py_obj) : option Z :=
  match v with
  | PyInt z => Some z
  | PyBool b => Some (Z.b2z b)
  | PyStr s => int_of_str s
  | PyNone => None
  end.

(** The key of a widget inside the group "Widgets". *)
Definition widgets_key (widget_id : string) : string :=
  "Widgets/" +++ widget_id.

Definition is_text_type (t : widget_type) : bool :=
  match t with
  | lineedit | textarea | file | directory => true
  | _ => false
  end.

(** The [try] block of the loop of [save_settings], lines 1007 to 1010: the
    value to store, or [None] when there is none or the block raises. *)
Definition saved_value (d : data) : option py_obj :=
  match type d, widget d with
  | checkbox, QCheckBox checked => Some (PyBool checked)
  | combo, QComboBox _ index => Some (PyInt index)
  | spin, QSpinBox _ _ v => Some (PyInt v)
  | t, QLineEdit text =>
      if is_text_type t then Some (PyStr (strip text)) else None
  | t, QTextEdit text =>
      if is_text_type t then Some (PyStr (strip text)) else None
  | _, _ => None
  end.

(** The loop of [save_settings], lines 1001 to 1013, on the store. *)
Definition save_widgets (settings : dict string py_obj) (wm : widgets_map)
  : dict string py_obj :=
  fold_left
    (fun store '(widget_id, d) =>
       match saved_value d with
       | Some value => dict_set String.eqb store (widgets_key widget_id) value
       | None => store
       end)
    wm settings.

Definition says_true (s : string) : bool :=
  existsb (String.eqb (lower s)) ["true"; "1"; "yes"].

(** The [try] block of the loop of [load_settings], lines 1038 to 1043, for
    the value [saved_value]: the widget it leaves (unchanged when the block
    raises). *)
Definition load_widget (saved_value : py_obj) (d : data) : QWidget :=
  match type d, widget d with
  | checkbox, QCheckBox _ => QCheckBox (says_true (str saved_value))
  | combo, QComboBox items current =>
      match int saved_value with
      | Some index =>
          if (0 <=? index)%Z && (index <? Z.of_nat (length items))%Z
          then QComboBox items index
          else QComboBox items current
      | None => QComboBox items current
      end
  | spin, QSpinBox lo hi v =>
      match int saved_value with
      | Some z =>
          if c_int z then QSpinBox lo hi (setValue lo hi z)
          else QSpinBox lo hi v
      | None => QSpinBox lo hi v
      end
  | t, QLineEdit text =>
      if is_text_type t then QLineEdit (str saved_value) else QLineEdit text
  | t, QTextEdit text =>
      if is_text_type t then QTextEdit (str saved_value) else QTextEdit text
  | _, w => w
  end.

(** The loop of [load_settings], lines 1031 to 1045. *)
Definition load_widgets (b : backend) (settings : dict string py_obj)
    (wm : widgets_map) : widgets_map :=
  map (fun '(widget_id, d) =>
         match dict_get String.eqb settings (widgets_key widget_id) with
         | Some stored => (widget_id, with_widget d (load_widget (read_back b stored) d))
         | None => (widget_id, d)
         end)
      wm.

(** A widget with the text it holds stripped. *)
Definition stripped (w : QWidget) : QWidget :=
  match w with
  | QLineEdit text => QLineEdit (strip text)
  | QTextEdit text => QTextEdit (strip text)
  | other => other
  end.

Definition same_items (a b : list string) : bool :=
  if list_eq_dec string_dec a b then true else false.

(** The widget [w] can take over what the option [d] holds: it is of the
    same class, which is the class [add_widget_option] builds for the type;
    for a combo box it has the same items, and the selected index is one of
    them or is the index [w] has; for a spin box it has the same range, and
    the value lies in that range and is a C [int]. *)
Definition restores (d : data) (w : QWidget) : bool :=
  match type d, widget d, w with
  | lineedit, QLineEdit _, QLineEdit _
  | textarea, QTextEdit _, QTextEdit _
  | file, QLineEdit _, QLineEdit _
  | directory, QLineEdit _, QLineEdit _
  | checkbox, QCheckBox _, QCheckBox _ => true
  | combo, QComboBox items index, QComboBox items' index' =>
      same_items items items'
      && (((0 <=? index)%Z && (index <? Z.of_nat (length items))%Z)
          || (index =? index')%Z)
  | spin, QSpinBox lo hi v, QSpinBox lo' hi' _ =>
      (lo =? lo')%Z && (hi =? hi')%Z
      && (lo <=? v)%Z && (v <=? hi)%Z && c_int v
  | _, _, _ => false
  end.

(** Two entries of one form in two states: the same identifier and the
    same registration, and the widget of the second can take over what the
    first holds. *)
Definition same_slot (e e' : string * data) : Prop :=
  fst e = fst e'
  /\ with_widget (snd e') (widget (snd e)) = snd e
  /\ restores (snd e) (widget (snd e')) = true.

End Settings.
Import Settings.

(** [show_sqlmap_help], lines 1083 to 1091: the command it runs, [None]
    after the warning box.  The test of line 1083 asks [shutil.which] only
    when the whole path is not an existing file. *)
Definition help_command (env : os_env) (sqlmap_path : string)
  : result (option (list string)) :=
  if (sqlmap_path =? "")%string then Returned None
  else
    let found :=
      if os_path_exists env sqlmap_path then Returned true
      else
        match shlex_split env sqlmap_path with
        | Raised exc => Raised exc
        | Returned [] => Raised "IndexError: list index out of range"
        | Returned (first :: _) => Returned (negb (which_is_None env first))
        end in
    match found with
    | Raised exc => Raised exc
    | Returned false => Returned None
    | Returned true =>
        match shlex_split env sqlmap_path with
        | Raised exc => Raised exc
        | Returned command_base_parts =>
            if endswith (lower sqlmap_path) ".py" then
              match command_base_parts with
              | [] => Raised "IndexError: list index out of range"
              | first :: _ =>
                  let is_python_call :=
                    existsb
                      (fun py_exe =>
                         endswith (lower first)
                                  (lower (os_path_basename env py_exe)))
                      ["python"; "python3"; sys_executable env] in
                  if negb is_python_call && which_is_None env first
                  then Returned (Some ((sys_executable env :: command_base_parts)
                                       ++ ["-hh"]))
                  else Returned (Some (command_base_parts ++ ["-hh"]))
              end
            else Returned (Some (command_base_parts ++ ["-hh"]))
        end
    end.

(** [update_stop_button_state], lines 970 to 979: the value it passes to
    [stop_button.setEnabled]. *)
Definition is_stoppable (gui : SqlmapGui) (current_index : Z) : bool :=
  if (0 <=? current_index)%Z then
    existsb
      (fun entry =>
         match tab_widget gui current_index with
         | Some w => (output_widget (snd entry) =? w)%nat
         | None => false
         end
         && isRunning (thread (snd entry)))
      (running_processes gui)
  else false.

(** [arg.split('=')[0]] *)
Fixpoint before_equals (arg : string) : string :=
  match arg with
  | EmptyString => EmptyString
  | String c rest =>
      if (c =? "=")%char then EmptyString else String c (before_equals rest)
  end.

Definition interactive_flags_used : list string :=
  ["--sql-shell"; "--os-shell"; "--os-pwn"; "--wizard"; "--shell"].

(** Lines 773 and 774. *)
Definition has_interactive (command_list : list string) : bool :=
  existsb
    (fun arg => existsb (String.eqb (before_equals arg)) interactive_flags_used)
    command_list.

Definition has_batch (command_list : list string) : bool :=
  existsb (String.eqb "--batch") command_list
  || existsb (fun arg => startswith arg "--batch=") command_list.

(** Line 766: some token of the command is [-r] or [-c]. *)
Definition names_request_or_config (command_list : list string) : bool :=
  existsb (fun opt => existsb (String.eqb opt) ["-r"; "-c"]) command_list.

(** What a press on the start button leads to. *)
Inductive started :=
| nothing_started
| started_externally (command_list : list string)
| started_in_tab (instance_id : nat).

(** [start_sqlmap_instance], lines 762 to 821.  [run_external] is the state
    of the box "run in an external window" and [reply_yes] the answer to the
    warning about interactive flags, when it is shown; the external start
    itself, [start_sqlmap_externally], is not followed. *)
Definition start_sqlmap_instance (gui : SqlmapGui) (env : os_env)
    (sqlmap_path : string) (wm : widgets_map) (run_external reply_yes : bool)
  : result (SqlmapGui * started) :=
  match build_sqlmap_command env sqlmap_path wm with
  | Raised exc => Raised exc
  | Returned (None, _) => Returned (gui, nothing_started)
  | Returned (Some command_list, target_specified) =>
      if negb target_specified && negb (names_request_or_config command_list)
      then Returned (gui, nothing_started)
      else if negb run_external
              && (has_interactive command_list && negb (has_batch command_list))
              && negb reply_yes
      then Returned (gui, nothing_started)
      else if run_external
      then Returned (gui, started_externally command_list)
      else
        let '(g, instance_id) := start_in_tab gui command_list in
        Returned (g, started_in_tab instance_id)
  end.

(** The registry is in order: its handles are distinct, below the counter
    and equal to the identifier of their thread; the output widgets of the
    instances are distinct and older than the next one to be made. *)
Definition in_order (gui : SqlmapGui) : Prop :=
  NoDup (map fst (running_processes gui))
  /\ NoDup (map (fun entry => output_widget (snd entry)) (running_processes gui))
  /\ Forall (fun entry =>
               identifier (thread (snd entry)) = fst entry
               /\ fst entry < thread_counter gui
               /\ output_widget (snd entry) < next_output_edit gui)
            (running_processes gui).


(** The lines a child prints, as turns of the read loop; an empty string
    stands for a turn in which nothing was there to read yet. *)
Definition printing (lines : list string) : list iteration :=
  map (fun line => readline line None) lines.

Definition nonempty (line : string) : bool := negb (line =? "")%string.

(** A character of a decimal numeral: a digit or the minus sign. *)
Definition plain (c : ascii) : bool :=
  is_digit c || (c =? "-")%char.

(** ** General facts about the assembler *)

Lemma loop_body_appends widget_id d command target_specified :
  loop_body widget_id d (command, target_specified)
  = (command ++ option_tokens widget_id d,
     target_specified || names_target widget_id d).
Proof.
  unfold option_tokens, names_target, loop_body.
  destruct (is_technique widget_id d);
    [cbn [fst snd]; now rewrite app_nil_r, orb_false_r|].
  destruct (read_widget d) as [[value is_default]|];
    [|cbn [fst snd]; now rewrite app_nil_r, orb_false_r].
  destruct (to_emit value is_default);
    [|cbn [fst snd]; now rewrite app_nil_r, orb_false_r].
  destruct (existsb (String.eqb (flag d)) target_options),
    (is_True value), (startswith (flag d) "--"); cbn [fst snd app];
    now rewrite ?orb_true_r, ?orb_false_r.
Qed.

Lemma options_loop_appends wm command target_specified :
  options_loop wm (command, target_specified)
  = (command ++ emitted wm,
     target_specified
     || existsb (fun '(widget_id, d) => names_target widget_id d) wm).
Proof.
  revert command target_specified.
  induction wm as [|[widget_id d] rest IH]; intros command target_specified.
  - cbn. now rewrite app_nil_r, orb_false_r.
  - cbn [options_loop emitted flat_map existsb].
    rewrite loop_body_appends, IH, <- app_assoc, orb_assoc. reflexivity.
Qed.

Lemma emitted_app wm1 wm2 : emitted (wm1 ++ wm2) = emitted wm1 ++ emitted wm2.
Proof. unfold emitted. apply flat_map_app. Qed.

(** The command is the prefix, then what the options emit in catalogue
    order, then what the technique group emits. *)
Lemma build_decomposes env sqlmap_path wm base letters :
  command_base env sqlmap_path = Returned (Some base) ->
  tech_string wm = Some letters ->
  build_sqlmap_command env sqlmap_path wm
  = Returned
      (Some (base ++ emitted wm ++ technique_tokens letters),
       existsb (fun '(widget_id, d) => names_target widget_id d) wm).
Proof.
  intros Hbase Htech. unfold build_sqlmap_command.
  rewrite Hbase, options_loop_appends, Htech. simpl.
  now rewrite <- app_assoc.
Qed.

Lemma equals_default_silent widget_id d :
  equals_default d ->
  option_tokens widget_id d = [] /\ names_target widget_id d = false.
Proof.
  unfold equals_default, option_tokens, names_target, loop_body.
  destruct (is_technique widget_id d); [now split|].
  unfold read_widget.
  destruct (type d), (widget d); try contradiction; intros H; cbn [fst snd].
  - rewrite H, String.eqb_refl. now split.
  - rewrite H, String.eqb_refl. now split.
  - rewrite H. now split.
  - destruct H as [H|H].
    + apply Z.eqb_eq in H. rewrite H. now split.
    + rewrite H. unfold to_emit. cbn.
      rewrite !andb_false_r. now split.
  - rewrite H. now split.
  - rewrite H. now split.
  - rewrite H. now split.
Qed.

Lemma checked_flags_skip wm1 widget_id d wm2 :
  is_technique widget_id d = false ->
  checked_flags (wm1 ++ (widget_id, d) :: wm2) = checked_flags (wm1 ++ wm2).
Proof.
  intros H. induction wm1 as [|[k e] rest IH]; cbn [app checked_flags].
  - now rewrite H.
  - now rewrite IH.
Qed.

(** C4, counterexample.  A text field registered with the default text
    " x ", a blank on either side, and never touched: the text it holds is
    its registered default text, character for character, and the assembler
    emits [--t-ws=x] for it, because it compares the stripped text with the
    registered one. *)
Lemma C4_counterexample :
  let wm :=
    add_widget_option [] "t_ws" "--t-ws" lineedit [kw_default_text " x "] in
  (exists d, wm = [("t_ws", d)] /\ widget d = QLineEdit (default_text d))
  /\ build_sqlmap_command example_env "sqlmap" wm
     = Returned (Some ["sqlmap"; "--t-ws=x"], false).
Proof.
  split; [|reflexivity].
  eexists. split; reflexivity.
Qed.

(** C4, amended.  An option whose current value equals its registered
    default as the assembler reads it puts nothing into the argument
    vector.  The equality is that of the kind: for a text field or a text
    area the text with the white space around it stripped is the
    registered default text; a box is in its registered state; a combo box
    has the default index selected or an empty current text; a spin box
    holds the registered number; a path field holds nothing but white
    space.  The turn of such an option appends no token and does not mark
    a target, so the vector passes straight from what the options before it
    emitted to what the options after it emit; and for an option outside
    the technique group the assembler returns what it returns without that
    option. *)
Theorem C4_default_emits_nothing :
  forall env sqlmap_path wm1 widget_id d wm2,
    equals_default d ->
    (option_tokens widget_id d = [] /\ names_target widget_id d = false)
    /\ (forall base letters,
          command_base env sqlmap_path = Returned (Some base) ->
          tech_string (wm1 ++ (widget_id, d) :: wm2) = Some letters ->
          build_sqlmap_command env sqlmap_path (wm1 ++ (widget_id, d) :: wm2)
          = Returned
              (Some (base ++ emitted wm1 ++ emitted wm2
                     ++ technique_tokens letters),
               existsb (fun '(k, e) => names_target k e) (wm1 ++ wm2)))
    /\ (is_technique widget_id d = false ->
        build_sqlmap_command env sqlmap_path (wm1 ++ (widget_id, d) :: wm2)
        = build_sqlmap_command env sqlmap_path (wm1 ++ wm2)).
Proof.
  intros env sqlmap_path wm1 widget_id d wm2 Hdef.
  destruct (equals_default_silent widget_id d Hdef) as [Htok Htgt].
  split; [now split|]. split.
  - intros base letters Hbase Htech.
    rewrite (build_decomposes _ _ _ _ _ Hbase Htech).
    rewrite emitted_app, !existsb_app. cbn [emitted flat_map existsb].
    fold (emitted wm2). rewrite Htok, Htgt. cbn [app orb].
    now rewrite <- app_assoc.
  - intros Hnot. unfold build_sqlmap_command.
    destruct (command_base env sqlmap_path) as [exc|[base|]]; try reflexivity.
    rewrite !options_loop_appends, !emitted_app, !existsb_app.
    cbn [emitted flat_map existsb]. fold (emitted wm2).
    rewrite Htok, Htgt. cbn [app orb].
    unfold tech_string. now rewrite checked_flags_skip.
Qed.

(** The form of the end-to-end example with one more field, "Skip
    Parameter", that holds only white space: a blank, a no-break space
    (U+00A0) and a tabulator. *)
Lemma C4_default_emits_nothing_witness :
  let blanks := string_of_list_ascii (utf8 [32; 194; 160; 9]) in
  let d := {| widget := QLineEdit blanks;
              flag := "--skip"; type := lineedit;
              default := PyNone; default_text := ""; default_index := -1 |} in
  equals_default d
  /\ build_sqlmap_command example_env "sqlmap" (example_form ++ [("inj_skip", d)])
     = build_sqlmap_command example_env "sqlmap" (example_form ++ []).
Proof.
  intros blanks d.
  assert (Hdef : equals_default d) by reflexivity.
  split; [exact Hdef|].
  exact (proj2 (proj2 (C4_default_emits_nothing
                         example_env "sqlmap" example_form "inj_skip" d []
                         Hdef))
               eq_refl).
Defined.

(** C5, counterexample.  The shipped form after a reset, with the "CSV
    Delimiter" field, whose default text is a comma, cleared: the value
    differs from the default and the flag is long, and the assembler emits
    no token for the field, where the claim as stated asks for the one
    token [--csv-del=].  (The token the vector does hold comes from the
    registry type selector.) *)
Lemma C5_counterexample :
  let wm := form (set_state "gen_csv_del" (QLineEdit "") reset_state) in
  (exists d,
      dict_get String.eqb wm "gen_csv_del" = Some d
      /\ default_text d = ","
      /\ differs_from_default d
      /\ value_text d = ""
      /\ is_checkbox (type d) = false
      /\ startswith (flag d) "--" = true
      /\ option_tokens "gen_csv_del" d <> [flag d +++ "=" +++ value_text d])
  /\ build_sqlmap_command example_env "sqlmap" wm
     = Returned (Some ["sqlmap"; "--reg-type=REG_SZ"], false).
Proof.
  cbv zeta. split; [|vm_compute; reflexivity].
  eexists. split; [vm_compute; reflexivity|].
  split; [reflexivity|]. split; [vm_compute; discriminate|].
  split; [reflexivity|]. split; [reflexivity|]. split; [reflexivity|].
  vm_compute. discriminate.
Qed.

(** What the loop appends for an option that differs from its default. *)
Lemma differs_tokens widget_id d :
  differs_from_default d ->
  option_tokens widget_id d
  = if is_technique widget_id d then []
    else if is_checkbox (type d) then [flag d]
    else if (value_text d =? "")%string then []
    else if startswith (flag d) "--" then [flag d +++ "=" +++ value_text d]
    else [flag d; value_text d].
Proof.
  unfold differs_from_default, value_text, option_tokens, loop_body.
  destruct (is_technique widget_id d); [reflexivity|].
  unfold read_widget.
  destruct (type d), (widget d) as [text|text|checked|items index|lo hi v|text];
    try contradiction; cbn [is_checkbox]; intros Hdiff.
  - apply String.eqb_neq in Hdiff. rewrite Hdiff. unfold to_emit.
    cbn [negb andb orb is_None is_True isinstance_bool py_eq str].
    rewrite orb_false_r. destruct (strip text =? "")%string; cbn [negb fst];
      destruct (existsb (String.eqb (flag d)) target_options),
        (startswith (flag d) "--"); reflexivity.
  - apply String.eqb_neq in Hdiff. rewrite Hdiff. unfold to_emit.
    cbn [negb andb orb is_None is_True isinstance_bool py_eq str].
    rewrite orb_false_r. destruct (strip text =? "")%string; cbn [negb fst];
      destruct (existsb (String.eqb (flag d)) target_options),
        (startswith (flag d) "--"); reflexivity.
  - rewrite Hdiff.
    cbn [fst to_emit negb andb orb is_None is_True isinstance_bool py_eq str].
    destruct (existsb (String.eqb (flag d)) target_options); reflexivity.
  - apply Z.eqb_neq in Hdiff. rewrite Hdiff. unfold to_emit.
    cbn [negb andb orb is_None is_True isinstance_bool py_eq str].
    rewrite orb_false_r.
    destruct (currentText items index =? "")%string;
      cbn [negb andb fst]; [now rewrite andb_false_r|].
    destruct (existsb (String.eqb (flag d)) target_options),
      (startswith (flag d) "--"); reflexivity.
  - rewrite Hdiff. unfold to_emit.
    cbn [negb andb orb is_None is_True isinstance_bool py_eq str].
    rewrite orb_false_r. destruct (str_of_int v =? "")%string;
      cbn [negb fst];
      destruct (existsb (String.eqb (flag d)) target_options),
        (startswith (flag d) "--"); reflexivity.
  - apply String.eqb_neq in Hdiff. rewrite Hdiff. unfold to_emit.
    cbn [negb andb orb is_None is_True isinstance_bool py_eq str].
    rewrite Hdiff. cbn [negb andb orb fst].
    destruct (existsb (String.eqb (flag d)) target_options),
      (startswith (flag d) "--"); reflexivity.
  - apply String.eqb_neq in Hdiff. rewrite Hdiff. unfold to_emit.
    cbn [negb andb orb is_None is_True isinstance_bool py_eq str].
    rewrite Hdiff. cbn [negb andb orb fst].
    destruct (existsb (String.eqb (flag d)) target_options),
      (startswith (flag d) "--"); reflexivity.
Qed.

(** C5, amended.  An option whose current value differs from its default
    (the stripped text is not the registered default text, the box is not
    in its registered state, another item than the default one is
    selected, the number is not the registered one, a path is there)
    contributes by kind and flag form: a box outside the technique group
    exactly its bare flag; any other option with a non-empty value one
    token [flag=value] when its flag starts with two dashes and otherwise
    the two tokens flag, value; any other option with an empty value
    nothing; a box of the technique group nothing of its own.  The
    contribution stands in the vector between what the options before it
    and the options after it emit. *)
Theorem C5_token_shape :
  forall env sqlmap_path wm1 widget_id d wm2 base letters,
    command_base env sqlmap_path = Returned (Some base) ->
    tech_string (wm1 ++ (widget_id, d) :: wm2) = Some letters ->
    differs_from_default d ->
    let shape :=
      if is_technique widget_id d then []
      else if is_checkbox (type d) then [flag d]
      else if (value_text d =? "")%string then []
      else if startswith (flag d) "--" then [flag d +++ "=" +++ value_text d]
      else [flag d; value_text d] in
    option_tokens widget_id d = shape
    /\ exists target_specified,
        build_sqlmap_command env sqlmap_path (wm1 ++ (widget_id, d) :: wm2)
        = Returned
            (Some (base ++ emitted wm1 ++ shape ++ emitted wm2
                   ++ technique_tokens letters),
             target_specified).
Proof.
  intros env sqlmap_path wm1 widget_id d wm2 base letters
         Hbase Htech Hdiff shape.
  pose proof (differs_tokens widget_id d Hdiff) as Htok.
  split; [exact Htok|].
  eexists. rewrite (build_decomposes _ _ _ _ _ Hbase Htech).
  rewrite emitted_app. cbn [emitted flat_map]. fold (emitted wm2).
  rewrite Htok, <- !app_assoc. reflexivity.
Qed.

(** The "Timeout" spin box of the shipped catalogue, set to 45, between the
    "Cookie" field with blanks around its text and the "Request file"
    path. *)
Lemma C5_token_shape_witness :
  let cookie := {| widget := QLineEdit "  id=1 "; flag := "--cookie";
                   type := lineedit; default := PyNone; default_text := "";
                   default_index := -1 |} in
  let d := {| widget := QSpinBox 1 600 45; flag := "--timeout"; type := spin;
              default := PyInt 30; default_text := ""; default_index := -1 |} in
  let request := {| widget := QLineEdit "/tmp/r.txt"; flag := "-r";
                    type := file; default := PyNone; default_text := "";
                    default_index := -1 |} in
  let wm1 := [("req_cookie", cookie)] in
  let wm2 := [("target_requestfile", request)] in
  (command_base example_env "sqlmap" = Returned (Some ["sqlmap"])
   /\ tech_string (wm1 ++ ("req_timeout", d) :: wm2) = Some ""
   /\ differs_from_default d)
  /\ option_tokens "req_timeout" d = ["--timeout=45"]
  /\ exists target_specified,
      build_sqlmap_command example_env "sqlmap"
        (wm1 ++ ("req_timeout", d) :: wm2)
      = Returned
          (Some (["sqlmap"] ++ ["--cookie=id=1"] ++ ["--timeout=45"]
                 ++ ["-r"; "/tmp/r.txt"] ++ technique_tokens ""),
           target_specified).
Proof.
  intros cookie d request wm1 wm2.
  assert (H1 : command_base example_env "sqlmap" = Returned (Some ["sqlmap"]))
    by reflexivity.
  assert (H2 : tech_string (wm1 ++ ("req_timeout", d) :: wm2) = Some "")
    by reflexivity.
  assert (H3 : differs_from_default d) by reflexivity.
  split; [now repeat split|].
  exact (C5_token_shape example_env "sqlmap" wm1 "req_timeout" d wm2
           ["sqlmap"] "" H1 H2 H3).
Defined.

(** *** The technique group *)

Lemma set_ne_false a b : set_ne a b = false <-> same_letters a b.
Proof.
  unfold set_ne, same_letters.
  rewrite negb_false_iff, andb_true_iff, !forallb_forall.
  split.
  - intros [Hab Hba] c. split; intros Hc.
    + apply Hab in Hc. apply existsb_exists in Hc as [x [Hx Heq]].
      apply Ascii.eqb_eq in Heq. now subst.
    + apply Hba in Hc. apply existsb_exists in Hc as [x [Hx Heq]].
      apply Ascii.eqb_eq in Heq. now subst.
  - intros H. split; intros c Hc; apply existsb_exists; exists c;
      (split; [now apply H | apply Ascii.eqb_refl]).
Qed.

Lemma checked_flags_filter wm l :
  checked_flags wm = Some l ->
  l = map (fun e => flag (snd e)) (filter checked_technique wm).
Proof.
  revert l. induction wm as [|[k d] rest IH]; intros l; cbn [checked_flags].
  - now intros [= <-].
  - cbn [filter]. unfold checked_technique at 1. cbn [fst snd].
    destruct (is_technique k d); cbn [andb]; [|exact (IH l)].
    destruct (widget d); try discriminate.
    destruct (checked_flags rest) as [l'|]; [|discriminate].
    cbn [option_map]. intros [= <-].
    destruct isChecked; cbn [map snd]; now rewrite (IH l' eq_refl).
Qed.

Lemma shipped_tech_string st b e u s t q :
  tech_string (form (with_techniques b e u s t q st))
  = Some (letter b "B" +++ letter e "E" +++ letter u "U" +++ letter s "S"
          +++ letter t "T" +++ letter q "Q").
Proof. destruct b, e, u, s, t, q; vm_compute; reflexivity. Qed.

(** C2.  The letters of the technique group are the flags of its checked
    boxes, joined in catalogue order; the group closes the vector with
    nothing when the letters are, as a set, those of BEUSTQ, and with the
    one token [--technique=<letters>] for any other non-empty choice.  On
    the shipped form the letters come in the order B, E, U, S, T, Q, and
    checking only U and S ends the vector with [--technique=US]. *)
Theorem C2_technique_group :
  forall env sqlmap_path base,
    command_base env sqlmap_path = Returned (Some base) ->
    (forall wm letters,
        tech_string wm = Some letters ->
        letters
        = join "" (map (fun e => flag (snd e)) (filter checked_technique wm))
        /\ (exists has_target,
              build_sqlmap_command env sqlmap_path wm
              = Returned
                  (Some (base ++ emitted wm ++ technique_tokens letters),
                   has_target))
        /\ (same_letters letters "BEUSTQ" -> technique_tokens letters = [])
        /\ (~ same_letters letters "BEUSTQ" -> letters <> "" ->
            technique_tokens letters = ["--technique=" +++ letters]))
    /\ (forall st b e u s t q,
          tech_string (form (with_techniques b e u s t q st))
          = Some (letter b "B" +++ letter e "E" +++ letter u "U"
                  +++ letter s "S" +++ letter t "T" +++ letter q "Q"))
    /\ (forall st,
          let wm := form (with_techniques false false true true false false st)
          in exists has_target,
            build_sqlmap_command env sqlmap_path wm
            = Returned
                (Some (base ++ emitted wm ++ ["--technique=US"]), has_target)).
Proof.
  intros env sqlmap_path base Hbase. split; [|split].
  - intros wm letters Htech. split; [|split; [|split]].
    + unfold tech_string in Htech.
      destruct (checked_flags wm) as [l|] eqn:Hl; [|discriminate].
      injection Htech as <-. now rewrite (checked_flags_filter _ _ Hl).
    + eexists. exact (build_decomposes _ _ _ _ _ Hbase Htech).
    + intros Hsame. apply set_ne_false in Hsame.
      unfold technique_tokens, default_tech. now rewrite Hsame.
    + intros Hdiff Hne. unfold technique_tokens, default_tech.
      destruct (set_ne letters "BEUSTQ") eqn:Hset.
      * destruct (letters =? "")%string eqn:He; [|reflexivity].
        now apply String.eqb_eq in He.
      * now apply set_ne_false in Hset.
  - apply shipped_tech_string.
  - intros st wm. eexists.
    exact (build_decomposes _ _ _ _ _ Hbase
             (shipped_tech_string st false false true true false false)).
Qed.

(** The shipped form after a reset with only the boxes U and S checked. *)
Lemma C2_technique_group_witness :
  command_base example_env "sqlmap" = Returned (Some ["sqlmap"])
  /\ exists has_target,
      let wm :=
        form (with_techniques false false true true false false reset_state)
      in build_sqlmap_command example_env "sqlmap" wm
         = Returned
             (Some (["sqlmap"] ++ emitted wm ++ ["--technique=US"]),
              has_target).
Proof.
  assert (H : command_base example_env "sqlmap" = Returned (Some ["sqlmap"]))
    by reflexivity.
  split; [exact H|].
  exact (proj2 (proj2 (C2_technique_group example_env "sqlmap" ["sqlmap"] H))
               reset_state).
Defined.

Lemma checked_flags_none_checked wm :
  (forall k d, In (k, d) wm -> is_technique k d = true ->
               widget d = QCheckBox false) ->
  checked_flags wm = Some [].
Proof.
  induction wm as [|[k d] rest IH]; intros H; cbn [checked_flags];
    [reflexivity|].
  assert (Hrest : checked_flags rest = Some []).
  { apply IH. intros k' d' Hin. apply H. now right. }
  destruct (is_technique k d) eqn:Ht; [|exact Hrest].
  rewrite (H k d (or_introl eq_refl) Ht), Hrest. reflexivity.
Qed.

(** C10.  When every box of the technique group is unchecked the letters
    are the empty string: as a set they differ from BEUSTQ, and still the
    vector ends with what the options emitted, with no technique token. *)
Theorem C10_no_letters_no_token :
  forall env sqlmap_path base wm,
    command_base env sqlmap_path = Returned (Some base) ->
    (forall k d, In (k, d) wm -> is_technique k d = true ->
                 widget d = QCheckBox false) ->
    tech_string wm = Some ""
    /\ set_ne "" default_tech = true
    /\ ~ same_letters "" "BEUSTQ"
    /\ technique_tokens "" = []
    /\ exists has_target,
        build_sqlmap_command env sqlmap_path wm
        = Returned (Some (base ++ emitted wm), has_target).
Proof.
  intros env sqlmap_path base wm Hbase Hnone.
  assert (Htech : tech_string wm = Some "").
  { unfold tech_string. now rewrite checked_flags_none_checked. }
  split; [exact Htech|]. split; [reflexivity|]. split.
  - intros Hsame. apply set_ne_false in Hsame. discriminate.
  - split; [reflexivity|]. eexists.
    rewrite (build_decomposes _ _ _ _ _ Hbase Htech).
    cbn [technique_tokens]. now rewrite app_nil_r.
Qed.

(** The shipped form after a reset, with its six technique boxes
    unchecked. *)
Lemma C10_no_letters_no_token_witness :
  let wm :=
    form (with_techniques false false false false false false reset_state) in
  command_base example_env "sqlmap" = Returned (Some ["sqlmap"])
  /\ tech_string wm = Some ""
  /\ exists has_target,
      build_sqlmap_command example_env "sqlmap" wm
      = Returned (Some (["sqlmap"] ++ emitted wm), has_target).
Proof.
  intros wm.
  assert (H : command_base example_env "sqlmap" = Returned (Some ["sqlmap"]))
    by reflexivity.
  assert (Hall : forallb (fun e => negb (checked_or_foreign e)) wm = true)
    by (vm_compute; reflexivity).
  assert (Hnone : forall k d, In (k, d) wm -> is_technique k d = true ->
                              widget d = QCheckBox false).
  { intros k d Hin Ht. rewrite forallb_forall in Hall.
    specialize (Hall _ Hin). unfold checked_or_foreign in Hall.
    cbn [fst snd] in Hall. rewrite Ht in Hall.
    destruct (widget d) as [| |[|]| | |]; try discriminate. reflexivity. }
  split; [exact H|].
  destruct (C10_no_letters_no_token example_env "sqlmap" ["sqlmap"] wm H Hnone)
    as [Htech [_ [_ [_ Hbuild]]]].
  split; [exact Htech | exact Hbuild].
Defined.

(** C6.  The end-to-end example: with the URL, the timeout and the random
    agent registered in this order (defaults: empty text, 30, unchecked) and
    set to [http://x/a.php?id=1], 45 and checked, the assembler returns the
    prefix followed by [-u], the URL, [--timeout=45], [--random-agent],
    and reports a target; with the three options untouched it returns the
    bare prefix and no target. *)
Theorem C6_end_to_end :
  forall env sqlmap_path base,
    command_base env sqlmap_path = Returned (Some base) ->
    build_sqlmap_command env sqlmap_path example_form
    = Returned
        (Some (base ++ ["-u"; "http://x/a.php?id=1"; "--timeout=45";
                        "--random-agent"]),
         true)
    /\ build_sqlmap_command env sqlmap_path example_catalogue
       = Returned (Some base, false).
Proof.
  intros env sqlmap_path base Hbase. split.
  - now rewrite (build_decomposes env sqlmap_path example_form base ""
                   Hbase eq_refl).
  - rewrite (build_decomposes env sqlmap_path example_catalogue base ""
               Hbase eq_refl).
    cbn. now rewrite app_nil_r.
Qed.

(** With [sqlmap] found on the search path the prefix is the one token
    [sqlmap]. *)
Lemma C6_end_to_end_witness :
  command_base example_env "sqlmap" = Returned (Some ["sqlmap"])
  /\ build_sqlmap_command example_env "sqlmap" example_form
     = Returned
         (Some (["sqlmap"] ++ ["-u"; "http://x/a.php?id=1"; "--timeout=45";
                               "--random-agent"]),
          true).
Proof.
  assert (H : command_base example_env "sqlmap" = Returned (Some ["sqlmap"]))
    by reflexivity.
  split; [exact H|].
  exact (proj1 (C6_end_to_end example_env "sqlmap" ["sqlmap"] H)).
Defined.

(** *** The target flag *)

Lemma names_target_tokens widget_id d :
  names_target widget_id d = true
  <-> option_tokens widget_id d <> [] /\ In (flag d) target_options.
Proof.
  assert (Hin : existsb (String.eqb (flag d)) target_options = true
                <-> In (flag d) target_options).
  { rewrite existsb_exists. split.
    - intros [x [Hx Heq]]. apply String.eqb_eq in Heq. now subst.
    - intros H. exists (flag d). split; [exact H | apply String.eqb_refl]. }
  unfold names_target, option_tokens, loop_body.
  destruct (is_technique widget_id d); cbn [fst snd];
    [split; [discriminate | now intros [H _]]|].
  destruct (read_widget d) as [[value is_default]|]; cbn [fst snd];
    [|split; [discriminate | now intros [H _]]].
  destruct (to_emit value is_default); cbn [fst snd];
    [|split; [discriminate | now intros [H _]]].
  destruct (existsb (String.eqb (flag d)) target_options) eqn:He.
  - destruct (is_True value), (startswith (flag d) "--"); cbn [fst snd app];
      (split; [intros _; split; [discriminate | now apply Hin]
              | reflexivity]).
  - destruct (is_True value), (startswith (flag d) "--"); cbn [fst snd app];
      (split; [discriminate | intros [_ H]; apply Hin in H; discriminate]).
Qed.

Lemma names_target_flag widget_id d :
  names_target widget_id d = true -> In (flag d) (option_tokens widget_id d).
Proof.
  unfold names_target, option_tokens, loop_body.
  destruct (is_technique widget_id d); cbn [fst snd]; [discriminate|].
  destruct (read_widget d) as [[value is_default]|]; cbn [fst snd];
    [|discriminate].
  destruct (to_emit value is_default); cbn [fst snd]; [|discriminate].
  destruct (existsb (String.eqb (flag d)) target_options) eqn:He;
    destruct (is_True value), (startswith (flag d) "--") eqn:Hs;
    cbn [fst snd app]; try discriminate; intros _; try (now left).
  (* a target flag never starts with two dashes *)
  all: exfalso; apply existsb_exists in He as [x [Hx Heq]];
    apply String.eqb_eq in Heq; subst x;
    cbn in Hx; repeat (destruct Hx as [Hx|Hx];
                       [rewrite <- Hx in Hs; discriminate|]);
    contradiction.
Qed.

Lemma build_returns env sqlmap_path wm command has_target :
  build_sqlmap_command env sqlmap_path wm
  = Returned (Some command, has_target) ->
  exists base letters,
    command_base env sqlmap_path = Returned (Some base)
    /\ tech_string wm = Some letters.
Proof.
  unfold build_sqlmap_command.
  destruct (command_base env sqlmap_path) as [exc|[base|]]; try discriminate.
  destruct (options_loop wm (base, false)).
  destruct (tech_string wm) as [letters|]; [|discriminate].
  intros _. now exists base, letters.
Qed.

Lemma silent_outside (keep : string * data -> bool) wm :
  (forall k d, In (k, d) wm -> keep (k, d) = false -> equals_default d) ->
  emitted wm = emitted (filter keep wm)
  /\ existsb (fun '(k, d) => names_target k d) wm
     = existsb (fun '(k, d) => names_target k d) (filter keep wm).
Proof.
  induction wm as [|[k d] rest IH]; intros H; [now split|].
  destruct IH as [IHe IHt]; [intros k' d' Hin; apply H; now right|].
  cbn [filter emitted flat_map existsb]. fold (emitted rest).
  destruct (keep (k, d)) eqn:Hk.
  - cbn [emitted flat_map existsb]. fold (emitted (filter keep rest)).
    now rewrite IHe, IHt.
  - destruct (equals_default_silent k d (H k d (or_introl eq_refl) Hk))
      as [Htok Htgt].
    now rewrite Htok, Htgt.
Qed.

Lemma dict_get_In (wm : widgets_map) k d :
  dict_get String.eqb wm k = Some d -> In (k, d) wm.
Proof.
  induction wm as [|[k' d'] rest IH]; cbn [dict_get]; [discriminate|].
  destruct (k =? k')%string eqn:He.
  - apply String.eqb_eq in He. intros [= <-]. subst. now left.
  - intros H. right. now apply IH.
Qed.

Lemma form_In st k d :
  dict_get String.eqb add_option_tabs k = Some d ->
  In (k, with_widget d (st k)) (form st).
Proof.
  intros H. apply dict_get_In in H. unfold form.
  apply in_map_iff. exists (k, d). now split.
Qed.

Lemma form_ext st st' : (forall k, st k = st' k) -> form st = form st'.
Proof.
  intros H. unfold form. apply map_ext. intros [k d]. now rewrite H.
Qed.

Lemma box_at_default st k d :
  dict_get String.eqb add_option_tabs k = Some d ->
  type d = checkbox -> default d = PyBool true ->
  equals_default (with_widget d (st k)) ->
  st k = QCheckBox true.
Proof.
  intros _ Ht Hd. unfold equals_default. cbn [with_widget type widget default].
  rewrite Ht, Hd. destruct (st k) as [| |[|]| | |]; try contradiction.
  - reflexivity.
  - discriminate.
Qed.

Lemma equals_defaultb_true d : equals_defaultb d = true -> equals_default d.
Proof.
  unfold equals_defaultb, equals_default.
  destruct (type d), (widget d); try discriminate; intros H;
    try (now apply String.eqb_eq in H); try exact H.
  apply orb_true_iff in H as [H|H].
  - left. now apply Z.eqb_eq in H.
  - right. now apply String.eqb_eq in H.
Qed.

Lemma shipped_defaults_techniques st :
  (forall k d, In (k, d) (form st) ->
               k <> "target_url" -> k <> "reg_type" -> equals_default d) ->
  tech_string (form st) = Some "BEUSTQ".
Proof.
  intros H.
  assert (Hbox : forall k d,
             dict_get String.eqb add_option_tabs k = Some d ->
             type d = checkbox -> default d = PyBool true ->
             k <> "target_url" -> k <> "reg_type" ->
             st k = QCheckBox true).
  { intros k d Hget Ht Hd Hu Hr.
    apply (box_at_default st k d Hget Ht Hd).
    apply (H k); [now apply form_In | exact Hu | exact Hr]. }
  assert (HB : st "tech_B" = QCheckBox true)
    by (eapply Hbox; [vm_compute; reflexivity | reflexivity | reflexivity
                     | discriminate | discriminate]).
  assert (HE : st "tech_E" = QCheckBox true)
    by (eapply Hbox; [vm_compute; reflexivity | reflexivity | reflexivity
                     | discriminate | discriminate]).
  assert (HU : st "tech_U" = QCheckBox true)
    by (eapply Hbox; [vm_compute; reflexivity | reflexivity | reflexivity
                     | discriminate | discriminate]).
  assert (HS : st "tech_S" = QCheckBox true)
    by (eapply Hbox; [vm_compute; reflexivity | reflexivity | reflexivity
                     | discriminate | discriminate]).
  assert (HT : st "tech_T" = QCheckBox true)
    by (eapply Hbox; [vm_compute; reflexivity | reflexivity | reflexivity
                     | discriminate | discriminate]).
  assert (HQ : st "tech_Q" = QCheckBox true)
    by (eapply Hbox; [vm_compute; reflexivity | reflexivity | reflexivity
                     | discriminate | discriminate]).
  rewrite (form_ext st (with_techniques true true true true true true st)).
  - apply shipped_tech_string.
  - intros k. unfold with_techniques, set_state.
    repeat match goal with
           | |- _ = (if (k =? ?x)%string then _ else _) =>
               let E := fresh "E" in
               destruct (k =? x)%string eqn:E;
               [apply String.eqb_eq in E; subst k; assumption|]
           end.
    reflexivity.
Qed.

Lemma url_tokens url :
  strip url <> "" ->
  option_tokens "target_url" (target_url (QLineEdit url)) = ["-u"; strip url]
  /\ names_target "target_url" (target_url (QLineEdit url)) = true.
Proof.
  intros H. apply String.eqb_neq in H.
  unfold option_tokens, names_target, loop_body.
  change (is_technique "target_url" (target_url (QLineEdit url))) with false.
  cbn [read_widget target_url type widget default_text flag].
  unfold to_emit. cbn [py_eq is_None isinstance_bool negb].
  rewrite H. cbn. now split.
Qed.

(** The shipped form after a reset, with the text [-u] typed into the
    "User-Agent" field: the vector holds the token [-u], as the value of
    [-A], and [has_target] is false, so the vector holding a target flag
    does not make [has_target] true. *)
Lemma C3_counterexample :
  let wm := form (set_state "req_agent" (QLineEdit "-u") reset_state) in
  let command := ["sqlmap"; "-A"; "-u"; "--reg-type=REG_SZ"] in
  build_sqlmap_command example_env "sqlmap" wm
  = Returned (Some command, false)
  /\ ~ (false = true <-> exists f, In f target_options /\ In f command).
Proof.
  cbv zeta. split; [vm_compute; reflexivity|].
  intros [_ H]. discriminate H. exists "-u". split; cbn; tauto.
Qed.

(** C3, amended.  [has_target] is true exactly when some option whose flag
    is one of [-u], [-d], [-l], [-m], [-r], [-g], [-c] emitted tokens, and
    then the vector holds that flag.  On the shipped form, when the target
    URL holds a value that is not blank and every other option, the
    registry type selector aside, equals its registered default, the
    vector is the prefix, then [-u], then the stripped value, then only what
    the registry type selector contributes, and [has_target] is true. *)
Theorem C3_has_target :
  forall env sqlmap_path,
    (forall wm command has_target,
        build_sqlmap_command env sqlmap_path wm
        = Returned (Some command, has_target) ->
        (has_target = true
         <-> exists widget_id d,
               In (widget_id, d) wm
               /\ option_tokens widget_id d <> []
               /\ In (flag d) target_options)
        /\ (has_target = true ->
            exists f, In f target_options /\ In f command))
    /\ (forall base st url,
          command_base env sqlmap_path = Returned (Some base) ->
          st "target_url" = QLineEdit url ->
          strip url <> "" ->
          (forall k d, In (k, d) (form st) ->
                       k <> "target_url" -> k <> "reg_type" ->
                       equals_default d) ->
          In ("reg_type", registry_type (st "reg_type")) (form st)
          /\ build_sqlmap_command env sqlmap_path (form st)
             = Returned
                 (Some (base ++ ["-u"; strip url]
                        ++ option_tokens "reg_type"
                             (registry_type (st "reg_type"))),
                  true)).
Proof.
  intros env sqlmap_path. split.
  - intros wm command has_target Hbuild.
    destruct (build_returns _ _ _ _ _ Hbuild) as [base [letters [Hb Ht]]].
    rewrite (build_decomposes _ _ _ _ _ Hb Ht) in Hbuild.
    injection Hbuild as Hc Htgt.
    assert (Hiff : has_target = true
                   <-> exists widget_id d,
                         In (widget_id, d) wm
                         /\ option_tokens widget_id d <> []
                         /\ In (flag d) target_options).
    { rewrite <- Htgt, existsb_exists. split.
      - intros [[k d] [Hin Hn]]. exists k, d.
        split; [exact Hin | now apply names_target_tokens].
      - intros [k [d [Hin Hn]]]. exists (k, d).
        split; [exact Hin | now apply names_target_tokens]. }
    split; [exact Hiff|].
    intros Htrue. rewrite <- Htgt in Htrue.
    apply existsb_exists in Htrue as [[k d] [Hin Hn]].
    exists (flag d). split; [now apply names_target_tokens in Hn|].
    rewrite <- Hc. apply in_or_app. right. apply in_or_app. left.
    unfold emitted. apply in_flat_map. exists (k, d).
    split; [exact Hin | now apply names_target_flag].
  - intros base st url Hbase Hurl Hne Hdef.
    assert (Hkeep : filter url_or_registry_type (form st)
                    = [("target_url", target_url (st "target_url"));
                       ("reg_type", registry_type (st "reg_type"))])
      by (vm_compute; reflexivity).
    split.
    { assert (Hin : In ("reg_type", registry_type (st "reg_type"))
                       (filter url_or_registry_type (form st)))
        by (rewrite Hkeep; right; now left).
      now apply filter_In in Hin. }
    destruct (silent_outside url_or_registry_type (form st)) as [He Ht].
    { intros k d Hin Hk. unfold url_or_registry_type in Hk. cbn [fst] in Hk.
      apply orb_false_iff in Hk as [Hk1 Hk2].
      apply String.eqb_neq in Hk1, Hk2. now apply (Hdef k). }
    rewrite (build_decomposes _ _ _ _ _ Hbase
               (shipped_defaults_techniques st Hdef)).
    rewrite He, Ht, Hkeep, Hurl.
    destruct (url_tokens url Hne) as [Htok Htgt].
    cbn [emitted flat_map existsb]. rewrite Htok, Htgt.
    cbn [orb app]. change (technique_tokens "BEUSTQ") with (@nil string).
    now rewrite !app_nil_r.
Qed.

(** The shipped form after a reset, with a URL typed into the target
    field between a no-break space (U+00A0) and a blank. *)
Lemma C3_has_target_witness :
  let url :=
    string_of_list_ascii (utf8 [194; 160]) +++ "http://x/a.php?id=1 " in
  let st := set_state "target_url" (QLineEdit url) reset_state in
  (command_base example_env "sqlmap" = Returned (Some ["sqlmap"])
   /\ st "target_url" = QLineEdit url
   /\ strip url <> "")
  /\ strip url = "http://x/a.php?id=1"
  /\ build_sqlmap_command example_env "sqlmap" (form st)
     = Returned
         (Some (["sqlmap"] ++ ["-u"; strip url]
                ++ option_tokens "reg_type" (registry_type (st "reg_type"))),
          true).
Proof.
  intros url st.
  assert (H1 : command_base example_env "sqlmap" = Returned (Some ["sqlmap"]))
    by reflexivity.
  assert (H2 : st "target_url" = QLineEdit url) by reflexivity.
  assert (H3 : strip url <> "") by (vm_compute; discriminate).
  assert (Hall : forallb (fun e => url_or_registry_type e
                                   || equals_defaultb (snd e)) (form st)
                 = true) by (vm_compute; reflexivity).
  assert (H4 : forall k d, In (k, d) (form st) ->
                           k <> "target_url" -> k <> "reg_type" ->
                           equals_default d).
  { intros k d Hin Hu Hr. rewrite forallb_forall in Hall.
    specialize (Hall _ Hin). apply orb_true_iff in Hall as [Hk|Hd].
    - unfold url_or_registry_type in Hk. cbn [fst] in Hk.
      apply orb_true_iff in Hk as [Hk|Hk]; apply String.eqb_eq in Hk;
        contradiction.
    - now apply equals_defaultb_true. }
  split; [now repeat split|]. split; [reflexivity|].
  exact (proj2 (proj2 (C3_has_target example_env "sqlmap")
                  ["sqlmap"] st url H1 H2 H3 H4)).
Defined.

(** ** The runner thread and its signals *)

Lemma read_loop_outputs instance_id turns :
  Forall is_output (fst (read_loop instance_id turns))
  /\ Forall (fun n => handle_of n = instance_id)
            (fst (read_loop instance_id turns)).
Proof.
  induction turns as [|[|line poll|e] rest [IH1 IH2]]; cbn [read_loop fst];
    try (split; constructor).
  destruct (negb (line =? "")%string).
  - destruct (read_loop instance_id rest) as [out how]. cbn [fst] in *.
    split; constructor; trivial. exact I.
  - destruct poll; [split; constructor | now split].
Qed.

Lemma read_loop_exit instance_id turns :
  match snd (read_loop instance_id turns) with
  | loop_left None =>
      loop_ends turns = true /\ left_by_flag turns = true
      /\ loop_raises turns = false
  | loop_left (Some _) =>
      loop_ends turns = true /\ left_by_flag turns = false
      /\ loop_raises turns = false
  | loop_raised _ =>
      loop_ends turns = true /\ left_by_flag turns = false
      /\ loop_raises turns = true
  | loop_running => loop_ends turns = false
  end.
Proof.
  induction turns as [|[|line poll|e] rest IH];
    cbn [read_loop loop_ends left_by_flag loop_raises snd]; try tauto.
  destruct (negb (line =? "")%string).
  - now destruct (read_loop instance_id rest).
  - destruct poll; [cbn; tauto | exact IH].
Qed.

Lemma after_loop_shape instance_id env cached :
  (exists return_code,
      after_loop instance_id env cached
      = [processFinished instance_id return_code])
  \/ (exists return_code,
         after_loop instance_id env cached
         = [outputTextAvailable instance_id cancelled_notice;
            processFinished instance_id return_code]).
Proof.
  unfold after_loop.
  destruct cached as [c|]; [left; now exists c|].
  destruct (poll_after_loop env) as [c|]; [left; now exists c|].
  right. eexists. reflexivity.
Qed.

(** The shape of every run that ends: outputs first, then either
    [processFinished] alone or [processError] and [processFinished (-1)]. *)
Lemma run_shape self env :
  (popen env = FileNotFoundError -> command_list self <> []) ->
  (popen env = spawned -> loop_ends (iterations env) = true) ->
  snd (run self env) = returned
  /\ exists outs,
      Forall is_output outs
      /\ Forall (fun n => handle_of n = identifier self) outs
      /\ ((failed env = false
           /\ exists return_code,
               fst (run self env)
               = outs ++ [processFinished (identifier self) return_code])
          \/ (failed env = true
              /\ exists message,
                  fst (run self env)
                  = outs ++ [processError (identifier self) message;
                             processFinished (identifier self) (-1)])).
Proof.
  intros Hcmd Hends. unfold run, failed.
  destruct (popen env) eqn:Hp.
  - specialize (Hends eq_refl).
    pose proof (read_loop_outputs (identifier self) (iterations env))
      as [Ho Hh].
    pose proof (read_loop_exit (identifier self) (iterations env)) as Hx.
    destruct (read_loop (identifier self) (iterations env)) as [out how].
    cbn [fst snd] in *.
    destruct how as [cached|e|].
    + split; [reflexivity|].
      assert (Hr : loop_raises (iterations env) = false)
        by (destruct cached; tauto).
      destruct (after_loop_shape (identifier self) env cached)
        as [[rc Ha]|[rc Ha]]; rewrite Ha.
      * exists (outputTextAvailable (identifier self)
                  (command_notice (command_list self)) :: out).
        split; [constructor; [exact I | exact Ho]|].
        split; [constructor; [reflexivity | exact Hh]|].
        left. split; [exact Hr|]. exists rc. reflexivity.
      * exists (outputTextAvailable (identifier self)
                  (command_notice (command_list self))
                :: out ++ [outputTextAvailable (identifier self)
                             cancelled_notice]).
        split; [constructor; [exact I|];
                apply Forall_app; split; [exact Ho | repeat constructor]|].
        split; [constructor; [reflexivity|];
                apply Forall_app; split; [exact Hh | repeat constructor]|].
        left. split; [exact Hr|]. exists rc. cbn [fst app].
        now rewrite <- app_assoc.
    + split; [reflexivity|].
      exists (outputTextAvailable (identifier self)
                (command_notice (command_list self)) :: out).
      split; [constructor; [exact I | exact Ho]|].
      split; [constructor; [reflexivity | exact Hh]|].
      right. split; [tauto|]. eexists. reflexivity.
    + rewrite Hx in Hends. discriminate.
  - specialize (Hcmd eq_refl). unfold except_FileNotFoundError.
    destruct (command_list self) as [|executable args]; [contradiction|].
    split; [reflexivity|].
    exists [outputTextAvailable (identifier self)
              (command_notice (executable :: args))].
    split; [repeat constructor|]. split; [repeat constructor|].
    right. split; [reflexivity|]. eexists. reflexivity.
  - split; [reflexivity|].
    exists [outputTextAvailable (identifier self)
              (command_notice (command_list self))].
    split; [repeat constructor|]. split; [repeat constructor|].
    right. split; [reflexivity|]. eexists. reflexivity.
Qed.

Lemma outputs_not_terminal outs :
  Forall is_output outs ->
  filter is_finished outs = [] /\ filter is_error outs = [].
Proof.
  induction 1 as [|n rest Hn _ [IH1 IH2]]; [now split|].
  destruct n; try contradiction. cbn [filter is_finished is_error].
  now split.
Qed.

Lemma deliver_outputs gui outs rest :
  Forall is_output outs ->
  terminal_acts gui (outs ++ rest) = terminal_acts gui rest
  /\ fst (deliver_all gui (outs ++ rest)) = fst (deliver_all gui rest).
Proof.
  induction 1 as [|n outs Hn _ [IH1 IH2]]; [now split|].
  destruct n; try contradiction.
  cbn [app terminal_acts deliver_all deliver update_output is_error
       is_finished orb andb].
  destruct (deliver_all gui (outs ++ rest)) as [g l] eqn:Hd.
  cbn [fst] in *. now split.
Qed.

Lemma unregister_forgets gui instance_id :
  registered (unregister gui instance_id) instance_id = false.
Proof.
  unfold registered, unregister, dict_mem. cbn [running_processes].
  induction (running_processes gui) as [|[k v] rest IH]; [reflexivity|].
  cbn [dict_del]. destruct (instance_id =? k)%nat eqn:He; [exact IH|].
  cbn [dict_get]. now rewrite He.
Qed.

(** A scan of [sqlmap] that is not installed: [Popen] raises
    [FileNotFoundError], and the thread emits [processError] and then
    [processFinished] for the same handle, two terminal signals where the
    claim as stated allows one. *)
Lemma C1_counterexample :
  let self := fst (__init__ 0 ["sqlmap"; "-u"; "http://x/a.php?id=1"]) in
  let env := {| popen := FileNotFoundError; iterations := [];
                poll_after_loop := None; wait_timeout := None;
                wait := 0%Z |} in
  run self env
  = ([outputTextAvailable 0
        (command_notice ["sqlmap"; "-u"; "http://x/a.php?id=1"]);
      processError 0 (not_found_message "sqlmap");
      processFinished 0 (-1)],
     returned)
  /\ terminal_count (fst (run self env)) = 2.
Proof. cbv zeta. split; reflexivity. Qed.

(** C1, amended.  A run whose spawn fails, or whose read loop comes to an
    end, returns; it emits [processFinished] for its handle exactly once,
    as its last signal, after outputs only, except that a failure (the
    spawn raises, or the read loop raises) puts one [processError] right
    before a [processFinished] of code -1, so that a failed run delivers
    both signals and a run without failure delivers [processFinished]
    alone.  Every signal carries the handle of the thread.  The slots act
    on a registered handle exactly once: the first terminal signal
    removes the instance and the second finds nothing to do. *)
Theorem C1_terminal_notifications :
  forall self env,
    (popen env = FileNotFoundError -> command_list self <> []) ->
    (popen env = spawned -> loop_ends (iterations env) = true) ->
    let signals := fst (run self env) in
    let instance_id := identifier self in
    snd (run self env) = returned
    /\ length (filter is_finished signals) = 1
    /\ length (filter is_error signals) = (if failed env then 1 else 0)
    /\ (exists outs,
          Forall is_output outs
          /\ ((failed env = false
               /\ exists return_code,
                   signals = outs ++ [processFinished instance_id return_code])
              \/ (failed env = true
                  /\ exists message,
                      signals = outs ++ [processError instance_id message;
                                         processFinished instance_id (-1)])))
    /\ Forall (fun n => handle_of n = instance_id) signals
    /\ (forall gui,
          registered gui instance_id = true ->
          terminal_acts gui signals = 1
          /\ registered (fst (deliver_all gui signals)) instance_id = false).
Proof.
  intros self env Hcmd Hends. cbv zeta.
  destruct (run_shape self env Hcmd Hends) as [Hret [outs [Ho [Hh Hs]]]].
  destruct (outputs_not_terminal outs Ho) as [Hf He].
  split; [exact Hret|].
  destruct Hs as [[Hfail [rc Hs]]|[Hfail [msg Hs]]]; rewrite Hfail, Hs.
  - rewrite !filter_app, Hf, He. cbn [filter is_finished is_error app length].
    split; [reflexivity|]. split; [reflexivity|]. split.
    { exists outs. split; [exact Ho|]. left. split; [reflexivity|].
      now exists rc. }
    split; [apply Forall_app; split; [exact Hh | repeat constructor]|].
    intros gui Hreg.
    destruct (deliver_outputs gui outs
                [processFinished (identifier self) rc] Ho) as [Ha Hd].
    rewrite Ha, Hd.
    cbn [terminal_acts deliver_all deliver]. unfold on_process_finished.
    rewrite Hreg. cbn [fst is_error is_finished orb andb Nat.add].
    split; [reflexivity | apply unregister_forgets].
  - rewrite !filter_app, Hf, He. cbn [filter is_finished is_error app length].
    split; [reflexivity|]. split; [reflexivity|]. split.
    { exists outs. split; [exact Ho|]. right. split; [reflexivity|].
      now exists msg. }
    split; [apply Forall_app; split; [exact Hh | repeat constructor]|].
    intros gui Hreg.
    destruct (deliver_outputs gui outs
                [processError (identifier self) msg;
                 processFinished (identifier self) (-1)] Ho) as [Ha Hd].
    rewrite Ha, Hd.
    cbn [terminal_acts deliver_all deliver].
    unfold on_process_error. rewrite Hreg.
    unfold on_process_finished. rewrite unregister_forgets.
    cbn [fst is_error is_finished orb andb Nat.add].
    split; [reflexivity | apply unregister_forgets].
Qed.

(** A child that prints one line and exits with status 0. *)
Lemma C1_terminal_notifications_witness :
  let self := fst (__init__ 0 ["sqlmap"; "-u"; "http://x/a.php?id=1"]) in
  let env := {| popen := spawned;
                iterations := [readline ("[*] starting" +++ LF) None;
                               readline "" None;
                               readline "" (Some 0%Z)];
                poll_after_loop := None; wait_timeout := None;
                wait := 0%Z |} in
  ((popen env = FileNotFoundError -> command_list self <> [])
   /\ (popen env = spawned -> loop_ends (iterations env) = true))
  /\ snd (run self env) = returned
  /\ length (filter is_finished (fst (run self env))) = 1
  /\ length (filter is_error (fst (run self env))) = 0.
Proof.
  intros self env.
  assert (H1 : popen env = FileNotFoundError -> command_list self <> [])
    by discriminate.
  assert (H2 : popen env = spawned -> loop_ends (iterations env) = true)
    by reflexivity.
  split; [now split|].
  destruct (C1_terminal_notifications self env H1 H2) as [Hr [Hf [He _]]].
  split; [exact Hr|]. split; [exact Hf | exact He].
Defined.

Lemma left_by_flag_ends turns :
  left_by_flag turns = true -> loop_ends turns = true.
Proof.
  induction turns as [|[|line poll|x] rest IH];
    cbn [left_by_flag loop_ends]; try discriminate; try reflexivity.
  destruct (negb (line =? "")%string); [exact IH|].
  destruct poll; [discriminate | exact IH].
Qed.

(** C9, counterexample.  A scan whose child still runs and whose output
    is still open; the user presses stop.  [stop] clears the flag,
    announces the attempt, terminates the child and waits for it, and the
    child ends with status -15.  The worker then leaves its loop on the
    cleared flag and finds the child gone: [processFinished] follows the
    last line of the child directly, and the run holds no notice of the
    cancellation by the user. *)
Lemma C9_counterexample :
  let self := {| command_list := ["sqlmap"; "-u"; "http://x/a.php?id=1"];
                 process := Some {| returncode := None |};
                 _is_running := true; identifier := 3; isRunning := true |} in
  let pressed := {| poll_now := None; terminate_wait := wait_returns (-15) |} in
  let env := {| popen := spawned;
                iterations := [readline ("[*] starting" +++ LF) None;
                               flag_cleared];
                poll_after_loop := Some (-15)%Z; wait_timeout := None;
                wait := (-15)%Z |} in
  fst (stop self pressed) = [outputTextAvailable 3 stopping_notice]
  /\ left_by_flag (iterations env) = true
  /\ run self env
     = ([outputTextAvailable 3 (command_notice (command_list self));
         outputTextAvailable 3 ("[*] starting" +++ LF);
         processFinished 3 (-15)],
        returned)
  /\ ~ In (outputTextAvailable 3 cancelled_notice) (fst (run self env)).
Proof.
  cbv zeta. split; [reflexivity|]. split; [reflexivity|].
  split; [reflexivity|].
  vm_compute. intros [H|[H|[H|[]]]]; discriminate H.
Qed.

(** C9, amended.  In the signals of a run every output comes before every
    terminal signal: the sequence is a run of [outputTextAvailable]
    followed by the terminal signals, if any.  When the worker leaves the
    loop on the cleared flag and finds its child still running, the last
    output is the notice of the cancellation by the user, and
    [processFinished] follows it directly. *)
Theorem C9_notification_order :
  forall self env,
    (exists outs terminals,
        fst (run self env) = outs ++ terminals
        /\ Forall is_output outs
        /\ Forall is_terminal terminals)
    /\ (popen env = spawned ->
        left_by_flag (iterations env) = true ->
        poll_after_loop env = None ->
        snd (run self env) = returned
        /\ exists outs return_code,
            Forall is_output outs
            /\ fst (run self env)
               = outs ++ [outputTextAvailable (identifier self)
                            cancelled_notice;
                          processFinished (identifier self) return_code]).
Proof.
  intros self env. split.
  - unfold run. destruct (popen env).
    + pose proof (read_loop_outputs (identifier self) (iterations env))
        as [Ho _].
      destruct (read_loop (identifier self) (iterations env)) as [out how].
      cbn [fst] in Ho.
      set (started := outputTextAvailable (identifier self)
                        (command_notice (command_list self))).
      assert (Hs : Forall is_output (started :: out))
        by (constructor; [exact I | exact Ho]).
      destruct how as [cached|e|]; cbn [fst except_Exception].
      * destruct (after_loop_shape (identifier self) env cached)
          as [[rc Ha]|[rc Ha]]; rewrite Ha.
        -- exists (started :: out), [processFinished (identifier self) rc].
           split; [reflexivity|]. split; [exact Hs | repeat constructor].
        -- exists (started :: out
                   ++ [outputTextAvailable (identifier self) cancelled_notice]),
             [processFinished (identifier self) rc].
           split; [cbn [app]; now rewrite <- app_assoc|].
           split; [|repeat constructor].
           constructor; [exact I|].
           apply Forall_app. split; [exact Ho | repeat constructor].
      * exists (started :: out),
          [processError (identifier self) (unexpected_message e);
           processFinished (identifier self) (-1)].
        split; [reflexivity|]. split; [exact Hs | repeat constructor].
      * exists (started :: out), []. split; [now rewrite app_nil_r|].
        split; [exact Hs | constructor].
    + unfold except_FileNotFoundError.
      destruct (command_list self) as [|executable args]; cbn [fst].
      * eexists [_], []. split; [reflexivity|]. split; repeat constructor.
      * eexists [_], [_; _]. split; [reflexivity|].
        split; repeat constructor.
    + cbn [except_Exception fst]. eexists [_], [_; _].
      split; [reflexivity|]. split; repeat constructor.
  - intros Hp Hflag Hpoll. unfold run. rewrite Hp.
    pose proof (read_loop_outputs (identifier self) (iterations env))
      as [Ho _].
    pose proof (read_loop_exit (identifier self) (iterations env)) as Hx.
    pose proof (left_by_flag_ends _ Hflag) as Hends.
    destruct (read_loop (identifier self) (iterations env)) as [out how].
    cbn [fst snd] in Ho, Hx.
    destruct how as [[c|]|e|].
    + destruct Hx as [_ [Hx _]]. rewrite Hx in Hflag. discriminate.
    + split; [reflexivity|].
      unfold after_loop. rewrite Hpoll. cbn [fst].
      exists (outputTextAvailable (identifier self)
                (command_notice (command_list self)) :: out).
      eexists. split; [constructor; [exact I | exact Ho]|].
      reflexivity.
    + destruct Hx as [_ [Hx _]]. rewrite Hx in Hflag. discriminate.
    + rewrite Hx in Hends. discriminate.
Qed.

(** A child that prints one line and is then cancelled; it does not react
    to [terminate] within two seconds and is killed. *)
Lemma C9_notification_order_witness :
  let self := fst (__init__ 3 ["sqlmap"; "-u"; "http://x/a.php?id=1"]) in
  let env := {| popen := spawned;
                iterations := [readline ("[*] starting" +++ LF) None;
                               flag_cleared];
                poll_after_loop := None; wait_timeout := None;
                wait := (-9)%Z |} in
  (popen env = spawned
   /\ left_by_flag (iterations env) = true
   /\ poll_after_loop env = None)
  /\ snd (run self env) = returned
  /\ exists outs return_code,
      Forall is_output outs
      /\ fst (run self env)
         = outs ++ [outputTextAvailable 3 cancelled_notice;
                    processFinished 3 return_code].
Proof.
  intros self env.
  assert (H1 : popen env = spawned) by reflexivity.
  assert (H2 : left_by_flag (iterations env) = true) by reflexivity.
  assert (H3 : poll_after_loop env = None) by reflexivity.
  split; [now repeat split|].
  exact (proj2 (C9_notification_order self env) H1 H2 H3).
Defined.

(** ** Stopping *)

(** A call of [stop] that finds the child running announces itself with an
    output before anything else, and emits outputs only. *)
Lemma stop_announces self env :
  ~ child_gone self env ->
  exists rest,
    fst (stop self env)
    = outputTextAvailable (identifier self) stopping_notice :: rest
    /\ Forall is_output rest.
Proof.
  unfold child_gone, stop. destruct (process self) as [p|]; [|tauto].
  destruct (returncode p) as [c|]; [intros H; exfalso; apply H; left;
                                    discriminate|].
  destruct (poll_now env) as [c|]; [intros H; exfalso; apply H; right;
                                    discriminate|].
  intros _. destruct (terminate_wait env); cbn [fst]; eexists;
    (split; [reflexivity | repeat constructor]).
Qed.

Lemma stop_child_gone self env :
  child_gone self env -> fst (stop self env) = [].
Proof.
  unfold child_gone, stop. destruct (process self) as [p|]; [|reflexivity].
  destruct (returncode p) as [c|]; [reflexivity|].
  destruct (poll_now env) as [c|]; [reflexivity|].
  intros [H|H]; now contradiction H.
Qed.

(** C8.  [stop] on a thread whose child is gone, because [run] is over or
    because the child has exited, emits no signal.  At the window, the stop
    button does nothing at all when the current tab belongs to no
    registered instance (the handle is unknown, or its terminal signal has
    been handled) or to a thread that no longer runs: no signal, and the
    state is the one before; and when the thread still runs but its child
    is gone, no signal is emitted and the registry keeps its handles. *)
Theorem C8_stop_is_noop :
  (forall self env, child_gone self env -> fst (stop self env) = [])
  /\ (forall gui current_index env,
        find_by_widget (running_processes gui) (tab_widget gui current_index)
        = None ->
        stop_current_sqlmap_instance gui current_index env = ([], gui))
  /\ (forall gui current_index env instance_id data,
        find_by_widget (running_processes gui) (tab_widget gui current_index)
        = Some (instance_id, data) ->
        (isRunning (thread data) = false ->
         stop_current_sqlmap_instance gui current_index env = ([], gui))
        /\ (child_gone (thread data) env ->
            let after := stop_current_sqlmap_instance gui current_index env in
            fst after = []
            /\ map fst (running_processes (snd after))
               = map fst (running_processes gui)
            /\ thread_counter (snd after) = thread_counter gui)).
Proof.
  split; [exact stop_child_gone|]. split.
  - intros gui current_index env Hfind. unfold stop_current_sqlmap_instance.
    rewrite Hfind. now destruct (current_index <? 0)%Z.
  - intros gui current_index env instance_id data Hfind.
    unfold stop_current_sqlmap_instance. rewrite Hfind. split.
    + intros Hrun. rewrite Hrun. now destruct (current_index <? 0)%Z.
    + intros Hgone. cbv zeta.
      destruct (current_index <? 0)%Z; [now repeat split|].
      destruct (isRunning (thread data)); [|now repeat split].
      pose proof (stop_child_gone _ _ Hgone) as Hstop.
      destruct (stop (thread data) env) as [emitted_signals t].
      cbn [fst snd] in *. split; [exact Hstop|]. split; [|reflexivity].
      unfold set_thread. cbn [running_processes].
      rewrite map_map. apply map_ext. intros [k v].
      now destruct (k =? instance_id)%nat.
Qed.

(** One scan started in a tab, its child gone and its terminal signal
    handled: the tab is still there and current, the handle is no longer
    registered, and the stop button finds nothing. *)
Lemma C8_stop_is_noop_witness :
  let gui :=
    fst (deliver (fst (start_in_tab initial ["sqlmap"; "-u"; "x"]))
                 (processFinished 0 0)) in
  let env := {| poll_now := None; terminate_wait := TimeoutExpired |} in
  (output_tabs gui = [0]
   /\ find_by_widget (running_processes gui) (tab_widget gui 0) = None)
  /\ stop_current_sqlmap_instance gui 0 env = ([], gui).
Proof.
  intros gui env.
  assert (H : find_by_widget (running_processes gui) (tab_widget gui 0) = None)
    by reflexivity.
  split; [now split|].
  exact (proj1 (proj2 C8_stop_is_noop) gui 0%Z env H).
Defined.

(** ** Handles *)

Lemma set_thread_counter gui instance_id t :
  thread_counter (set_thread gui instance_id t) = thread_counter gui.
Proof. reflexivity. Qed.

(** An event either allocates the value of the counter and raises the
    counter by one, or allocates nothing and leaves the counter alone. *)
Lemma step_counter gui e :
  match snd (step gui e) with
  | Some h =>
      h = thread_counter gui
      /\ thread_counter (fst (step gui e)) = S (thread_counter gui)
  | None => thread_counter (fst (step gui e)) = thread_counter gui
  end.
Proof.
  destruct e as [cmd|idx env|idx reply env still|n|i|i]; cbn [step].
  - unfold start_in_tab, __init__. cbn. split; [reflexivity | lia].
  - cbn [snd fst]. unfold stop_current_sqlmap_instance.
    destruct (idx <? 0)%Z; [reflexivity|].
    destruct (find_by_widget _ _) as [[k data]|]; [|reflexivity].
    destruct (isRunning (thread data)); [|reflexivity].
    now destruct (stop (thread data) env).
  - cbn [snd fst]. unfold close_output_tab.
    destruct (find_by_widget _ _) as [[k data]|]; [|reflexivity].
    destruct (isRunning (thread data)); [|reflexivity].
    destruct reply; [|reflexivity].
    now destruct (stop (thread data) env), still.
  - cbn [snd fst].
    destruct n; cbn [deliver];
      unfold update_output, on_process_finished, on_process_error;
      try reflexivity; now destruct (registered gui instance_id).
  - cbn [snd fst]. unfold worker_update.
    now destruct (dict_get Nat.eqb (running_processes gui) i).
  - cbn [snd fst]. unfold worker_update.
    now destruct (dict_get Nat.eqb (running_processes gui) i).
Qed.

Lemma handles_from_counter gui events :
  Forall (fun h => thread_counter gui <= h) (handles gui events)
  /\ StronglySorted lt (handles gui events).
Proof.
  revert gui. induction events as [|e rest IH]; intros gui;
    cbn [handles]; [split; constructor|].
  pose proof (step_counter gui e) as Hstep.
  destruct (step gui e) as [g h]. cbn [fst snd] in Hstep.
  destruct (IH g) as [Hlow Hsorted].
  destruct h as [n|].
  - destruct Hstep as [Hn Hg]. subst n. rewrite Hg in Hlow. split.
    + constructor; [lia|]. eapply Forall_impl; [|exact Hlow].
      cbn. intros a Ha. lia.
    + constructor; [exact Hsorted|]. eapply Forall_impl; [|exact Hlow].
      cbn. intros a Ha. lia.
  - rewrite Hstep in Hlow. now split.
Qed.

Lemma after_counter gui events :
  Forall (fun h => h < thread_counter (after gui events)) (handles gui events)
  /\ thread_counter gui <= thread_counter (after gui events).
Proof.
  revert gui. induction events as [|e rest IH]; intros gui;
    cbn [handles after]; [split; [constructor | lia]|].
  pose proof (step_counter gui e) as Hstep.
  destruct (step gui e) as [g h]. cbn [fst snd] in *.
  destruct (IH g) as [Hup Hmono].
  destruct h as [n|].
  - destruct Hstep as [Hn Hg]. subst n. split; [|lia].
    constructor; [lia | exact Hup].
  - split; [exact Hup | lia].
Qed.

Lemma sorted_NoDup l : StronglySorted lt l -> NoDup l.
Proof.
  induction 1 as [|a l _ IH Hall]; constructor; [|exact IH].
  intros Hin. rewrite Forall_forall in Hall. specialize (Hall _ Hin). lia.
Qed.

(** C7.  A new thread takes the value of the class counter as its handle
    and raises the counter by one.  Whatever the window goes through
    (scans started, stops, tabs closed, signals handled, workers starting
    and leaving), the handles it allocates come out strictly increasing,
    hence pairwise distinct, none below the counter it started from; and
    the handle of the next scan is above all of them, also those whose
    instance has been removed from the registry. *)
Theorem C7_handles_increase :
  (forall thread_counter command_list,
      identifier (fst (__init__ thread_counter command_list)) = thread_counter
      /\ snd (__init__ thread_counter command_list) = thread_counter + 1)
  /\ (forall gui events,
        StronglySorted lt (handles gui events)
        /\ NoDup (handles gui events)
        /\ Forall (fun h => thread_counter gui <= h) (handles gui events)
        /\ (forall command_list,
              Forall (fun h =>
                        h < snd (start_in_tab (after gui events) command_list))
                     (handles gui events))).
Proof.
  split; [now split|].
  intros gui events.
  destruct (handles_from_counter gui events) as [Hlow Hsorted].
  split; [exact Hsorted|]. split; [now apply sorted_NoDup|].
  split; [exact Hlow|].
  intros command_list. exact (proj1 (after_counter gui events)).
Qed.

(** ** Remarks on the shipped catalogue *)

(** The widget ids of the shipped catalogue are pairwise distinct, so every
    call of [add_widget_option] appends an entry. *)
Lemma shipped_ids_distinct :
  length add_option_tabs = 216
  /\ map fst add_option_tabs
     = map (fun c => fst (fst (fst c)))
           (flat_map create_option_tab_content tab_order).
Proof. split; vm_compute; reflexivity. Qed.

(** No default text of the shipped catalogue has white space at an end, so
    a text field that holds its default text equals its default in the
    sense of [equals_default]. *)
Lemma shipped_default_texts :
  forallb (fun e => (strip (default_text (snd e)) =? default_text (snd e))%string)
          add_option_tabs
  = true.
Proof. vm_compute; reflexivity. Qed.

(** "Reset all options" and the assembler disagree on one widget.  After a
    reset the registry type selector shows its first item, [REG_SZ], while
    its registered default index is -1 (the two other selectors whose first
    item is not empty, the Tor type and the dump format, register the
    default index 0): the assembler finds it changed and emits it. *)
Lemma reset_emits_registry_type :
  form reset_state = reset_all_options add_option_tabs
  /\ reset_all_options add_option_tabs = add_option_tabs
  /\ build_sqlmap_command example_env "sqlmap"
       (reset_all_options add_option_tabs)
     = Returned (Some ["sqlmap"; "--reg-type=REG_SZ"], false)
  /\ filter (fun e => negb (equals_defaultb (snd e)))
            (reset_all_options add_option_tabs)
     = [("reg_type",
         registry_type
           (QComboBox ["REG_SZ"; "REG_DWORD"; "REG_BINARY"; "REG_MULTI_SZ";
                       "REG_EXPAND_SZ"] 0))].
Proof. repeat split; vm_compute; reflexivity. Qed.

(** In the shipped catalogue the random agent is registered before the
    timeout, so there the two tokens come in the other order. *)
Lemma shipped_order_of_example :
  build_sqlmap_command example_env "sqlmap"
    (form (set_state "target_url" (QLineEdit "http://x/a.php?id=1")
             (set_state "req_timeout" (QSpinBox 1 600 45)
                (set_state "req_random_agent" (QCheckBox true) reset_state))))
  = Returned
      (Some ["sqlmap"; "-u"; "http://x/a.php?id=1"; "--random-agent";
             "--timeout=45"; "--reg-type=REG_SZ"],
       true).
Proof. vm_compute; reflexivity. Qed.

(** ** Further properties of the assembler *)

(** X1.  When the assembler gets past its pre-flight, the path was not
    empty, [shlex.split] gave at least one token, and the first token is an
    existing file or is found on the search path.  The prefix is the tokens
    of the path, with the interpreter put in front only for a path that
    ends in [.py], whose first token is an existing file that the search
    path does not know. *)
Theorem X1_command_prefix :
  forall env sqlmap_path base,
    command_base env sqlmap_path = Returned (Some base) ->
    sqlmap_path <> ""
    /\ exists executable rest,
        shlex_split env sqlmap_path = Returned (executable :: rest)
        /\ (os_path_exists env executable = true
            \/ shutil_which env executable <> None)
        /\ (base = executable :: rest
            \/ (base = sys_executable env :: executable :: rest
                /\ endswith (lower sqlmap_path) ".py" = true
                /\ shutil_which env executable = None
                /\ os_path_exists env executable = true)).
Proof.
  intros env sqlmap_path base. unfold command_base, which_is_None.
  destruct (sqlmap_path =? "")%string eqn:Hp; [discriminate|].
  apply String.eqb_neq in Hp.
  destruct (shlex_split env sqlmap_path) as [exc|[|executable rest]];
    try discriminate.
  destruct (os_path_exists env executable) eqn:Hex;
    destruct (shutil_which env executable) as [found|] eqn:Hw;
    cbn [negb andb]; try discriminate.
  all: destruct (endswith (lower sqlmap_path) ".py") eqn:Hpy.
  all: try rewrite andb_false_r.
  all: try (destruct (existsb _ _); cbn [negb andb]).
  all: intros [= <-]; split; [exact Hp|]; exists executable, rest;
    split; [reflexivity|]; rewrite ?Hex, ?Hw.
  all: try (split; [left; reflexivity | left; reflexivity]).
  all: try (split; [right; discriminate | left; reflexivity]).
  split; [left; reflexivity|]. right. now repeat split.
Qed.

(** The script [/opt/sqlmap/sqlmap.py] given by its path on a system that
    does not have it on the search path. *)
Lemma X1_command_prefix_witness :
  let env :=
    {| shlex_split := fun s => Returned [s];
       os_path_exists := fun s => (s =? "/opt/sqlmap/sqlmap.py")%string;
       shutil_which := fun _ => None;
       os_path_basename := fun s =>
         if (s =? "/usr/bin/python3")%string then "python3" else s;
       sys_executable := "/usr/bin/python3" |} in
  let base := ["/usr/bin/python3"; "/opt/sqlmap/sqlmap.py"] in
  command_base env "/opt/sqlmap/sqlmap.py" = Returned (Some base)
  /\ "/opt/sqlmap/sqlmap.py" <> ""
  /\ exists executable rest,
      shlex_split env "/opt/sqlmap/sqlmap.py" = Returned (executable :: rest)
      /\ (os_path_exists env executable = true
          \/ shutil_which env executable <> None)
      /\ (base = executable :: rest
          \/ (base = sys_executable env :: executable :: rest
              /\ endswith (lower "/opt/sqlmap/sqlmap.py") ".py" = true
              /\ shutil_which env executable = None
              /\ os_path_exists env executable = true)).
Proof.
  intros env base.
  assert (H : command_base env "/opt/sqlmap/sqlmap.py" = Returned (Some base))
    by reflexivity.
  split; [exact H|].
  exact (X1_command_prefix env "/opt/sqlmap/sqlmap.py" base H).
Defined.

Lemma option_tokens_short widget_id d :
  length (option_tokens widget_id d) <= 2.
Proof.
  unfold option_tokens, loop_body.
  destruct (is_technique widget_id d); [cbn; lia|].
  destruct (read_widget d) as [[value is_default]|]; [|cbn; lia].
  destruct (to_emit value is_default); [|cbn; lia].
  destruct (existsb (String.eqb (flag d)) target_options),
    (is_True value), (startswith (flag d) "--"); cbn; lia.
Qed.

Lemma emitted_short wm : length (emitted wm) <= 2 * length wm.
Proof.
  induction wm as [|[k d] rest IH]; [cbn; lia|].
  cbn [emitted flat_map]. fold (emitted rest).
  rewrite length_app. pose proof (option_tokens_short k d). cbn [length]. lia.
Qed.

Lemma command_base_nonempty env sqlmap_path base :
  command_base env sqlmap_path = Returned (Some base) -> base <> [].
Proof.
  unfold command_base.
  destruct (sqlmap_path =? "")%string; [discriminate|].
  destruct (shlex_split env sqlmap_path) as [exc|[|executable rest]];
    try discriminate.
  destruct (negb (os_path_exists env executable)
            && which_is_None env executable); [discriminate|].
  destruct (endswith (lower sqlmap_path) ".py");
    [destruct (negb _ && which_is_None env executable)|];
    intros [= <-]; discriminate.
Qed.

(** X2.  What the assembler returns.  Without a command the target mark is
    false, and that happens exactly on the pre-flight's refusal.  A command
    starts with the prefix, which is not empty, and carries after it at
    most two tokens for each registered option and one for the technique
    group. *)
Theorem X2_build_result :
  forall env sqlmap_path wm,
    (forall has_target,
        build_sqlmap_command env sqlmap_path wm = Returned (None, has_target) ->
        has_target = false /\ command_base env sqlmap_path = Returned None)
    /\ (forall command has_target,
          build_sqlmap_command env sqlmap_path wm
          = Returned (Some command, has_target) ->
          exists base tail,
            command_base env sqlmap_path = Returned (Some base)
            /\ base <> []
            /\ command = base ++ tail
            /\ length tail <= 2 * length wm + 1).
Proof.
  intros env sqlmap_path wm. split.
  - intros has_target. unfold build_sqlmap_command.
    destruct (command_base env sqlmap_path) as [exc|[base|]];
      try discriminate.
    + destruct (options_loop wm (base, false)).
      destruct (tech_string wm); discriminate.
    + now intros [= <-].
  - intros command has_target Hbuild.
    destruct (build_returns _ _ _ _ _ Hbuild) as [base [letters [Hb Ht]]].
    rewrite (build_decomposes _ _ _ _ _ Hb Ht) in Hbuild.
    injection Hbuild as Hc _.
    exists base, (emitted wm ++ technique_tokens letters).
    split; [exact Hb|]. split.
    + exact (command_base_nonempty _ _ _ Hb).
    + split; [now symmetry|].
      rewrite length_app. pose proof (emitted_short wm).
      assert (length (technique_tokens letters) <= 1).
      { unfold technique_tokens. destruct (set_ne letters default_tech);
          [destruct (letters =? "")%string|]; cbn; lia. }
      lia.
Qed.

Lemma X2_build_result_witness :
  build_sqlmap_command example_env "sqlmap" example_form
  = Returned (Some ["sqlmap"; "-u"; "http://x/a.php?id=1"; "--timeout=45";
                    "--random-agent"], true)
  /\ exists base tail,
      command_base example_env "sqlmap" = Returned (Some base)
      /\ base <> []
      /\ ["sqlmap"; "-u"; "http://x/a.php?id=1"; "--timeout=45";
          "--random-agent"] = base ++ tail
      /\ length tail <= 2 * length example_form + 1.
Proof.
  assert (H : build_sqlmap_command example_env "sqlmap" example_form
              = Returned (Some ["sqlmap"; "-u"; "http://x/a.php?id=1";
                                "--timeout=45"; "--random-agent"], true))
    by reflexivity.
  split; [exact H|].
  exact (proj2 (X2_build_result example_env "sqlmap" example_form) _ _ H).
Defined.

(** *** White space around a text *)

Lemma starts_with_app w x y :
  starts_with w x = true -> starts_with w (x ++ y) = true.
Proof.
  revert x. induction w as [|a w IH]; intros [|b x]; cbn; try easy.
  intros H. apply andb_true_iff in H as [Hab Hw].
  now rewrite Hab, (IH _ Hw).
Qed.

Lemma after_pattern_none patterns l :
  after_pattern patterns l = None
  <-> forall w, In w patterns -> starts_with w l = false.
Proof.
  induction patterns as [|p rest IH]; cbn [after_pattern].
  - split; [intros _ w [] | reflexivity].
  - destruct (starts_with p l) eqn:Hp.
    + split; [discriminate|]. intros H.
      specialize (H p (or_introl eq_refl)). congruence.
    + rewrite IH. split.
      * intros H w [<-|Hw]; [exact Hp | now apply H].
      * intros H w Hw. apply H. now right.
Qed.

Lemma after_pattern_front patterns x y :
  after_pattern patterns (x ++ y) = None -> after_pattern patterns x = None.
Proof.
  rewrite !after_pattern_none. intros H w Hw.
  destruct (starts_with w x) eqn:Hx; [|reflexivity].
  rewrite <- (H w Hw). symmetry. now apply starts_with_app.
Qed.

Lemma after_pattern_shorter patterns l rest :
  Forall (fun w => w <> []) patterns ->
  after_pattern patterns l = Some rest -> length rest < length l.
Proof.
  intros Hne. induction Hne as [|p others Hp _ IH]; cbn [after_pattern];
    [discriminate|].
  destruct (starts_with p l) eqn:Hs; [|exact IH].
  intros H. injection H as <-.
  destruct p as [|a p]; [congruence|]. destruct l as [|b l]; [discriminate|].
  cbn [length skipn]. rewrite length_skipn. lia.
Qed.

Lemma after_pattern_back patterns l rest :
  after_pattern patterns l = Some rest -> exists front, l = front ++ rest.
Proof.
  induction patterns as [|p others IH]; cbn [after_pattern]; [discriminate|].
  destruct (starts_with p l); [|exact IH].
  intros H. injection H as <-. exists (firstn (length p) l).
  symmetry. apply firstn_skipn.
Qed.

Lemma strip_front_fixed patterns fuel l :
  after_pattern patterns l = None -> strip_front patterns fuel l = l.
Proof. intros H. destruct fuel; cbn [strip_front]; [|rewrite H]; reflexivity. Qed.

Lemma strip_front_back patterns fuel l :
  exists front, l = front ++ strip_front patterns fuel l.
Proof.
  revert l. induction fuel as [|n IH]; intros l; cbn [strip_front].
  - now exists [].
  - destruct (after_pattern patterns l) as [rest|] eqn:H; [|now exists []].
    destruct (after_pattern_back _ _ _ H) as [front ->].
    destruct (IH rest) as [more Hmore].
    exists (front ++ more). rewrite <- app_assoc. now rewrite <- Hmore.
Qed.

Lemma strip_front_clean patterns fuel l :
  Forall (fun w => w <> []) patterns ->
  length l <= fuel ->
  after_pattern patterns (strip_front patterns fuel l) = None.
Proof.
  intros Hne. revert l. induction fuel as [|n IH]; intros l Hlen;
    cbn [strip_front].
  - destruct l; [|cbn in Hlen; lia].
    apply after_pattern_none. intros w Hw.
    rewrite Forall_forall in Hne. specialize (Hne w Hw).
    now destruct w.
  - destruct (after_pattern patterns l) as [rest|] eqn:H; [|exact H].
    apply IH. pose proof (after_pattern_shorter _ _ _ Hne H). lia.
Qed.

Lemma whitespace_nonempty : Forall (fun w : list ascii => w <> []) whitespace.
Proof. repeat constructor; discriminate. Qed.

Lemma whitespace_rev_nonempty :
  Forall (fun w : list ascii => w <> []) (map (@rev ascii) whitespace).
Proof. repeat constructor; discriminate. Qed.

Lemma lstrip_bytes_clean l : after_pattern whitespace (lstrip_bytes l) = None.
Proof. apply strip_front_clean; [apply whitespace_nonempty | lia]. Qed.

Lemma rstrip_bytes_front l : exists back, l = rstrip_bytes l ++ back.
Proof.
  unfold rstrip_bytes.
  destruct (strip_front_back (map (@rev ascii) whitespace) (length l) (rev l))
    as [front H].
  exists (rev front). rewrite <- rev_app_distr, <- H. now rewrite rev_involutive.
Qed.

Lemma rstrip_bytes_idempotent l : rstrip_bytes (rstrip_bytes l) = rstrip_bytes l.
Proof.
  unfold rstrip_bytes at 1. unfold rstrip_bytes at 2. rewrite rev_involutive.
  rewrite strip_front_fixed; [reflexivity|].
  apply strip_front_clean; [apply whitespace_rev_nonempty|].
  now rewrite length_rev.
Qed.

Lemma strip_bytes_idempotent l :
  rstrip_bytes (lstrip_bytes (rstrip_bytes (lstrip_bytes l)))
  = rstrip_bytes (lstrip_bytes l).
Proof.
  assert (H : lstrip_bytes (rstrip_bytes (lstrip_bytes l))
              = rstrip_bytes (lstrip_bytes l)).
  { unfold lstrip_bytes at 1. apply strip_front_fixed.
    destruct (rstrip_bytes_front (lstrip_bytes l)) as [back Hback].
    apply after_pattern_front with (y := back). rewrite <- Hback.
    apply lstrip_bytes_clean. }
  rewrite H. apply rstrip_bytes_idempotent.
Qed.

(** A no-break space, a blank, [x], an em space, [a] with a grave accent,
    an ideographic space and a line feed: what is left is [x], the em
    space and the accented letter. *)
Example strip_unicode :
  strip (string_of_list_ascii
           (utf8 [194; 160; 32; 120; 226; 128; 131; 195; 160;
                  227; 128; 128; 10]))
  = string_of_list_ascii (utf8 [120; 226; 128; 131; 195; 160])
  /\ strip (string_of_list_ascii (utf8 [194; 160])) = "".
Proof. split; reflexivity. Qed.

Lemma strip_idempotent s : strip (strip s) = strip s.
Proof.
  unfold strip. rewrite list_ascii_of_string_of_list_ascii.
  now rewrite strip_bytes_idempotent.
Qed.

Lemma read_widget_stripped d :
  read_widget (with_widget d (stripped (widget d))) = read_widget d.
Proof.
  unfold read_widget. cbn [with_widget type widget default_text default
                           default_index].
  destruct (type d), (widget d); cbn [stripped]; try reflexivity;
    now rewrite strip_idempotent.
Qed.

Lemma loop_body_stripped widget_id d st :
  loop_body widget_id (with_widget d (stripped (widget d))) st
  = loop_body widget_id d st.
Proof.
  unfold loop_body. rewrite read_widget_stripped. reflexivity.
Qed.

Lemma options_loop_stripped wm st :
  options_loop (map (fun '(k, d) => (k, with_widget d (stripped (widget d)))) wm)
               st
  = options_loop wm st.
Proof.
  revert st. induction wm as [|[k d] rest IH]; intros st; [reflexivity|].
  cbn [map options_loop]. now rewrite loop_body_stripped, IH.
Qed.

Lemma checked_flags_stripped wm :
  checked_flags (map (fun '(k, d) => (k, with_widget d (stripped (widget d)))) wm)
  = checked_flags wm.
Proof.
  induction wm as [|[k d] rest IH]; [reflexivity|].
  cbn [map checked_flags]. rewrite IH.
  unfold is_technique. cbn [with_widget type widget flag].
  destruct (startswith k "tech_" && is_checkbox (type d)); [|reflexivity].
  now destruct (widget d).
Qed.

Lemma build_stripped env sqlmap_path wm :
  build_sqlmap_command env sqlmap_path
    (map (fun '(k, d) => (k, with_widget d (stripped (widget d)))) wm)
  = build_sqlmap_command env sqlmap_path wm.
Proof.
  unfold build_sqlmap_command, tech_string.
  destruct (command_base env sqlmap_path) as [exc|[base|]]; try reflexivity.
  now rewrite options_loop_stripped, checked_flags_stripped.
Qed.

(** X3.  White space around the text of a field never reaches the command
    line: the assembler returns for a form what it returns for the same
    form with every text stripped, and every value token it emits for a
    text field, a text area or a path field is a text that stripping leaves
    alone and that is not empty. *)
Theorem X3_texts_are_stripped :
  forall env sqlmap_path wm,
    build_sqlmap_command env sqlmap_path
      (map (fun '(k, d) => (k, with_widget d (stripped (widget d)))) wm)
    = build_sqlmap_command env sqlmap_path wm
    /\ (forall widget_id d text,
          (widget d = QLineEdit text \/ widget d = QTextEdit text) ->
          option_tokens widget_id d <> [] ->
          strip (strip text) = strip text
          /\ strip text <> ""
          /\ (option_tokens widget_id d = [flag d +++ "=" +++ strip text]
              \/ option_tokens widget_id d = [flag d; strip text])).
Proof.
  intros env sqlmap_path wm. split.
  - apply build_stripped.
  - intros widget_id d text Hw H. split; [apply strip_idempotent|].
    revert H. unfold option_tokens, loop_body.
    destruct (is_technique widget_id d); [now intros H|].
    unfold read_widget.
    destruct Hw as [Hw|Hw]; rewrite Hw; destruct (type d);
      cbn [fst]; try (now intros H).
    all: unfold to_emit; cbn [is_None isinstance_bool py_eq negb andb orb
                               is_True str];
      rewrite orb_false_r;
      destruct (strip text =? "")%string eqn:He;
      [rewrite andb_false_r; now intros H|].
    all: apply String.eqb_neq in He; intros Hne; split; [exact He|];
      revert Hne.
    all: match goal with
         | |- context [if ?c then (if startswith _ _ then _ else _) else _] =>
             destruct c
         end; cbn [fst]; [|now intros Hc].
    all: intros _; destruct (startswith (flag d) "--"); cbn [fst app]; tauto.
Qed.

(** The field "Cookie" with a no-break space (U+00A0) on either side of
    its text and a blank before it. *)
Lemma X3_texts_are_stripped_witness :
  let no_break_space := string_of_list_ascii (utf8 [194; 160]) in
  let text := " " +++ no_break_space +++ "id=1" +++ no_break_space in
  let d := {| widget := QLineEdit text; flag := "--cookie";
              type := lineedit; default := PyNone; default_text := "";
              default_index := -1 |} in
  option_tokens "req_cookie" d <> []
  /\ strip text = "id=1"
  /\ strip text <> ""
  /\ (option_tokens "req_cookie" d = [flag d +++ "=" +++ strip text]
      \/ option_tokens "req_cookie" d = [flag d; strip text]).
Proof.
  intros no_break_space text d.
  assert (H : option_tokens "req_cookie" d <> [])
    by (vm_compute; discriminate).
  split; [exact H|]. split; [reflexivity|].
  exact (proj2 (proj2 (X3_texts_are_stripped example_env "sqlmap" [])
                  "req_cookie" d text (or_introl eq_refl) H)).
Defined.

(** *** Reset all options *)

Lemma with_widget_same d : with_widget d (widget d) = d.
Proof. now destruct d. Qed.

Lemma reset_widget_idempotent d :
  reset_widget (with_widget d (reset_widget d)) = reset_widget d.
Proof.
  unfold reset_widget.
  cbn [with_widget type widget default default_text default_index].
  destruct (type d), (widget d); try reflexivity.
  - now destruct (default d) as [|b|z|s].
  - destruct ((0 <=? default_index d)%Z
              && (default_index d <? Z.of_nat (length items))%Z) eqn:Hv;
      [now rewrite Hv|].
    destruct (0 <? Z.of_nat (length items))%Z eqn:Hc; now rewrite Hv, Hc.
  - destruct (default d) as [|b|z|s]; try reflexivity.
    now destruct (c_int z).
Qed.

(** X4.  A second "reset all options" changes nothing, and a reset touches
    only the state of the widgets: ids, flags, types and registered
    defaults stay, in the same order. *)
Theorem X4_reset_is_idempotent :
  forall wm,
    reset_all_options (reset_all_options wm) = reset_all_options wm
    /\ map (fun '(k, d) =>
              (k, flag d, type d, default d, default_text d, default_index d))
           (reset_all_options wm)
       = map (fun '(k, d) =>
                (k, flag d, type d, default d, default_text d, default_index d))
             wm.
Proof.
  intros wm. unfold reset_all_options. rewrite !map_map. split.
  - apply map_ext. intros [k d].
    rewrite reset_widget_idempotent.
    now destruct d.
  - apply map_ext. now intros [k d].
Qed.





Lemma new_entry_is_reset widget_id flag_ t kw d :
  (-1 <= get_default_index kw (-1))%Z ->
  In (widget_id, d) (add_widget_option [] widget_id flag_ t kw) ->
  with_widget d (reset_widget d) = d.
Proof.
  intros Hdi [Hin|[]]. injection Hin as <-.
  unfold with_widget, reset_widget, new_widget, get_default.
  cbn [widget flag type default default_text default_index].
  destruct t; try reflexivity.
  - destruct (find_default kw) as [[|b|z|s]|]; reflexivity.
  - set (di := get_default_index kw (-1)) in *.
    set (items := get_items kw).
    destruct ((0 <=? di)%Z && (di <? Z.of_nat (length items))%Z) eqn:Hv;
      [reflexivity|].
    destruct (0 <? Z.of_nat (length items))%Z eqn:Hc; [|reflexivity].
    assert (Harg : (if (nth 0 items "" =? "")%string || (di =? -1)%Z
                    then 0%Z
                    else if (di <? Z.of_nat (length items))%Z then di else 0%Z)
                   = 0%Z).
    { destruct ((nth 0 items "" =? "")%string || (di =? -1)%Z) eqn:Ho;
        [reflexivity|].
      apply orb_false_iff in Ho as [_ Ho]. apply Z.eqb_neq in Ho.
      destruct (di <? Z.of_nat (length items))%Z eqn:Hlt; [|reflexivity].
      apply Z.ltb_lt in Hlt.
      assert (Hle : (0 <=? di)%Z = true) by (apply Z.leb_le; lia).
      rewrite Hle in Hv. discriminate Hv. }
    rewrite Harg. unfold setCurrentIndex.
    change (0 <=? 0)%Z with true. cbn [andb]. now rewrite Hc.
  - destruct (get_range kw) as [lo hi].
    destruct (find_default kw) as [[|b|z|s]|]; try reflexivity.
    now destruct (c_int z).
Qed.

Lemma dict_set_keeps (P : data -> Prop) (wm : widgets_map) k v :
  Forall (fun e => P (snd e)) wm -> P v ->
  Forall (fun e => P (snd e)) (dict_set String.eqb wm k v).
Proof.
  intros Hall Hv. induction Hall as [|[k' v'] rest Hx Hrest IH];
    cbn [dict_set].
  - now repeat constructor.
  - destruct (k =? k')%string; constructor; trivial.
Qed.

Lemma add_widget_option_keeps (P : data -> Prop) wm widget_id flag_ t kw :
  Forall (fun e => P (snd e)) wm ->
  (forall d, In (widget_id, d) (add_widget_option [] widget_id flag_ t kw) ->
             P d) ->
  Forall (fun e => P (snd e)) (add_widget_option wm widget_id flag_ t kw).
Proof.
  intros Hall Hnew. unfold add_widget_option. apply dict_set_keeps; trivial.
  apply Hnew. now left.
Qed.

Lemma form_of_calls_keeps (P : data -> Prop) (calls : list call) start :
  Forall (fun e => P (snd e)) start ->
  (forall widget_id flag_ t kw d,
      In (widget_id, flag_, t, kw) calls ->
      In (widget_id, d) (add_widget_option [] widget_id flag_ t kw) -> P d) ->
  Forall (fun e => P (snd e))
    (fold_left
       (fun wm '(widget_id, flag_, t, kw) =>
          add_widget_option wm widget_id flag_ t kw)
       calls start).
Proof.
  revert start. induction calls as [|[[[k f] t] kw] rest IH];
    intros start Hstart Hcalls; cbn [fold_left]; [exact Hstart|].
  apply IH.
  - apply add_widget_option_keeps; [exact Hstart|].
    intros d. apply (Hcalls k f t kw d). now left.
  - intros k' f' t' kw' d Hin. apply (Hcalls k' f' t' kw' d). now right.
Qed.

(** X6.  A form as [add_widget_option] builds it is already in the state
    "reset all options" leaves, whatever the calls, as long as no call
    gives a default index below -1: on a new form the reset changes
    nothing. *)
Theorem X6_new_form_is_reset :
  forall calls : list call,
    (forall widget_id flag_ t kw,
        In (widget_id, flag_, t, kw) calls ->
        (-1 <= get_default_index kw (-1))%Z) ->
    let wm :=
      fold_left
        (fun wm '(widget_id, flag_, t, kw) =>
           add_widget_option wm widget_id flag_ t kw)
        calls [] in
    reset_all_options wm = wm.
Proof.
  intros calls Hcalls wm.
  assert (Hall : Forall (fun e => with_widget (snd e) (reset_widget (snd e))
                                  = snd e) wm).
  { apply (form_of_calls_keeps
             (fun d => with_widget d (reset_widget d) = d));
      [constructor|].
    intros k f t kw d Hin Hd.
    apply (new_entry_is_reset k f t kw d); [|exact Hd].
    now apply (Hcalls k f t kw). }
  unfold reset_all_options.
  induction Hall as [|[k d] rest Hx _ IH]; [reflexivity|].
  cbn [map]. cbn [snd] in Hx. now rewrite Hx, IH.
Qed.

(** The shipped catalogue. *)
Lemma X6_new_form_is_reset_witness :
  (forall widget_id flag_ t kw,
      In (widget_id, flag_, t, kw)
         (flat_map create_option_tab_content tab_order) ->
      (-1 <= get_default_index kw (-1))%Z)
  /\ reset_all_options add_option_tabs = add_option_tabs.
Proof.
  assert (Hall : forallb (fun c : call =>
                            (-1 <=? get_default_index (snd c) (-1))%Z)
                         (flat_map create_option_tab_content tab_order)
                 = true) by (vm_compute; reflexivity).
  assert (H : forall widget_id flag_ t kw,
             In (widget_id, flag_, t, kw)
                (flat_map create_option_tab_content tab_order) ->
             (-1 <= get_default_index kw (-1))%Z).
  { intros k f t kw Hin. rewrite forallb_forall in Hall.
    apply Z.leb_le. exact (Hall _ Hin). }
  split; [exact H|].
  exact (X6_new_form_is_reset _ H).
Defined.

(** *** Saving and loading the widgets *)

(** A text that begins and ends with a digit or a minus sign has no white
    space to lose. *)
Lemma plain_front patterns c l :
  forallb (fun w => match w with a :: _ => negb (plain a) | [] => false end)
          patterns = true ->
  plain c = true -> after_pattern patterns (c :: l) = None.
Proof.
  intros Hp Hc. apply after_pattern_none. intros w Hw.
  rewrite forallb_forall in Hp. specialize (Hp w Hw).
  destruct w as [|a w]; [discriminate|]. cbn [starts_with].
  destruct (Ascii.eqb_spec a c) as [->|]; [|reflexivity].
  now rewrite Hc in Hp.
Qed.

Lemma strip_bytes_plain l :
  forallb plain l = true -> rstrip_bytes (lstrip_bytes l) = l.
Proof.
  intros H.
  assert (Hl : lstrip_bytes l = l).
  { unfold lstrip_bytes. destruct l as [|c l]; [reflexivity|].
    apply strip_front_fixed. cbn [forallb] in H.
    apply andb_true_iff in H as [Hc _].
    now apply plain_front. }
  rewrite Hl. unfold rstrip_bytes.
  rewrite strip_front_fixed; [apply rev_involutive|].
  destruct (rev l) as [|c back] eqn:Hrev.
  - apply after_pattern_none. intros w Hw.
    pose proof whitespace_rev_nonempty as Hne.
    rewrite Forall_forall in Hne. specialize (Hne w Hw). now destruct w.
  - apply plain_front; [reflexivity|].
    rewrite forallb_forall in H. apply H. apply in_rev. rewrite Hrev. now left.
Qed.

Lemma strip_plain s :
  forallb plain (list_ascii_of_string s) = true -> strip s = s.
Proof.
  intros H. unfold strip. rewrite (strip_bytes_plain _ H).
  apply string_of_list_ascii_of_string.
Qed.

Lemma uint_plain d :
  forallb plain (list_ascii_of_string (NilEmpty.string_of_uint d)) = true.
Proof. induction d; cbn; trivial. Qed.

Lemma nonnil_string d :
  d <> Decimal.Nil -> NilZero.string_of_uint d = NilEmpty.string_of_uint d.
Proof. destruct d; try reflexivity. now intros H. Qed.

Lemma str_of_int_plain z :
  forallb plain (list_ascii_of_string (str_of_int z)) = true.
Proof.
  unfold str_of_int. destruct z as [|p|p]; cbn [Z.to_int NilZero.string_of_int].
  - reflexivity.
  - rewrite (nonnil_string _ (Unsigned.to_uint_nonnil p)). apply uint_plain.
  - rewrite (nonnil_string _ (Unsigned.to_uint_nonnil p)).
    cbn [list_ascii_of_string forallb]. apply uint_plain.
Qed.

Lemma ungroup_uint after_digit d :
  ungroup after_digit (NilEmpty.string_of_uint d)
  = Some (NilEmpty.string_of_uint d).
Proof.
  revert after_digit. induction d; intros after_digit;
    cbn [NilEmpty.string_of_uint ungroup]; [reflexivity|..];
    cbn; now rewrite IHd.
Qed.

Lemma uint_numeral negative d :
  d <> Decimal.Nil ->
  match ungroup false (NilZero.string_of_uint d) with
  | Some digits =>
      option_map
        (fun d => Z.of_int (if negative : bool then Decimal.Neg d
                            else Decimal.Pos d))
        (NilZero.uint_of_string digits)
  | None => None
  end
  = Some (Z.of_int (if negative then Decimal.Neg d else Decimal.Pos d)).
Proof.
  intros Hn. rewrite (nonnil_string _ Hn), ungroup_uint.
  rewrite <- (nonnil_string _ Hn), (NilZero.usu _ Hn). reflexivity.
Qed.

(** [int(str(z))] is [z]. *)
Lemma int_of_str_of_int z : int_of_str (str_of_int z) = Some z.
Proof.
  unfold int_of_str. rewrite (strip_plain _ (str_of_int_plain z)).
  unfold str_of_int.
  destruct z as [|p|p]; cbn [Z.to_int NilZero.string_of_int].
  - reflexivity.
  - pose proof (Unsigned.to_uint_nonnil p) as Hn.
    pose proof (uint_numeral false _ Hn) as H.
    cbv iota in H.
    change (Decimal.Pos (Pos.to_uint p)) with (Z.to_int (Zpos p)) in H.
    rewrite DecimalZ.of_to in H.
    destruct (Pos.to_uint p); [contradiction|..]; exact H.
  - pose proof (Unsigned.to_uint_nonnil p) as Hn.
    pose proof (uint_numeral true _ Hn) as H.
    cbv iota in H.
    change (Decimal.Neg (Pos.to_uint p)) with (Z.to_int (Zneg p)) in H.
    rewrite DecimalZ.of_to in H.
    cbn [Ascii.eqb Bool.eqb orb]. exact H.
Qed.

Lemma dict_get_set_same (store : dict string py_obj) k v :
  dict_get String.eqb (dict_set String.eqb store k v) k = Some v.
Proof.
  induction store as [|[k' v'] rest IH]; cbn [dict_set dict_get].
  - now rewrite String.eqb_refl.
  - destruct (k =? k')%string eqn:He; cbn [dict_get]; rewrite He; trivial.
Qed.

Lemma dict_get_set_other (store : dict string py_obj) k k0 v :
  k <> k0 ->
  dict_get String.eqb (dict_set String.eqb store k0 v) k
  = dict_get String.eqb store k.
Proof.
  intros Hne. apply String.eqb_neq in Hne.
  induction store as [|[k' v'] rest IH]; cbn [dict_set dict_get].
  - now rewrite Hne.
  - destruct (k0 =? k')%string eqn:He; cbn [dict_get].
    + apply String.eqb_eq in He. subst k'. now rewrite Hne.
    + now rewrite IH.
Qed.

Lemma widgets_key_injective a b : widgets_key a = widgets_key b -> a = b.
Proof. unfold widgets_key. cbn. now intros [= H]. Qed.

Lemma save_widgets_other settings wm k :
  ~ In k (map fst wm) ->
  dict_get String.eqb (save_widgets settings wm) (widgets_key k)
  = dict_get String.eqb settings (widgets_key k).
Proof.
  unfold save_widgets. revert settings.
  induction wm as [|[k0 d0] rest IH]; intros settings Hnot; [reflexivity|].
  cbn [fold_left]. rewrite IH; [|intros H; apply Hnot; now right].
  destruct (saved_value d0); [|reflexivity].
  apply dict_get_set_other. intros He. apply widgets_key_injective in He.
  apply Hnot. now left.
Qed.

Lemma save_widgets_found settings wm k d :
  NoDup (map fst wm) -> In (k, d) wm ->
  dict_get String.eqb (save_widgets settings wm) (widgets_key k)
  = match saved_value d with
    | Some v => Some v
    | None => dict_get String.eqb settings (widgets_key k)
    end.
Proof.
  revert settings. induction wm as [|[k0 d0] rest IH];
    intros settings Hnd Hin; [contradiction|].
  cbn [map fst] in Hnd. inversion Hnd as [|x l Hnot Hrest]; subst.
  destruct Hin as [Hin|Hin].
  - injection Hin as -> ->.
    change (save_widgets settings ((k, d) :: rest))
      with (save_widgets
              match saved_value d with
              | Some value => dict_set String.eqb settings (widgets_key k) value
              | None => settings
              end rest).
    rewrite (save_widgets_other _ _ _ Hnot).
    destruct (saved_value d); [apply dict_get_set_same | reflexivity].
  - change (save_widgets settings ((k0, d0) :: rest))
      with (save_widgets
              match saved_value d0 with
              | Some value =>
                  dict_set String.eqb settings (widgets_key k0) value
              | None => settings
              end rest).
    rewrite (IH _ Hrest Hin).
    destruct (saved_value d) as [v|]; [reflexivity|].
    destruct (saved_value d0); [|reflexivity].
    apply dict_get_set_other. intros He. apply widgets_key_injective in He.
    subst k0. apply Hnot. apply in_map_iff. now exists (k, d).
Qed.

Lemma int_read_back b z : int (read_back b (PyInt z)) = Some z.
Proof. destruct b; [reflexivity | apply int_of_str_of_int]. Qed.

Lemma load_saved b d' w :
  restores (with_widget d' w) (widget d') = true ->
  exists v,
    saved_value (with_widget d' w) = Some v
    /\ load_widget (read_back b v) d' = stripped w.
Proof.
  destruct d' as [w' f t df dt di].
  unfold restores, saved_value, load_widget.
  cbn [with_widget widget type flag default default_text default_index].
  destruct t, w, w'; try discriminate; cbn [is_text_type stripped]; intros H;
    eexists; (split; [reflexivity|]).
  - now destruct b.
  - now destruct b.
  - now destruct b, isChecked.
  - rewrite int_read_back.
    apply andb_true_iff in H as [Hitems Hindex].
    unfold same_items in Hitems.
    destruct (list_eq_dec string_dec items items0) as [<-|]; [|discriminate].
    destruct ((0 <=? currentIndex)%Z
              && (currentIndex <? Z.of_nat (length items))%Z); [reflexivity|].
    cbn [orb] in Hindex. apply Z.eqb_eq in Hindex. now subst.
  - rewrite int_read_back.
    repeat (apply andb_true_iff in H as [H ?]).
    match goal with Hc : c_int _ = true |- _ => rewrite Hc end.
    apply Z.eqb_eq in H.
    repeat match goal with
           | Hx : (_ =? _)%Z = true |- _ => apply Z.eqb_eq in Hx
           | Hx : (_ <=? _)%Z = true |- _ => apply Z.leb_le in Hx
           end.
    subst. unfold setValue. f_equal. lia.
  - now destruct b.
  - now destruct b.
Qed.

Lemma with_widget_twice d w x : with_widget (with_widget d w) x = with_widget d x.
Proof. now destruct d. Qed.

Lemma map_slots {A B C : Type} (R : A -> B -> Prop) (f : B -> C) (g : A -> C)
    (l : list A) (l' : list B) :
  Forall2 R l l' ->
  (forall a a', In a l -> R a a' -> f a' = g a) ->
  map f l' = map g l.
Proof.
  intros H. induction H as [|a a' l l' Ha _ IH]; intros Hfg; [reflexivity|].
  cbn [map]. rewrite (Hfg a a' (or_introl eq_refl) Ha). f_equal.
  apply IH. intros x x' Hin. apply Hfg. now right.
Qed.

(** X7.  Saving the widgets of a form and loading them into the same form
    in any other state (the freshly built one of the next session, say)
    gives the saved state back, with the texts stripped and everything else
    as it was: every text, box, selected item and number is set by the
    load.  This holds whether the store hands values back as objects or as
    text, and whatever the store held before; so the assembler returns
    after the round trip what it returned before.  The two states are
    states of one form: the same identifiers and registrations in the same
    order, widgets of the class of their type, combo boxes with the same
    items and spin boxes with the same range, a selected index that is one
    of the items (or the one the target has), a number inside the range. *)
Theorem X7_settings_round_trip :
  forall b settings wm wm',
    NoDup (map fst wm) ->
    Forall2 same_slot wm wm' ->
    load_widgets b (save_widgets settings wm) wm'
    = map (fun '(k, d) => (k, with_widget d (stripped (widget d)))) wm
    /\ (forall env sqlmap_path,
          build_sqlmap_command env sqlmap_path
            (load_widgets b (save_widgets settings wm) wm')
          = build_sqlmap_command env sqlmap_path wm).
Proof.
  intros b settings wm wm' Hnd Hslots.
  assert (Heq : load_widgets b (save_widgets settings wm) wm'
                = map (fun '(k, d) => (k, with_widget d (stripped (widget d))))
                      wm).
  { unfold load_widgets. apply (map_slots same_slot); [exact Hslots|].
    intros [k d] [k' d'] Hin [Hk [Hd Hr]]. cbn [fst snd] in Hk, Hd, Hr.
    subst k'. rewrite <- Hd in Hr.
    destruct (load_saved b d' (widget d) Hr) as [v [Hv Hload]].
    rewrite Hd in Hv.
    rewrite (save_widgets_found settings wm k d Hnd Hin), Hv, Hload.
    now rewrite <- Hd at 2; rewrite with_widget_twice. }
  split; [exact Heq|].
  intros env sqlmap_path. rewrite Heq. apply build_stripped.
Qed.

(** The form of the end-to-end example, with blanks around the URL, saved
    into an empty store that hands text back and loaded into the form as
    it is first built. *)
Lemma X7_settings_round_trip_witness :
  let wm := edit "url" (QLineEdit " http://x/a.php?id=1 ") example_form in
  (NoDup (map fst wm) /\ Forall2 same_slot wm example_catalogue)
  /\ load_widgets keeps_text (save_widgets [] wm) example_catalogue
     = example_form.
Proof.
  intros wm.
  assert (H1 : NoDup (map fst wm)).
  { cbn. repeat constructor; cbn; intuition discriminate. }
  assert (H2 : Forall2 same_slot wm example_catalogue).
  { repeat constructor. }
  split; [now split|].
  exact (proj1 (X7_settings_round_trip keeps_text [] wm example_catalogue
                  H1 H2)).
Defined.

(** *** The help command *)

(** X8.  "Show sqlmap -hh" runs the prefix of the assembler followed by
    [-hh]: whenever both get past their pre-flight, the help command is the
    assembler's prefix with [-hh] appended; and for a path that is a single
    token the two pre-flights agree, so that the help is shown exactly when
    a command can be built. *)
Theorem X8_help_uses_the_prefix :
  forall env sqlmap_path,
    (forall base command,
        command_base env sqlmap_path = Returned (Some base) ->
        help_command env sqlmap_path = Returned (Some command) ->
        command = base ++ ["-hh"])
    /\ (shlex_split env sqlmap_path = Returned [sqlmap_path] ->
        (command_base env sqlmap_path = Returned None
         /\ help_command env sqlmap_path = Returned None)
        \/ (exists base,
               command_base env sqlmap_path = Returned (Some base)
               /\ help_command env sqlmap_path
                  = Returned (Some (base ++ ["-hh"])))).
Proof.
  intros env sqlmap_path. split.
  - intros base command. unfold command_base, help_command.
    destruct (sqlmap_path =? "")%string; [discriminate|].
    destruct (shlex_split env sqlmap_path) as [exc|[|executable rest]];
      try discriminate.
    destruct (negb (os_path_exists env executable)
              && which_is_None env executable); [discriminate|].
    destruct (os_path_exists env sqlmap_path);
      [|destruct (negb (which_is_None env executable)); [|discriminate]].
    all: destruct (endswith (lower sqlmap_path) ".py");
      [destruct (negb _ && which_is_None env executable)|];
      intros [= <-] [= <-]; reflexivity.
  - intros Hsplit. unfold command_base, help_command. rewrite Hsplit.
    destruct (sqlmap_path =? "")%string; [left; now split|].
    unfold which_is_None.
    destruct (os_path_exists env sqlmap_path),
      (shutil_which env sqlmap_path) as [found|]; cbn [negb andb].
    4: left; now split.
    all: right; destruct (endswith (lower sqlmap_path) ".py");
      [destruct (existsb _ _); cbn [negb andb]|];
      eexists; split; reflexivity.
Qed.

(** The script [/opt/sqlmap/sqlmap.py], not on the search path. *)
Lemma X8_help_uses_the_prefix_witness :
  let env :=
    {| shlex_split := fun s => Returned [s];
       os_path_exists := fun s => (s =? "/opt/sqlmap/sqlmap.py")%string;
       shutil_which := fun _ => None;
       os_path_basename := fun s =>
         if (s =? "/usr/bin/python3")%string then "python3" else s;
       sys_executable := "/usr/bin/python3" |} in
  let base := ["/usr/bin/python3"; "/opt/sqlmap/sqlmap.py"] in
  (command_base env "/opt/sqlmap/sqlmap.py" = Returned (Some base)
   /\ help_command env "/opt/sqlmap/sqlmap.py"
      = Returned (Some ["/usr/bin/python3"; "/opt/sqlmap/sqlmap.py"; "-hh"]))
  /\ ["/usr/bin/python3"; "/opt/sqlmap/sqlmap.py"; "-hh"] = base ++ ["-hh"].
Proof.
  intros env base.
  assert (H1 : command_base env "/opt/sqlmap/sqlmap.py" = Returned (Some base))
    by reflexivity.
  assert (H2 : help_command env "/opt/sqlmap/sqlmap.py"
               = Returned (Some ["/usr/bin/python3"; "/opt/sqlmap/sqlmap.py";
                                 "-hh"])) by reflexivity.
  split; [now split|].
  exact (proj1 (X8_help_uses_the_prefix env "/opt/sqlmap/sqlmap.py")
           base _ H1 H2).
Defined.

(** ** Further properties of the runner thread *)

Lemma stop_clears_flag self env : _is_running (snd (stop self env)) = false.
Proof.
  unfold stop. destruct (process self) as [p|]; [|reflexivity].
  destruct (returncode p); [reflexivity|].
  destruct (poll_now env); [reflexivity|].
  now destruct (terminate_wait env).
Qed.

Lemma stop_outputs self env : Forall is_output (fst (stop self env)).
Proof.
  unfold stop. destruct (process self) as [p|]; [|constructor].
  destruct (returncode p); [constructor|].
  destruct (poll_now env); [constructor|].
  destruct (terminate_wait env); repeat constructor.
Qed.

(** X9.  Whatever its state and whatever it meets, [stop] emits outputs
    only, at most two, all for the handle of its thread; it never emits a
    terminal signal; it leaves the flag cleared and the command list and
    the identifier of the thread as they were. *)
Theorem X9_stop_emits_outputs_only :
  forall self env,
    let signals := fst (stop self env) in
    let after := snd (stop self env) in
    Forall is_output signals
    /\ length signals <= 2
    /\ Forall (fun n => handle_of n = identifier self) signals
    /\ _is_running after = false
    /\ identifier after = identifier self
    /\ command_list after = command_list self.
Proof.
  intros self env. cbv zeta. unfold stop.
  destruct (process self) as [p|]; [|cbn; repeat split; auto].
  destruct (returncode p) as [c|]; [cbn; repeat split; auto|].
  destruct (poll_now env) as [c|]; [cbn; repeat split; auto|].
  destruct (terminate_wait env); cbn; repeat split; auto;
    repeat constructor.
Qed.

(** X10.  Once a call of [stop] has seen the child exit (its [poll] found a
    status, or its [wait] returned within the second), the status is cached
    and any later call of [stop] on the thread emits nothing, whatever it
    meets, and leaves the thread as it is. *)
Theorem X10_stop_again_is_silent :
  forall self env env' p,
    process self = Some p ->
    (returncode p <> None \/ poll_now env <> None
     \/ exists code, terminate_wait env = wait_returns code) ->
    stop (snd (stop self env)) env' = ([], snd (stop self env)).
Proof.
  intros self env env' p Hp Hseen.
  assert (Hcached : exists c,
             process (snd (stop self env)) = Some {| returncode := Some c |}).
  { unfold stop. rewrite Hp.
    destruct (returncode p) as [c|]; [now exists c|].
    destruct (poll_now env) as [c|]; [now exists c|].
    destruct Hseen as [H|[H|[code H]]]; try (now contradiction H).
    rewrite H. now exists code. }
  destruct Hcached as [c Hc].
  assert (Hflag : _is_running (snd (stop self env)) = false)
    by apply (stop_clears_flag self env).
  destruct (snd (stop self env)) as [cl pr fl id run]. cbn in Hc, Hflag.
  subst pr fl. reflexivity.
Qed.

(** A running child that exits within a second of [terminate]. *)
Lemma X10_stop_again_is_silent_witness :
  let self := {| command_list := ["sqlmap"; "-u"; "x"];
                 process := Some {| returncode := None |};
                 _is_running := true; identifier := 4; isRunning := true |} in
  let env := {| poll_now := None; terminate_wait := wait_returns (-15) |} in
  let env' := {| poll_now := None; terminate_wait := TimeoutExpired |} in
  fst (stop self env) = [outputTextAvailable 4 stopping_notice]
  /\ stop (snd (stop self env)) env' = ([], snd (stop self env)).
Proof.
  intros self env env'. split; [reflexivity|].
  exact (X10_stop_again_is_silent self env env' {| returncode := None |}
           eq_refl (or_intror (or_intror (ex_intro _ (-15)%Z eq_refl)))).
Defined.

Lemma read_loop_printing instance_id lines tail :
  read_loop instance_id (printing lines ++ tail)
  = (map (outputTextAvailable instance_id) (filter nonempty lines)
     ++ fst (read_loop instance_id tail),
     snd (read_loop instance_id tail)).
Proof.
  induction lines as [|line rest IH]; cbn [printing map app filter].
  - now destruct (read_loop instance_id tail).
  - cbn [read_loop]. fold (printing rest). unfold nonempty at 1.
    destruct (negb (line =? "")%string); rewrite IH; reflexivity.
Qed.

(** X11.  A child that prints lines and then exits: the thread emits the
    command notice, then one output for each line the child printed, in
    the child's order and with nothing added or dropped (turns that found
    nothing to read leave no trace), then [processFinished] with the
    child's exit status, and returns.  If instead the flag is cleared after
    those lines and the child turns out to have exited already, the same
    outputs are followed by [processFinished] with that status, without a
    notice.  In both cases nothing is read after the loop has ended. *)
Theorem X11_run_forwards_lines :
  forall self env lines code unread,
    popen env = spawned ->
    let instance_id := identifier self in
    let outputs :=
      outputTextAvailable instance_id (command_notice (command_list self))
      :: map (outputTextAvailable instance_id) (filter nonempty lines) in
    (iterations env = printing lines ++ readline "" (Some code) :: unread ->
     run self env = (outputs ++ [processFinished instance_id code], returned))
    /\ (iterations env = printing lines ++ flag_cleared :: unread ->
        poll_after_loop env = Some code ->
        run self env
        = (outputs ++ [processFinished instance_id code], returned)).
Proof.
  intros self env lines code unread Hp. cbv zeta. split.
  - intros Hturns. unfold run. rewrite Hp, Hturns, read_loop_printing.
    cbn [read_loop fst snd negb String.eqb after_loop].
    now rewrite app_nil_r.
  - intros Hturns Hpoll. unfold run. rewrite Hp, Hturns, read_loop_printing.
    cbn [read_loop fst snd]. unfold after_loop. rewrite Hpoll.
    now rewrite app_nil_r.
Qed.

(** A child that prints two lines, with a pause between them, and exits
    with status 1; what would follow is never read. *)
Lemma X11_run_forwards_lines_witness :
  let self := fst (__init__ 2 ["sqlmap"; "-u"; "x"]) in
  let env := {| popen := spawned;
                iterations :=
                  printing ["first" +++ LF; ""; "second" +++ LF]
                  ++ readline "" (Some 1%Z) :: [readline "late" None];
                poll_after_loop := None; wait_timeout := None;
                wait := 0%Z |} in
  popen env = spawned
  /\ run self env
     = ([outputTextAvailable 2 (command_notice ["sqlmap"; "-u"; "x"]);
         outputTextAvailable 2 ("first" +++ LF);
         outputTextAvailable 2 ("second" +++ LF);
         processFinished 2 1],
        returned).
Proof.
  intros self env.
  assert (H : popen env = spawned) by reflexivity.
  split; [exact H|].
  exact (proj1 (X11_run_forwards_lines self env
                  ["first" +++ LF; ""; "second" +++ LF] 1%Z
                  [readline "late" None] H)
           eq_refl).
Defined.

(** ** The registry of the window *)

Lemma dict_set_new (entries : dict nat instance) k v :
  ~ In k (map fst entries) ->
  dict_set Nat.eqb entries k v = entries ++ [(k, v)].
Proof.
  induction entries as [|[k' v'] rest IH]; intros Hnot; [reflexivity|].
  cbn [dict_set app]. destruct (k =? k')%nat eqn:He.
  - apply Nat.eqb_eq in He. subst. exfalso. apply Hnot. now left.
  - rewrite IH; [reflexivity|]. intros H. apply Hnot. now right.
Qed.

Lemma dict_del_sub (entries : dict nat instance) k e :
  In e (dict_del Nat.eqb entries k) -> In e entries /\ fst e <> k.
Proof.
  induction entries as [|[k' v'] rest IH]; [contradiction|].
  cbn [dict_del]. destruct (k =? k')%nat eqn:He.
  - intros H. destruct (IH H). split; [now right | assumption].
  - intros [H|H].
    + subst e. split; [now left|]. cbn. apply Nat.eqb_neq in He. congruence.
    + destruct (IH H). split; [now right | assumption].
Qed.

Lemma dict_del_NoDup {A} (f : nat * instance -> A) (entries : dict nat instance) k :
  NoDup (map f entries) -> NoDup (map f (dict_del Nat.eqb entries k)).
Proof.
  induction entries as [|[k' v'] rest IH]; intros H; [constructor|].
  cbn [map] in H. inversion H as [|x l Hnot Hrest]; subst.
  cbn [dict_del]. destruct (k =? k')%nat; [now apply IH|].
  cbn [map]. constructor; [|now apply IH].
  intros Hin. apply Hnot. apply in_map_iff in Hin as [e [He Hin]].
  apply in_map_iff. exists e. split; [exact He|].
  now apply dict_del_sub in Hin.
Qed.

Lemma find_by_widget_In entries w instance_id data :
  find_by_widget entries w = Some (instance_id, data) ->
  In (instance_id, data) entries /\ w = Some (output_widget data).
Proof.
  induction entries as [|[k v] rest IH]; cbn [find_by_widget];
    [discriminate|].
  destruct w as [n|].
  - destruct (output_widget v =? n)%nat eqn:He.
    + intros [= <- <-]. apply Nat.eqb_eq in He. subst. split; [now left|trivial].
    + intros H. destruct (IH H). split; [now right | assumption].
  - intros H. destruct (IH H). split; [now right | assumption].
Qed.

Lemma in_order_set_thread gui instance_id t :
  in_order gui -> identifier t = instance_id ->
  in_order (set_thread gui instance_id t).
Proof.
  intros [Hk [Hw Hall]] Hid. unfold in_order, set_thread.
  cbn [running_processes thread_counter next_output_edit].
  rewrite !map_map.
  assert (E1 : map (fun x : nat * instance =>
                      fst (let '(k, data) := x in
                           if (k =? instance_id)%nat
                           then (k, {| thread := t;
                                       output_widget := output_widget data |})
                           else (k, data)))
                   (running_processes gui)
               = map fst (running_processes gui)).
  { apply map_ext. intros [k v]. now destruct (k =? instance_id)%nat. }
  assert (E2 : map (fun x : nat * instance =>
                      output_widget
                        (snd (let '(k, data) := x in
                              if (k =? instance_id)%nat
                              then (k, {| thread := t;
                                          output_widget := output_widget data |})
                              else (k, data))))
                   (running_processes gui)
               = map (fun e => output_widget (snd e)) (running_processes gui)).
  { apply map_ext. intros [k v]. now destruct (k =? instance_id)%nat. }
  rewrite E1, E2. split; [exact Hk|]. split; [exact Hw|].
  apply Forall_map. eapply Forall_impl; [|exact Hall].
  intros [k v] H. cbn [fst snd] in *.
  destruct (k =? instance_id)%nat eqn:He; [|exact H].
  apply Nat.eqb_eq in He. subst k. cbn [fst snd thread output_widget].
  tauto.
Qed.

Lemma in_order_unregister gui instance_id :
  in_order gui -> in_order (unregister gui instance_id).
Proof.
  intros [Hk [Hw Hall]]. unfold in_order, unregister.
  cbn [running_processes thread_counter next_output_edit].
  split; [now apply dict_del_NoDup|]. split; [now apply dict_del_NoDup|].
  apply Forall_forall. intros e Hin. apply dict_del_sub in Hin as [Hin _].
  rewrite Forall_forall in Hall. now apply Hall.
Qed.

Lemma in_order_tabs gui tabs :
  in_order gui ->
  in_order {| thread_counter := thread_counter gui;
              running_processes := running_processes gui;
              output_tabs := tabs;
              next_output_edit := next_output_edit gui |}.
Proof. now intros H. Qed.

Lemma in_order_keys_below gui :
  in_order gui -> ~ In (thread_counter gui) (map fst (running_processes gui)).
Proof.
  intros [_ [_ Hall]] Hin. apply in_map_iff in Hin as [e [He Hin]].
  rewrite Forall_forall in Hall. specialize (Hall e Hin). lia.
Qed.

Lemma in_order_start gui command_list :
  in_order gui -> in_order (fst (start_in_tab gui command_list)).
Proof.
  intros Hord. pose proof (in_order_keys_below gui Hord) as Hfresh.
  destruct Hord as [Hk [Hw Hall]].
  unfold start_in_tab, __init__, in_order.
  cbn [fst identifier running_processes thread_counter next_output_edit].
  rewrite (dict_set_new _ _ _ Hfresh), !map_app.
  cbn [map fst snd output_widget thread with_thread identifier].
  rewrite Forall_forall in Hall.
  split; [|split].
  - apply NoDup_app; [exact Hk | repeat constructor; intros []|].
    intros a Ha [Hb|[]]. subst a. now apply Hfresh.
  - apply NoDup_app; [exact Hw | repeat constructor; intros []|].
    intros a Ha [Hb|[]]. subst a.
    apply in_map_iff in Ha as [e [He Hin]]. specialize (Hall e Hin). lia.
  - apply Forall_app. split.
    + apply Forall_forall. intros e Hin. specialize (Hall e Hin). lia.
    + repeat constructor; cbn; lia.
Qed.

Lemma stop_keeps_identifier self env :
  identifier (snd (stop self env)) = identifier self.
Proof.
  unfold stop. destruct (process self) as [p|]; [|reflexivity].
  destruct (returncode p); [reflexivity|].
  destruct (poll_now env); [reflexivity|].
  now destruct (terminate_wait env).
Qed.

Lemma in_order_identifier gui instance_id data :
  in_order gui -> In (instance_id, data) (running_processes gui) ->
  identifier (thread data) = instance_id.
Proof.
  intros [_ [_ Hall]] Hin. rewrite Forall_forall in Hall.
  now destruct (Hall _ Hin).
Qed.

Lemma dict_get_In_nat (entries : dict nat instance) k v :
  dict_get Nat.eqb entries k = Some v -> In (k, v) entries.
Proof.
  induction entries as [|[k' v'] rest IH]; cbn [dict_get]; [discriminate|].
  destruct (k =? k')%nat eqn:He.
  - apply Nat.eqb_eq in He. intros [= <-]. subst. now left.
  - intros H. right. now apply IH.
Qed.

Lemma in_order_step gui e : in_order gui -> in_order (fst (step gui e)).
Proof.
  intros Hord.
  destruct e as [cmd|idx env|idx reply env still|n|i|i]; cbn [step].
  - pose proof (in_order_start gui cmd Hord) as H.
    now destruct (start_in_tab gui cmd).
  - cbn [fst]. unfold stop_current_sqlmap_instance.
    destruct (idx <? 0)%Z; [exact Hord|].
    destruct (find_by_widget _ _) as [[k data]|] eqn:Hf; [|exact Hord].
    destruct (isRunning (thread data)); [|exact Hord].
    pose proof (stop_keeps_identifier (thread data) env) as Hid.
    destruct (stop (thread data) env) as [sig t]. cbn [snd] in *.
    apply in_order_set_thread; [exact Hord|].
    rewrite Hid. apply find_by_widget_In in Hf as [Hin _].
    now apply (in_order_identifier gui).
  - cbn [fst]. unfold close_output_tab.
    destruct (find_by_widget _ _) as [[k data]|] eqn:Hf.
    + destruct (isRunning (thread data)).
      * destruct reply; [|exact Hord].
        pose proof (stop_keeps_identifier (thread data) env) as Hid.
        destruct (stop (thread data) env) as [sig t]. cbn [snd] in *.
        destruct still; cbn [snd].
        -- apply in_order_tabs. apply in_order_set_thread; [exact Hord|].
           rewrite Hid. apply find_by_widget_In in Hf as [Hin _].
           now apply (in_order_identifier gui).
        -- apply in_order_unregister. now apply in_order_tabs.
      * cbn [snd]. apply in_order_unregister. now apply in_order_tabs.
    + cbn [snd]. now apply in_order_tabs.
  - cbn [fst].
    destruct n; cbn [deliver];
      unfold update_output, on_process_finished, on_process_error;
      try exact Hord; destruct (registered gui instance_id); cbn [fst];
      try exact Hord; now apply in_order_unregister.
  - cbn [fst]. unfold worker_update.
    destruct (dict_get Nat.eqb (running_processes gui) i) as [data|] eqn:Hg;
      [|exact Hord].
    apply in_order_set_thread; [exact Hord|]. cbn [identifier].
    apply dict_get_In_nat in Hg. now apply (in_order_identifier gui).
  - cbn [fst]. unfold worker_update.
    destruct (dict_get Nat.eqb (running_processes gui) i) as [data|] eqn:Hg;
      [|exact Hord].
    apply in_order_set_thread; [exact Hord|]. cbn [finally identifier].
    apply dict_get_In_nat in Hg. now apply (in_order_identifier gui).
Qed.

Lemma in_order_initial : in_order initial.
Proof. unfold in_order, initial. cbn. repeat split; constructor. Qed.

Lemma in_order_after gui events : in_order gui -> in_order (after gui events).
Proof.
  revert gui. induction events as [|e rest IH]; intros gui Hord; [exact Hord|].
  cbn [after]. apply IH. now apply in_order_step.
Qed.

(** X12.  The registry stays in order through everything that happens to
    the window (scans started, stops, tabs closed, signals handled, workers
    starting and leaving): its handles are distinct, each below the counter
    and equal to the identifier of its thread, and the output widgets of
    the registered instances are distinct, so that a tab belongs to at most
    one of them.  The window starts in order. *)
Theorem X12_registry_stays_in_order :
  in_order initial
  /\ forall gui events, in_order gui -> in_order (after gui events).
Proof. split; [exact in_order_initial | exact in_order_after]. Qed.

(** Two scans started, the first one stopped and finished. *)
Lemma X12_registry_stays_in_order_witness :
  let events :=
    [start_clicked ["sqlmap"; "-u"; "a"];
     worker_spawned 0;
     start_clicked ["sqlmap"; "-u"; "b"];
     stop_clicked 0 {| poll_now := None; terminate_wait := wait_returns (-15) |};
     signal (processFinished 0 (-15));
     worker_left_run 0] in
  in_order initial
  /\ map fst (running_processes (after initial events)) = [1]
  /\ in_order (after initial events).
Proof.
  intros events.
  assert (H : in_order initial) by exact (proj1 X12_registry_stays_in_order).
  split; [exact H|]. split; [reflexivity|].
  exact (proj2 X12_registry_stays_in_order initial events H).
Defined.

(** ** The stop button, closing a tab, starting a scan *)

Lemma find_by_widget_unique entries w e :
  NoDup (map (fun x => output_widget (snd x)) entries) ->
  In e entries -> output_widget (snd e) = w ->
  find_by_widget entries (Some w) = Some e.
Proof.
  induction entries as [|[k v] rest IH]; intros Hnd Hin Hw; [contradiction|].
  cbn [map snd] in Hnd. inversion Hnd as [|x l Hnot Hrest]; subst.
  cbn [find_by_widget]. destruct Hin as [Hin|Hin].
  - subst e. cbn [snd]. now rewrite Nat.eqb_refl.
  - destruct (output_widget v =? output_widget (snd e))%nat eqn:He.
    + apply Nat.eqb_eq in He. exfalso. apply Hnot. rewrite He.
      apply in_map_iff. now exists e.
    + now apply IH.
Qed.

(** X13.  The stop button is enabled exactly when pressing it does
    something.  When [update_stop_button_state] disables it, a press would
    emit nothing and change nothing.  When it enables it, in a registry
    that is in order, the current tab belongs to one registered instance
    whose thread runs, and a press calls [stop] on that thread. *)
Theorem X13_stop_button_agrees :
  forall gui current_index,
    (is_stoppable gui current_index = false ->
     forall env, stop_current_sqlmap_instance gui current_index env = ([], gui))
    /\ (in_order gui ->
        is_stoppable gui current_index = true ->
        exists instance_id data,
          In (instance_id, data) (running_processes gui)
          /\ tab_widget gui current_index = Some (output_widget data)
          /\ isRunning (thread data) = true
          /\ forall env,
              stop_current_sqlmap_instance gui current_index env
              = (fst (stop (thread data) env),
                 set_thread gui instance_id (snd (stop (thread data) env)))).
Proof.
  intros gui current_index. unfold is_stoppable, stop_current_sqlmap_instance.
  destruct (current_index <? 0)%Z eqn:Hneg.
  - assert (Hge : (0 <=? current_index)%Z = false)
      by (apply Z.leb_gt; now apply Z.ltb_lt in Hneg).
    rewrite Hge. split; [reflexivity | discriminate].
  - assert (Hge : (0 <=? current_index)%Z = true)
      by (apply Z.leb_le; apply Z.ltb_ge in Hneg; lia).
    rewrite Hge. split.
    + intros Hoff env.
      destruct (find_by_widget _ _) as [[k data]|] eqn:Hf; [|reflexivity].
      apply find_by_widget_In in Hf as [Hin Hw].
      destruct (isRunning (thread data)) eqn:Hrun; [|reflexivity].
      exfalso. assert (Hon : existsb
                 (fun entry =>
                    match tab_widget gui current_index with
                    | Some w => (output_widget (snd entry) =? w)%nat
                    | None => false
                    end && isRunning (thread (snd entry)))
                 (running_processes gui) = true).
      { apply existsb_exists. exists (k, data). split; [exact Hin|].
        rewrite Hw. cbn [snd]. now rewrite Nat.eqb_refl, Hrun. }
      rewrite Hon in Hoff. discriminate.
    + intros [_ [Hnd _]] Hon.
      apply existsb_exists in Hon as [[k data] [Hin Hm]].
      cbn [snd] in Hm. apply andb_true_iff in Hm as [Hm Hrun].
      destruct (tab_widget gui current_index) as [w|] eqn:Hw; [|discriminate].
      apply Nat.eqb_eq in Hm. exists k, data.
      split; [exact Hin|]. split; [now rewrite Hm|]. split; [exact Hrun|].
      intros env.
      rewrite (find_by_widget_unique _ w (k, data) Hnd Hin Hm), Hrun.
      now destruct (stop (thread data) env).
Qed.

(** One scan running in the only tab. *)
Lemma X13_stop_button_agrees_witness :
  let gui :=
    after initial [start_clicked ["sqlmap"; "-u"; "a"]; worker_spawned 0] in
  (in_order gui /\ is_stoppable gui 0 = true)
  /\ exists instance_id data,
      In (instance_id, data) (running_processes gui)
      /\ tab_widget gui 0 = Some (output_widget data)
      /\ isRunning (thread data) = true
      /\ forall env,
          stop_current_sqlmap_instance gui 0 env
          = (fst (stop (thread data) env),
             set_thread gui instance_id (snd (stop (thread data) env))).
Proof.
  intros gui.
  assert (H1 : in_order gui)
    by exact (in_order_after initial _ in_order_initial).
  assert (H2 : is_stoppable gui 0 = true) by reflexivity.
  split; [now split|].
  exact (proj2 (X13_stop_button_agrees gui 0%Z) H1 H2).
Defined.

Lemma registered_after_unregister gui k0 k :
  k <> k0 -> registered (unregister gui k0) k = registered gui k.
Proof.
  intros Hne. unfold registered, unregister, dict_mem.
  cbn [running_processes].
  induction (running_processes gui) as [|[k' v] rest IH]; [reflexivity|].
  cbn [dict_del dict_get]. destruct (k0 =? k')%nat eqn:H0.
  - apply Nat.eqb_eq in H0. subst k'.
    assert (Hk : (k =? k0)%nat = false) by now apply Nat.eqb_neq.
    now rewrite Hk.
  - cbn [dict_get]. now destruct (k =? k')%nat.
Qed.

Lemma registered_set_thread gui k0 t k :
  registered (set_thread gui k0 t) k = registered gui k.
Proof.
  unfold registered, set_thread, dict_mem. cbn [running_processes].
  induction (running_processes gui) as [|[k' v] rest IH]; [reflexivity|].
  cbn [map dict_get].
  destruct (k' =? k0)%nat; cbn [dict_get]; destruct (k =? k')%nat; trivial.
Qed.

Lemma registered_In gui k data :
  In (k, data) (running_processes gui) -> registered gui k = true.
Proof.
  unfold registered, dict_mem.
  induction (running_processes gui) as [|[k' v] rest IH]; [contradiction|].
  cbn [dict_get]. destruct (k =? k')%nat eqn:He; [reflexivity|].
  intros [[= Hk _]|Hin]; [|now apply IH].
  subst k'. now rewrite Nat.eqb_refl in He.
Qed.

(** X14.  Closing a tab.  Answering Cancel to the question about a scan
    that still runs leaves everything as it is.  In every case the signals
    emitted are outputs, the counter of handles does not move and nothing
    gets registered.  The handle of the instance of the tab stays
    registered exactly when its thread ran at the start and the user
    answered Cancel or the thread still runs when [stop] has returned: an
    instance whose worker has left [run] by then is deleted at once, one
    that still runs stays until its terminal signal comes.  No handle of
    another tab leaves the registry. *)
Theorem X14_close_output_tab :
  forall gui index reply_yes env still_running,
    let signals :=
      fst (close_output_tab gui index reply_yes env still_running) in
    let after :=
      snd (close_output_tab gui index reply_yes env still_running) in
    (forall instance_id data,
        find_by_widget (running_processes gui) (tab_widget gui index)
        = Some (instance_id, data) ->
        isRunning (thread data) = true -> reply_yes = false ->
        close_output_tab gui index reply_yes env still_running = ([], gui))
    /\ Forall is_output signals
    /\ thread_counter after = thread_counter gui
    /\ (forall k, registered after k = true -> registered gui k = true)
    /\ (forall instance_id data,
          find_by_widget (running_processes gui) (tab_widget gui index)
          = Some (instance_id, data) ->
          registered after instance_id
          = isRunning (thread data) && (negb reply_yes || still_running))
    /\ (find_by_widget (running_processes gui) (tab_widget gui index) = None ->
        forall k, registered after k = registered gui k)
    /\ (forall k instance_id data,
          find_by_widget (running_processes gui) (tab_widget gui index)
          = Some (instance_id, data) ->
          k <> instance_id ->
          registered after k = registered gui k).
Proof.
  intros gui index reply_yes env still_running. cbv zeta.
  unfold close_output_tab.
  destruct (find_by_widget _ _) as [[k0 data]|] eqn:Hf.
  - pose proof (find_by_widget_In _ _ _ _ Hf) as [Hin Hw].
    pose proof (registered_In gui k0 data Hin) as Hreg.
    pose proof (unregister_forgets
                  {| thread_counter := thread_counter gui;
                     running_processes := running_processes gui;
                     output_tabs := remove_tab (output_tabs gui) index;
                     next_output_edit := next_output_edit gui |} k0)
      as Hforget.
    destruct (isRunning (thread data)) eqn:Hrun.
    + destruct reply_yes.
      * pose proof (stop_outputs (thread data) env) as Hout.
        destruct (stop (thread data) env) as [sig t].
        destruct still_running; cbn [fst snd] in *.
        -- split; [intros i d [= <- <-] _ H; discriminate|].
           split; [exact Hout|]. split; [reflexivity|].
           split; [intros k;
                   now rewrite <- (registered_set_thread gui k0 t k)|].
           split; [intros i d [= <- <-]; rewrite Hrun;
                   now rewrite <- (registered_set_thread gui k0 t k0) in Hreg|].
           split; [discriminate|].
           intros k i d [= <- <-] _.
           now rewrite <- (registered_set_thread gui k0 t k).
        -- split; [intros i d [= <- <-] _ H; discriminate|].
           split; [exact Hout|]. split; [reflexivity|].
           split.
           { intros k. destruct (Nat.eq_dec k k0) as [->|Hne];
               [congruence|].
             now rewrite (registered_after_unregister _ k0 k Hne). }
           split; [intros i d [= <- <-]; now rewrite Hrun|].
           split; [discriminate|].
           intros k i d [= <- <-] Hne.
           now rewrite (registered_after_unregister _ k0 k Hne).
      * cbn [fst snd]. split; [reflexivity|].
        split; [constructor|]. split; [reflexivity|].
        split; [now intros k H|].
        split; [intros i d [= <- <-]; now rewrite Hrun|].
        split; [discriminate|]. reflexivity.
    + cbn [fst snd]. split; [intros i d [= <- <-] H; congruence|].
      split; [constructor|]. split; [reflexivity|].
      split.
      { intros k. destruct (Nat.eq_dec k k0) as [->|Hne]; [congruence|].
        now rewrite (registered_after_unregister _ k0 k Hne). }
      split; [intros i d [= <- <-]; now rewrite Hrun|].
      split; [discriminate|].
      intros k i d [= <- <-] Hne.
      now rewrite (registered_after_unregister _ k0 k Hne).
  - cbn [fst snd]. split; [discriminate|].
    split; [constructor|]. split; [reflexivity|].
    split; [now intros k H|].
    split; [discriminate|].
    split; [reflexivity | discriminate].
Qed.

(** A scan that still runs; the user closes its tab and answers Yes; the
    child ends on [terminate] and the worker has left [run] when [stop]
    returns, so the handle is deleted at once. *)
Lemma X14_close_output_tab_witness :
  let gui :=
    after initial [start_clicked ["sqlmap"; "-u"; "a"]; worker_spawned 0] in
  let env := {| poll_now := None; terminate_wait := wait_returns (-15) |} in
  (exists data,
      find_by_widget (running_processes gui) (tab_widget gui 0)
      = Some (0, data)
      /\ isRunning (thread data) = true)
  /\ registered gui 0 = true
  /\ registered (snd (close_output_tab gui 0 true env false)) 0 = false
  /\ registered (snd (close_output_tab gui 0 true env true)) 0 = true.
Proof.
  intros gui env.
  assert (H : find_by_widget (running_processes gui) (tab_widget gui 0)
              = Some (0, {| thread :=
                              {| command_list := ["sqlmap"; "-u"; "a"];
                                 process := Some {| returncode := None |};
                                 _is_running := true; identifier := 0;
                                 isRunning := true |};
                            output_widget := 0 |})) by reflexivity.
  split; [eexists; split; [exact H | reflexivity]|].
  split; [reflexivity|]. split.
  - exact (proj1 (proj2 (proj2 (proj2 (proj2
             (X14_close_output_tab gui 0%Z true env false))))) _ _ H).
  - exact (proj1 (proj2 (proj2 (proj2 (proj2
             (X14_close_output_tab gui 0%Z true env true))))) _ _ H).
Defined.

Lemma names_request_or_config_In command_list :
  names_request_or_config command_list = true
  <-> In "-r" command_list \/ In "-c" command_list.
Proof.
  unfold names_request_or_config. rewrite existsb_exists. split.
  - intros [opt [Hin H]]. cbn [existsb] in H.
    rewrite orb_false_r in H. apply orb_true_iff in H as [H|H];
      apply String.eqb_eq in H; subst; tauto.
  - intros [H|H]; [exists "-r" | exists "-c"]; now split.
Qed.

(** X15.  Pressing the start button.  The call raises only when the
    assembler does.  When it starts nothing, the window is as before.  It
    starts a scan only for a command the assembler returned that names a
    target, or holds the token [-r] or [-c]; in a tab only if, for a command
    with an interactive flag and without [--batch], the user agreed to go
    on.  A scan started in a tab takes the value of the counter as its
    handle and, in a registry in order, is registered last, with its
    command, a running thread and a new last tab of its own. *)
Theorem X15_start_sqlmap_instance :
  forall gui env sqlmap_path wm run_external reply_yes,
    let start :=
      start_sqlmap_instance gui env sqlmap_path wm run_external reply_yes in
    let build := build_sqlmap_command env sqlmap_path wm in
    (forall exc, start = Raised exc <-> build = Raised exc)
    /\ forall after outcome,
        start = Returned (after, outcome) ->
        match outcome with
        | nothing_started => after = gui
        | started_externally command_list =>
            after = gui /\ run_external = true
            /\ exists has_target,
                build = Returned (Some command_list, has_target)
                /\ (has_target = true \/ In "-r" command_list
                    \/ In "-c" command_list)
        | started_in_tab instance_id =>
            run_external = false
            /\ instance_id = thread_counter gui
            /\ exists command_list has_target,
                build = Returned (Some command_list, has_target)
                /\ (has_target = true \/ In "-r" command_list
                    \/ In "-c" command_list)
                /\ (has_interactive command_list = true ->
                    has_batch command_list = true \/ reply_yes = true)
                /\ after = fst (start_in_tab gui command_list)
                /\ (in_order gui ->
                    exists data,
                      running_processes after
                      = running_processes gui ++ [(instance_id, data)]
                      /\ command_list = Runner.command_list (thread data)
                      /\ isRunning (thread data) = true
                      /\ output_tabs after
                         = output_tabs gui ++ [output_widget data])
        end.
Proof.
  intros gui env sqlmap_path wm run_external reply_yes. cbv zeta.
  unfold start_sqlmap_instance.
  destruct (build_sqlmap_command env sqlmap_path wm)
    as [exc0|[[cmd|] t]].
  - split; [intros exc; split; intros [= ->]; reflexivity | discriminate].
  - split.
    { intros exc. split; [|discriminate].
      destruct (negb t && negb (names_request_or_config cmd));
        [discriminate|].
      destruct (negb run_external && _ && negb reply_yes); [discriminate|].
      destruct run_external; [discriminate|].
      now destruct (start_in_tab gui cmd). }
    intros after outcome.
    assert (Htarget : negb t && negb (names_request_or_config cmd) = false ->
                      t = true \/ In "-r" cmd \/ In "-c" cmd).
    { intros H. apply andb_false_iff in H as [H|H];
        apply negb_false_iff in H; [now left|].
      right. now apply names_request_or_config_In. }
    destruct (negb t && negb (names_request_or_config cmd)) eqn:Ht;
      [now intros [= <- <-]|].
    destruct (negb run_external
              && (has_interactive cmd && negb (has_batch cmd))
              && negb reply_yes) eqn:Hi; [now intros [= <- <-]|].
    destruct run_external eqn:Hext.
    + intros [= <- <-]. split; [reflexivity|]. split; [reflexivity|].
      exists t. split; [reflexivity | exact (Htarget eq_refl)].
    + destruct (start_in_tab gui cmd) as [g h] eqn:Hs. intros [= <- <-].
      split; [reflexivity|].
      assert (Hh : h = thread_counter gui)
        by (unfold start_in_tab, __init__ in Hs; now injection Hs).
      split; [exact Hh|]. exists cmd, t.
      split; [reflexivity|]. split; [exact (Htarget eq_refl)|]. split.
      { intros Hint. rewrite Hint in Hi. cbn [negb andb] in Hi.
        destruct (has_batch cmd); [now left|]. right.
        now destruct reply_yes. }
      split; [now rewrite Hs|].
      intros Hord. pose proof (in_order_keys_below gui Hord) as Hfresh.
      unfold start_in_tab, __init__ in Hs. injection Hs as <- <-.
      cbn [running_processes output_tabs identifier].
      rewrite (dict_set_new _ _ _ Hfresh). eexists.
      split; [reflexivity|]. now repeat split.
  - split; [intros exc; split; discriminate|].
    now intros after outcome [= <- <-].
Qed.

(** The form of the end-to-end example, started in a tab of a new window. *)
Lemma X15_start_sqlmap_instance_witness :
  start_sqlmap_instance initial example_env "sqlmap" example_form false false
  = Returned
      (fst (start_in_tab initial
              ["sqlmap"; "-u"; "http://x/a.php?id=1"; "--timeout=45";
               "--random-agent"]),
       started_in_tab 0)
  /\ in_order initial
  /\ exists data,
      running_processes
        (fst (start_in_tab initial
                ["sqlmap"; "-u"; "http://x/a.php?id=1"; "--timeout=45";
                 "--random-agent"]))
      = running_processes initial ++ [(0, data)]
      /\ isRunning (thread data) = true.
Proof.
  assert (H : start_sqlmap_instance initial example_env "sqlmap" example_form
                false false
              = Returned
                  (fst (start_in_tab initial
                          ["sqlmap"; "-u"; "http://x/a.php?id=1";
                           "--timeout=45"; "--random-agent"]),
                   started_in_tab 0)) by reflexivity.
  split; [exact H|]. split; [exact in_order_initial|].
  pose proof (proj2 (X15_start_sqlmap_instance initial example_env "sqlmap"
                       example_form false false) _ _ H) as Hstart.
  cbv beta iota in Hstart.
  destruct Hstart as [_ [_ [cmd [t [_ [_ [_ [_ Hreg]]]]]]]].
  destruct (Hreg in_order_initial) as [data [Hrp [_ [Hrun _]]]].
  exists data. now split.
Defined.

(** ** A scan from start to end *)

Lemma dict_del_absent (entries : dict nat instance) k :
  ~ In k (map fst entries) -> dict_del Nat.eqb entries k = entries.
Proof.
  induction entries as [|[k' v'] rest IH]; intros Hnot; [reflexivity|].
  cbn [dict_del]. destruct (k =? k')%nat eqn:He.
  - apply Nat.eqb_eq in He. subst. exfalso. apply Hnot. now left.
  - rewrite IH; [reflexivity|]. intros H. apply Hnot. now right.
Qed.

Lemma dict_del_added (entries : dict nat instance) k v :
  ~ In k (map fst entries) ->
  dict_del Nat.eqb (entries ++ [(k, v)]) k = entries.
Proof.
  induction entries as [|[k' v'] rest IH]; intros Hnot.
  - cbn. now rewrite Nat.eqb_refl.
  - cbn [app dict_del]. destruct (k =? k')%nat eqn:He.
    + apply Nat.eqb_eq in He. subst. exfalso. apply Hnot. now left.
    + rewrite IH; [reflexivity|]. intros H. apply Hnot. now right.
Qed.

Lemma dict_mem_added (entries : dict nat instance) k v :
  dict_mem Nat.eqb (entries ++ [(k, v)]) k = true.
Proof.
  unfold dict_mem. induction entries as [|[k' v'] rest IH]; cbn [app dict_get].
  - now rewrite Nat.eqb_refl.
  - now destruct (k =? k')%nat.
Qed.

Lemma dict_get_added (entries : dict nat instance) k v :
  ~ In k (map fst entries) ->
  dict_get Nat.eqb (entries ++ [(k, v)]) k = Some v.
Proof.
  induction entries as [|[k' v'] rest IH]; intros Hnot; cbn [app dict_get].
  - now rewrite Nat.eqb_refl.
  - destruct (k =? k')%nat eqn:He.
    + apply Nat.eqb_eq in He. subst. exfalso. apply Hnot. now left.
    + apply IH. intros H. apply Hnot. now right.
Qed.

(** X16.  A scan from start to end gives the registry back.  Start a scan
    in a tab of a window whose registry is in order, let its thread run to
    the end of its loop (or fail to spawn), and let the window handle the
    signals of the run in order: the registry is then what it was before
    the start, the handle of the scan is no longer registered, and the
    counter stands one above the handle. *)
Theorem X16_scan_leaves_registry_as_found :
  forall gui command_list env,
    in_order gui ->
    (popen env = FileNotFoundError -> command_list <> []) ->
    (popen env = spawned -> loop_ends (iterations env) = true) ->
    let started := fst (start_in_tab gui command_list) in
    let instance_id := snd (start_in_tab gui command_list) in
    exists data,
      dict_get Nat.eqb (running_processes started) instance_id = Some data
      /\ Runner.command_list (thread data) = command_list
      /\ let signals := fst (run (thread data) env) in
         let closed := fst (deliver_all started signals) in
         snd (run (thread data) env) = returned
         /\ running_processes closed = running_processes gui
         /\ registered closed instance_id = false
         /\ thread_counter closed = S instance_id
         /\ terminal_acts started signals = 1.
Proof.
  intros gui cmd env Hord Hcmd Hends. cbv zeta.
  pose proof (in_order_keys_below gui Hord) as Hfresh.
  set (t := with_thread (fst (__init__ (thread_counter gui) cmd)) true).
  set (data := {| thread := t; output_widget := next_output_edit gui |}).
  assert (Hrp : running_processes (fst (start_in_tab gui cmd))
                = running_processes gui ++ [(thread_counter gui, data)]).
  { unfold start_in_tab, __init__.
    cbn [fst running_processes identifier].
    now rewrite (dict_set_new _ _ _ Hfresh). }
  assert (Hh : snd (start_in_tab gui cmd) = thread_counter gui) by reflexivity.
  assert (Hc : thread_counter (fst (start_in_tab gui cmd))
               = S (thread_counter gui))
    by (unfold start_in_tab, __init__; cbn; lia).
  exists data. rewrite Hh. split.
  { rewrite Hrp. now apply dict_get_added. }
  split; [reflexivity|].
  destruct (run_shape t env Hcmd Hends) as [Hret [outs [Ho [_ Hs]]]].
  cbn [thread data].
  split; [exact Hret|].
  change (identifier t) with (thread_counter gui) in Hs.
  set (g := fst (start_in_tab gui cmd)) in *.
  assert (Hreg : registered g (thread_counter gui) = true)
    by (unfold registered; rewrite Hrp; apply dict_mem_added).
  assert (Hun : running_processes (unregister g (thread_counter gui))
                = running_processes gui)
    by (unfold unregister; cbn [running_processes]; rewrite Hrp;
        now apply dict_del_added).
  destruct Hs as [[_ [rc Hs]]|[_ [msg Hs]]]; rewrite Hs.
  - destruct (deliver_outputs g outs
                [processFinished (thread_counter gui) rc] Ho) as [Ha Hd].
    rewrite Ha, Hd. cbn [terminal_acts deliver_all deliver].
    unfold on_process_finished. rewrite Hreg.
    cbn [fst is_error is_finished orb andb Nat.add].
    split; [exact Hun|]. split; [apply unregister_forgets|].
    split; [exact Hc | reflexivity].
  - destruct (deliver_outputs g outs
                [processError (thread_counter gui) msg;
                 processFinished (thread_counter gui) (-1)] Ho) as [Ha Hd].
    rewrite Ha, Hd. cbn [terminal_acts deliver_all deliver].
    unfold on_process_error. rewrite Hreg.
    unfold on_process_finished. rewrite unregister_forgets.
    cbn [fst is_error is_finished orb andb Nat.add].
    split; [exact Hun|]. split; [apply unregister_forgets|].
    split; [exact Hc | reflexivity].
Qed.

(** A second scan, whose executable is not found, beside a running one. *)
Lemma X16_scan_leaves_registry_as_found_witness :
  let gui := after initial [start_clicked ["sqlmap"; "-u"; "a"]] in
  let env := {| popen := FileNotFoundError; iterations := [];
                poll_after_loop := None; wait_timeout := None;
                wait := 0%Z |} in
  (in_order gui
   /\ (popen env = FileNotFoundError -> ["sqlmap"; "-u"; "b"] <> [])
   /\ (popen env = spawned -> loop_ends (iterations env) = true))
  /\ exists data,
      dict_get Nat.eqb
        (running_processes (fst (start_in_tab gui ["sqlmap"; "-u"; "b"]))) 1
      = Some data
      /\ running_processes
           (fst (deliver_all (fst (start_in_tab gui ["sqlmap"; "-u"; "b"]))
                   (fst (run (thread data) env))))
         = running_processes gui.
Proof.
  intros gui env.
  assert (H1 : in_order gui)
    by exact (in_order_after initial _ in_order_initial).
  assert (H2 : popen env = FileNotFoundError -> ["sqlmap"; "-u"; "b"] <> [])
    by discriminate.
  assert (H3 : popen env = spawned -> loop_ends (iterations env) = true)
    by discriminate.
  split; [split; [exact H1 | split; [exact H2 | exact H3]]|].
  destruct (X16_scan_leaves_registry_as_found gui ["sqlmap"; "-u"; "b"] env
              H1 H2 H3) as [data [Hget [_ [_ [Hrp _]]]]].
  exists data. split; [exact Hget | exact Hrp].
Defined.

(** X17.  Signals for handles that are not registered, because no scan was
    started under them here or because their scan has been closed, leave
    the window as it is: no slot acts on any of them. *)
Theorem X17_late_signals_are_ignored :
  forall gui signals,
    Forall (fun n => registered gui (handle_of n) = false) signals ->
    deliver_all gui signals = (gui, map (fun _ => false) signals)
    /\ terminal_acts gui signals = 0.
Proof.
  intros gui signals. induction 1 as [|n rest Hn _ [IH1 IH2]]; [now split|].
  cbn [deliver_all terminal_acts map].
  assert (Hd : deliver gui n = (gui, false)).
  { destruct n; cbn [deliver handle_of] in *;
      unfold update_output, on_process_finished, on_process_error;
      now rewrite Hn. }
  rewrite Hd, IH1, IH2. now rewrite andb_false_r.
Qed.

(** The signals of a scan whose tab was closed while it ran: the child
    ended on [terminate], the worker had left [run] when [stop] returned,
    and the signals it had emitted reach the slots after the close. *)
Lemma X17_late_signals_are_ignored_witness :
  let gui :=
    after initial
      [start_clicked ["sqlmap"; "-u"; "a"]; worker_spawned 0;
       tab_close_requested 0 true
         {| poll_now := None; terminate_wait := wait_returns (-15) |} false] in
  let signals := [outputTextAvailable 0 "late"; processFinished 0 (-15)] in
  Forall (fun n => registered gui (handle_of n) = false) signals
  /\ deliver_all gui signals = (gui, [false; false]).
Proof.
  intros gui signals.
  assert (H : Forall (fun n => registered gui (handle_of n) = false) signals)
    by (repeat constructor).
  split; [exact H|].
  exact (proj1 (X17_late_signals_are_ignored gui signals H)).
Defined.
